(** * pdf-renamer: a shallow embedding of [renamer.py]

    The functions of the Python module are translated one by one and keep
    their names: identifier extraction ([extract_pdf_info], with the two
    patterns), the provider clients, the resolution pipeline
    ([resolve_metadata]), filename sanitization ([_sanitize_filename]),
    the rename log with undo ([undo_single], [undo_session]) and the
    rename executor ([execute_renames]).  The properties proved about
    them follow the definitions.

    Conventions.
    - A Python [str] is a list of Unicode code points ([N]); [py] turns an
      ASCII literal into one.
    - A Python [float] is the kernel's binary64 type ([PrimFloat.float]).
    - The rename log (a JSON list of entries, updated by index) is a
      [list] with stdpp's lookup and insert; the files on disk are a
      [gmap] from path to content; sets of words are [gset]s.
    - Everything that reaches outside the process (HTTP requests, the PDF
      reader, the settings file, the clock, the disk) runs in a small
      monad [M] that reads a [World], threads a [State], records each
      request and can raise, so that the [try]/[except] blocks of the
      source keep their meaning: a request, a call on an open document,
      the loading of the settings and a move of a file can each raise,
      and an exception goes up to the first handler around it.
    - Template substitution ([generate_filename]) and directory scanning
      are not part of the development; the settings are read as a
      record of the three fields that the functions here use. *)

From Stdlib Require Import ZArith NArith Ascii String List Bool Lia.
From Stdlib Require Import DecimalString DecimalNat Decimal Sorting.Sorted.
From Stdlib Require Import Floats.PrimFloat Floats.FloatOps Floats.SpecFloat.
From Stdlib Require Import Numbers.Cyclic.Int63.Uint63.
From stdpp Require Import base option list gmap.
Import ListNotations.

Set Warnings "-inexact-float".
Local Open Scope N_scope.
Local Open Scope list_scope.

(* ===================================================================== *)
(** * Python strings *)
(* ===================================================================== *)

Abbreviation pystr := (list N).

(** Code point of an ASCII character. *)
Definition ch (a : ascii) : N := N_of_ascii a.

(** An ASCII literal as a Python string. *)
Definition py (s : string) : pystr := map ch (list_ascii_of_string s).
Arguments ch : simpl never.
Arguments py : simpl never.

(** [str.isspace] on one code point; also the class [\s] of a [str]
    pattern.  These are exactly the code points CPython classifies as
    white space. *)
Definition is_space (c : N) : bool :=
  ((9 <=? c) && (c <=? 13)) || ((28 <=? c) && (c <=? 32))
  || (c =? 133) || (c =? 160) || (c =? 5760)
  || ((8192 <=? c) && (c <=? 8202))
  || (c =? 8232) || (c =? 8233) || (c =? 8239) || (c =? 8287) || (c =? 12288).

(** The class [\d] of a [str] pattern: the decimal digits of every
    script (Unicode 14), ten from each of these zeros. *)
Definition digit_zeros : list N :=
  [48; 1632; 1776; 1984; 2406; 2534; 2662; 2790; 2918; 3046; 3174; 3302;
   3430; 3558; 3664; 3792; 3872; 4160; 4240; 6112; 6160; 6470; 6608; 6784;
   6800; 6992; 7088; 7232; 7248; 42528; 43216; 43264; 43472; 43504; 43600;
   44016; 65296; 66720; 68912; 69734; 69872; 69942; 70096; 70384; 70736;
   70864; 71248; 71360; 71472; 71904; 72016; 72784; 73040; 73120; 92768;
   92864; 93008; 120782; 120792; 120802; 120812; 120822; 123200; 123632;
   125264; 130032].

Definition is_digit (c : N) : bool :=
  existsb (fun z => (z <=? c) && (c <=? z + 9)) digit_zeros.

(** [str.lower], from the character data of Unicode 14.0 that CPython 3.11
    carries.  A row [(a, b, step, t)] of [lower_table] says that the code
    points [a], [a + step], ... up to [b] have the simple lowercase
    mappings [t], [t + step], ...; a code point in no row is its own
    lowercase. *)
Definition lower_table : list (N * N * N * N) :=
  [(65, 90, 1, 97); (192, 214, 1, 224); (216, 222, 1, 248); (256, 302, 2,
   257); (304, 304, 1, 105); (306, 310, 2, 307); (313, 327, 2, 314); (330,
   374, 2, 331); (376, 376, 1, 255); (377, 381, 2, 378); (385, 385, 1, 595);
   (386, 388, 2, 387); (390, 390, 1, 596); (391, 391, 1, 392); (393, 394, 1,
   598); (395, 395, 1, 396); (398, 398, 1, 477); (399, 399, 1, 601); (400,
   400, 1, 603); (401, 401, 1, 402); (403, 403, 1, 608); (404, 404, 1, 611);
   (406, 406, 1, 617); (407, 407, 1, 616); (408, 408, 1, 409); (412, 412, 1,
   623); (413, 413, 1, 626); (415, 415, 1, 629); (416, 420, 2, 417); (422,
   422, 1, 640); (423, 423, 1, 424); (425, 425, 1, 643); (428, 428, 1, 429);
   (430, 430, 1, 648); (431, 431, 1, 432); (433, 434, 1, 650); (435, 437, 2,
   436); (439, 439, 1, 658); (440, 440, 1, 441); (444, 444, 1, 445); (452,
   452, 1, 454); (453, 453, 1, 454); (455, 455, 1, 457); (456, 456, 1, 457);
   (458, 458, 1, 460); (459, 475, 2, 460); (478, 494, 2, 479); (497, 497, 1,
   499); (498, 500, 2, 499); (502, 502, 1, 405); (503, 503, 1, 447); (504,
   542, 2, 505); (544, 544, 1, 414); (546, 562, 2, 547); (570, 570, 1,
   11365); (571, 571, 1, 572); (573, 573, 1, 410); (574, 574, 1, 11366);
   (577, 577, 1, 578); (579, 579, 1, 384); (580, 580, 1, 649); (581, 581, 1,
   652); (582, 590, 2, 583); (880, 882, 2, 881); (886, 886, 1, 887); (895,
   895, 1, 1011); (902, 902, 1, 940); (904, 906, 1, 941); (908, 908, 1,
   972); (910, 911, 1, 973); (913, 929, 1, 945); (931, 939, 1, 963); (975,
   975, 1, 983); (984, 1006, 2, 985); (1012, 1012, 1, 952); (1015, 1015, 1,
   1016); (1017, 1017, 1, 1010); (1018, 1018, 1, 1019); (1021, 1023, 1,
   891); (1024, 1039, 1, 1104); (1040, 1071, 1, 1072); (1120, 1152, 2,
   1121); (1162, 1214, 2, 1163); (1216, 1216, 1, 1231); (1217, 1229, 2,
   1218); (1232, 1326, 2, 1233); (1329, 1366, 1, 1377); (4256, 4293, 1,
   11520); (4295, 4295, 1, 11559); (4301, 4301, 1, 11565); (5024, 5103, 1,
   43888); (5104, 5109, 1, 5112); (7312, 7354, 1, 4304); (7357, 7359, 1,
   4349); (7680, 7828, 2, 7681); (7838, 7838, 1, 223); (7840, 7934, 2,
   7841); (7944, 7951, 1, 7936); (7960, 7965, 1, 7952); (7976, 7983, 1,
   7968); (7992, 7999, 1, 7984); (8008, 8013, 1, 8000); (8025, 8031, 2,
   8017); (8040, 8047, 1, 8032); (8072, 8079, 1, 8064); (8088, 8095, 1,
   8080); (8104, 8111, 1, 8096); (8120, 8121, 1, 8112); (8122, 8123, 1,
   8048); (8124, 8124, 1, 8115); (8136, 8139, 1, 8050); (8140, 8140, 1,
   8131); (8152, 8153, 1, 8144); (8154, 8155, 1, 8054); (8168, 8169, 1,
   8160); (8170, 8171, 1, 8058); (8172, 8172, 1, 8165); (8184, 8185, 1,
   8056); (8186, 8187, 1, 8060); (8188, 8188, 1, 8179); (8486, 8486, 1,
   969); (8490, 8490, 1, 107); (8491, 8491, 1, 229); (8498, 8498, 1, 8526);
   (8544, 8559, 1, 8560); (8579, 8579, 1, 8580); (9398, 9423, 1, 9424);
   (11264, 11311, 1, 11312); (11360, 11360, 1, 11361); (11362, 11362, 1,
   619); (11363, 11363, 1, 7549); (11364, 11364, 1, 637); (11367, 11371, 2,
   11368); (11373, 11373, 1, 593); (11374, 11374, 1, 625); (11375, 11375, 1,
   592); (11376, 11376, 1, 594); (11378, 11378, 1, 11379); (11381, 11381, 1,
   11382); (11390, 11391, 1, 575); (11392, 11490, 2, 11393); (11499, 11501,
   2, 11500); (11506, 11506, 1, 11507); (42560, 42604, 2, 42561); (42624,
   42650, 2, 42625); (42786, 42798, 2, 42787); (42802, 42862, 2, 42803);
   (42873, 42875, 2, 42874); (42877, 42877, 1, 7545); (42878, 42886, 2,
   42879); (42891, 42891, 1, 42892); (42893, 42893, 1, 613); (42896, 42898,
   2, 42897); (42902, 42920, 2, 42903); (42922, 42922, 1, 614); (42923,
   42923, 1, 604); (42924, 42924, 1, 609); (42925, 42925, 1, 620); (42926,
   42926, 1, 618); (42928, 42928, 1, 670); (42929, 42929, 1, 647); (42930,
   42930, 1, 669); (42931, 42931, 1, 43859); (42932, 42946, 2, 42933);
   (42948, 42948, 1, 42900); (42949, 42949, 1, 642); (42950, 42950, 1,
   7566); (42951, 42953, 2, 42952); (42960, 42960, 1, 42961); (42966, 42968,
   2, 42967); (42997, 42997, 1, 42998); (65313, 65338, 1, 65345); (66560,
   66599, 1, 66600); (66736, 66771, 1, 66776); (66928, 66938, 1, 66967);
   (66940, 66954, 1, 66979); (66956, 66962, 1, 66995); (66964, 66965, 1,
   67003); (68736, 68786, 1, 68800); (71840, 71871, 1, 71872); (93760,
   93791, 1, 93792); (125184, 125217, 1, 125218)].

Definition lower_cp (c : N) : N :=
  match List.find (fun '(a, b, step, _) =>
                     (a <=? c) && (c <=? b) && ((c - a) mod step =? 0))
                  lower_table with
  | Some (a, _, _, t) => t + (c - a)
  | None => c
  end.

(** The code points with the property Case_Ignorable, and those with the
    property Cased, as ranges. *)
Definition case_ignorable_ranges : list (N * N) :=
  [(39, 39); (46, 46); (58, 58); (94, 94); (96, 96); (168, 168); (173, 173);
   (175, 175); (180, 180); (183, 184); (688, 879); (884, 885); (890, 890);
   (900, 901); (903, 903); (1155, 1161); (1369, 1369); (1375, 1375); (1425,
   1469); (1471, 1471); (1473, 1474); (1476, 1477); (1479, 1479); (1524,
   1524); (1536, 1541); (1552, 1562); (1564, 1564); (1600, 1600); (1611,
   1631); (1648, 1648); (1750, 1757); (1759, 1768); (1770, 1773); (1807,
   1807); (1809, 1809); (1840, 1866); (1958, 1968); (2027, 2037); (2042,
   2042); (2045, 2045); (2070, 2093); (2137, 2139); (2184, 2184); (2192,
   2193); (2200, 2207); (2249, 2306); (2362, 2362); (2364, 2364); (2369,
   2376); (2381, 2381); (2385, 2391); (2402, 2403); (2417, 2417); (2433,
   2433); (2492, 2492); (2497, 2500); (2509, 2509); (2530, 2531); (2558,
   2558); (2561, 2562); (2620, 2620); (2625, 2626); (2631, 2632); (2635,
   2637); (2641, 2641); (2672, 2673); (2677, 2677); (2689, 2690); (2748,
   2748); (2753, 2757); (2759, 2760); (2765, 2765); (2786, 2787); (2810,
   2815); (2817, 2817); (2876, 2876); (2879, 2879); (2881, 2884); (2893,
   2893); (2901, 2902); (2914, 2915); (2946, 2946); (3008, 3008); (3021,
   3021); (3072, 3072); (3076, 3076); (3132, 3132); (3134, 3136); (3142,
   3144); (3146, 3149); (3157, 3158); (3170, 3171); (3201, 3201); (3260,
   3260); (3263, 3263); (3270, 3270); (3276, 3277); (3298, 3299); (3328,
   3329); (3387, 3388); (3393, 3396); (3405, 3405); (3426, 3427); (3457,
   3457); (3530, 3530); (3538, 3540); (3542, 3542); (3633, 3633); (3636,
   3642); (3654, 3662); (3761, 3761); (3764, 3772); (3782, 3782); (3784,
   3789); (3864, 3865); (3893, 3893); (3895, 3895); (3897, 3897); (3953,
   3966); (3968, 3972); (3974, 3975); (3981, 3991); (3993, 4028); (4038,
   4038); (4141, 4144); (4146, 4151); (4153, 4154); (4157, 4158); (4184,
   4185); (4190, 4192); (4209, 4212); (4226, 4226); (4229, 4230); (4237,
   4237); (4253, 4253); (4348, 4348); (4957, 4959); (5906, 5908); (5938,
   5939); (5970, 5971); (6002, 6003); (6068, 6069); (6071, 6077); (6086,
   6086); (6089, 6099); (6103, 6103); (6109, 6109); (6155, 6159); (6211,
   6211); (6277, 6278); (6313, 6313); (6432, 6434); (6439, 6440); (6450,
   6450); (6457, 6459); (6679, 6680); (6683, 6683); (6742, 6742); (6744,
   6750); (6752, 6752); (6754, 6754); (6757, 6764); (6771, 6780); (6783,
   6783); (6823, 6823); (6832, 6862); (6912, 6915); (6964, 6964); (6966,
   6970); (6972, 6972); (6978, 6978); (7019, 7027); (7040, 7041); (7074,
   7077); (7080, 7081); (7083, 7085); (7142, 7142); (7144, 7145); (7149,
   7149); (7151, 7153); (7212, 7219); (7222, 7223); (7288, 7293); (7376,
   7378); (7380, 7392); (7394, 7400); (7405, 7405); (7412, 7412); (7416,
   7417); (7468, 7530); (7544, 7544); (7579, 7679); (8125, 8125); (8127,
   8129); (8141, 8143); (8157, 8159); (8173, 8175); (8189, 8190); (8203,
   8207); (8216, 8217); (8228, 8228); (8231, 8231); (8234, 8238); (8288,
   8292); (8294, 8303); (8305, 8305); (8319, 8319); (8336, 8348); (8400,
   8432); (11388, 11389); (11503, 11505); (11631, 11631); (11647, 11647);
   (11744, 11775); (11823, 11823); (12293, 12293); (12330, 12333); (12337,
   12341); (12347, 12347); (12441, 12446); (12540, 12542); (40981, 40981);
   (42232, 42237); (42508, 42508); (42607, 42610); (42612, 42621); (42623,
   42623); (42652, 42655); (42736, 42737); (42752, 42785); (42864, 42864);
   (42888, 42890); (42994, 42996); (43000, 43001); (43010, 43010); (43014,
   43014); (43019, 43019); (43045, 43046); (43052, 43052); (43204, 43205);
   (43232, 43249); (43263, 43263); (43302, 43309); (43335, 43345); (43392,
   43394); (43443, 43443); (43446, 43449); (43452, 43453); (43471, 43471);
   (43493, 43494); (43561, 43566); (43569, 43570); (43573, 43574); (43587,
   43587); (43596, 43596); (43632, 43632); (43644, 43644); (43696, 43696);
   (43698, 43700); (43703, 43704); (43710, 43711); (43713, 43713); (43741,
   43741); (43756, 43757); (43763, 43764); (43766, 43766); (43867, 43871);
   (43881, 43883); (44005, 44005); (44008, 44008); (44013, 44013); (64286,
   64286); (64434, 64450); (65024, 65039); (65043, 65043); (65056, 65071);
   (65106, 65106); (65109, 65109); (65279, 65279); (65287, 65287); (65294,
   65294); (65306, 65306); (65342, 65342); (65344, 65344); (65392, 65392);
   (65438, 65439); (65507, 65507); (65529, 65531); (66045, 66045); (66272,
   66272); (66422, 66426); (67456, 67461); (67463, 67504); (67506, 67514);
   (68097, 68099); (68101, 68102); (68108, 68111); (68152, 68154); (68159,
   68159); (68325, 68326); (68900, 68903); (69291, 69292); (69446, 69456);
   (69506, 69509); (69633, 69633); (69688, 69702); (69744, 69744); (69747,
   69748); (69759, 69761); (69811, 69814); (69817, 69818); (69821, 69821);
   (69826, 69826); (69837, 69837); (69888, 69890); (69927, 69931); (69933,
   69940); (70003, 70003); (70016, 70017); (70070, 70078); (70089, 70092);
   (70095, 70095); (70191, 70193); (70196, 70196); (70198, 70199); (70206,
   70206); (70367, 70367); (70371, 70378); (70400, 70401); (70459, 70460);
   (70464, 70464); (70502, 70508); (70512, 70516); (70712, 70719); (70722,
   70724); (70726, 70726); (70750, 70750); (70835, 70840); (70842, 70842);
   (70847, 70848); (70850, 70851); (71090, 71093); (71100, 71101); (71103,
   71104); (71132, 71133); (71219, 71226); (71229, 71229); (71231, 71232);
   (71339, 71339); (71341, 71341); (71344, 71349); (71351, 71351); (71453,
   71455); (71458, 71461); (71463, 71467); (71727, 71735); (71737, 71738);
   (71995, 71996); (71998, 71998); (72003, 72003); (72148, 72151); (72154,
   72155); (72160, 72160); (72193, 72202); (72243, 72248); (72251, 72254);
   (72263, 72263); (72273, 72278); (72281, 72283); (72330, 72342); (72344,
   72345); (72752, 72758); (72760, 72765); (72767, 72767); (72850, 72871);
   (72874, 72880); (72882, 72883); (72885, 72886); (73009, 73014); (73018,
   73018); (73020, 73021); (73023, 73029); (73031, 73031); (73104, 73105);
   (73109, 73109); (73111, 73111); (73459, 73460); (78896, 78904); (92912,
   92916); (92976, 92982); (92992, 92995); (94031, 94031); (94095, 94111);
   (94176, 94177); (94179, 94180); (110576, 110579); (110581, 110587);
   (110589, 110590); (113821, 113822); (113824, 113827); (118528, 118573);
   (118576, 118598); (119143, 119145); (119155, 119170); (119173, 119179);
   (119210, 119213); (119362, 119364); (121344, 121398); (121403, 121452);
   (121461, 121461); (121476, 121476); (121499, 121503); (121505, 121519);
   (122880, 122886); (122888, 122904); (122907, 122913); (122915, 122916);
   (122918, 122922); (123184, 123197); (123566, 123566); (123628, 123631);
   (125136, 125142); (125252, 125259); (127995, 127999); (917505, 917505);
   (917536, 917631); (917760, 917999)].

Definition cased_ranges : list (N * N) :=
  [(65, 90); (97, 122); (170, 170); (181, 181); (186, 186); (192, 214);
   (216, 246); (248, 442); (444, 447); (452, 659); (661, 696); (704, 705);
   (736, 740); (837, 837); (880, 883); (886, 887); (890, 893); (895, 895);
   (902, 902); (904, 906); (908, 908); (910, 929); (931, 1013); (1015,
   1153); (1162, 1327); (1329, 1366); (1376, 1416); (4256, 4293); (4295,
   4295); (4301, 4301); (4304, 4346); (4349, 4351); (5024, 5109); (5112,
   5117); (7296, 7304); (7312, 7354); (7357, 7359); (7424, 7615); (7680,
   7957); (7960, 7965); (7968, 8005); (8008, 8013); (8016, 8023); (8025,
   8025); (8027, 8027); (8029, 8029); (8031, 8061); (8064, 8116); (8118,
   8124); (8126, 8126); (8130, 8132); (8134, 8140); (8144, 8147); (8150,
   8155); (8160, 8172); (8178, 8180); (8182, 8188); (8305, 8305); (8319,
   8319); (8336, 8348); (8450, 8450); (8455, 8455); (8458, 8467); (8469,
   8469); (8473, 8477); (8484, 8484); (8486, 8486); (8488, 8488); (8490,
   8493); (8495, 8500); (8505, 8505); (8508, 8511); (8517, 8521); (8526,
   8526); (8544, 8575); (8579, 8580); (9398, 9449); (11264, 11492); (11499,
   11502); (11506, 11507); (11520, 11557); (11559, 11559); (11565, 11565);
   (42560, 42605); (42624, 42653); (42786, 42887); (42891, 42894); (42896,
   42954); (42960, 42961); (42963, 42963); (42965, 42969); (42997, 42998);
   (43000, 43002); (43824, 43866); (43868, 43880); (43888, 43967); (64256,
   64262); (64275, 64279); (65313, 65338); (65345, 65370); (66560, 66639);
   (66736, 66771); (66776, 66811); (66928, 66938); (66940, 66954); (66956,
   66962); (66964, 66965); (66967, 66977); (66979, 66993); (66995, 67001);
   (67003, 67004); (67456, 67456); (67459, 67461); (67463, 67504); (67506,
   67514); (68736, 68786); (68800, 68850); (71840, 71903); (93760, 93823);
   (119808, 119892); (119894, 119964); (119966, 119967); (119970, 119970);
   (119973, 119974); (119977, 119980); (119982, 119993); (119995, 119995);
   (119997, 120003); (120005, 120069); (120071, 120074); (120077, 120084);
   (120086, 120092); (120094, 120121); (120123, 120126); (120128, 120132);
   (120134, 120134); (120138, 120144); (120146, 120485); (120488, 120512);
   (120514, 120538); (120540, 120570); (120572, 120596); (120598, 120628);
   (120630, 120654); (120656, 120686); (120688, 120712); (120714, 120744);
   (120746, 120770); (120772, 120779); (122624, 122633); (122635, 122654);
   (125184, 125251); (127280, 127305); (127312, 127337); (127344, 127369)].

Definition in_ranges (ranges : list (N * N)) (c : N) : bool :=
  existsb (fun r => (r.1 <=? c) && (c <=? r.2)) ranges.

Definition case_ignorable (c : N) : bool := in_ranges case_ignorable_ranges c.
Definition cased (c : N) : bool := in_ranges cased_ranges c.

(** Whether the first character of [s] that is not case-ignorable is
    cased. *)
Fixpoint next_is_cased (s : pystr) : bool :=
  match s with
  | [] => false
  | c :: s' => if case_ignorable c then next_is_cased s' else cased c
  end.

(** [s.lower()].  Every character goes to its simple lowercase, but for
    two: the capital I with dot above (U+0130) becomes an i and a
    combining dot above, and the capital sigma (U+03A3) becomes a final
    sigma when a cased letter precedes it and none follows it, characters
    that are case-ignorable being skipped on both sides, and a small
    sigma otherwise.  [prev] says that a cased letter precedes. *)
Fixpoint lower_from (prev : bool) (s : pystr) : pystr :=
  match s with
  | [] => []
  | c :: s' =>
      (if c =? 931 then [if prev && negb (next_is_cased s') then 962 else 963]
       else if c =? 304 then [105; 775]
       else [lower_cp c])
      ++ lower_from (if case_ignorable c then prev else cased c) s'
  end.

Definition str_lower (s : pystr) : pystr := lower_from false s.

Arguments lower_cp : simpl never.
Arguments in_ranges : simpl never.

(** [s.startswith(p)] *)
Fixpoint startswith (p s : pystr) : bool :=
  match p, s with
  | [], _ => true
  | _ :: _, [] => false
  | a :: p', b :: s' => (a =? b) && startswith p' s'
  end.

(** [s.lstrip(chars)], [s.rstrip(chars)] and [s.strip(chars)]; with no
    argument the set is white space. *)
Fixpoint lstrip_by (drop : N -> bool) (s : pystr) : pystr :=
  match s with
  | [] => []
  | c :: s' => if drop c then lstrip_by drop s' else s
  end.

Fixpoint rstrip_by (drop : N -> bool) (s : pystr) : pystr :=
  match s with
  | [] => []
  | c :: s' =>
      match rstrip_by drop s' with
      | [] => if drop c then [] else [c]
      | r => c :: r
      end
  end.

Definition strip_by (drop : N -> bool) (s : pystr) : pystr :=
  rstrip_by drop (lstrip_by drop s).
Definition lstrip (s : pystr) : pystr := lstrip_by is_space s.
Definition rstrip (s : pystr) : pystr := rstrip_by is_space s.
Definition strip (s : pystr) : pystr := strip_by is_space s.

(** [s.split(sep)] for a one-character separator: every separator cuts,
    empty pieces are kept. *)
Fixpoint split_on (sep : N) (s : pystr) : list pystr :=
  match s with
  | [] => [[]]
  | c :: s' =>
      if c =? sep then [] :: split_on sep s'
      else match split_on sep s' with
           | [] => [[c]]
           | w :: ws => (c :: w) :: ws
           end
  end.

(** [s.split()] with no argument: cut at runs of white space, no empty
    pieces.  [cur] is the word being read, reversed. *)
Fixpoint split_ws_aux (cur : pystr) (s : pystr) : list pystr :=
  match s with
  | [] => match cur with [] => [] | _ => [rev cur] end
  | c :: s' =>
      if is_space c
      then match cur with
           | [] => split_ws_aux [] s'
           | _ => rev cur :: split_ws_aux [] s'
           end
      else split_ws_aux (c :: cur) s'
  end.

Definition split_ws (s : pystr) : list pystr := split_ws_aux [] s.

(** [sep.join(parts)] *)
Fixpoint join (sep : pystr) (parts : list pystr) : pystr :=
  match parts with
  | [] => []
  | [p] => p
  | p :: ps => p ++ sep ++ join sep ps
  end.

(** [s[-n:]] for [n > 0] *)
Definition last_n (n : nat) (s : pystr) : pystr := drop (length s - n)%nat s.

(** [s.rfind(c)]: the index of the last [c], if there is one. *)
Fixpoint rfind (c : N) (s : pystr) : option nat :=
  match s with
  | [] => None
  | x :: s' =>
      match rfind c s' with
      | Some i => Some (S i)
      | None => if x =? c then Some 0%nat else None
      end
  end.

(** [s.rsplit(' ', 1)[0]]: what precedes the last [sep], or [s] when
    there is none. *)
Definition rsplit1_head (sep : N) (s : pystr) : pystr :=
  match rfind sep s with
  | Some i => take i s
  | None => s
  end.

(** [str(n)] for a non-negative integer, and for any integer. *)
Definition str_of_nat (n : nat) : pystr :=
  py (NilEmpty.string_of_uint (Nat.to_uint n)).

Definition str_of_Z (z : Z) : pystr :=
  match z with
  | Zneg p => ch "-" :: str_of_nat (Pos.to_nat p)
  | _ => str_of_nat (Z.to_nat z)
  end.

(** Truth value of an optional string: [None] and the empty string are
    false. *)
Definition truthy (o : option pystr) : bool :=
  match o with
  | Some (_ :: _) => true
  | _ => false
  end.

(* ===================================================================== *)
(** * Regular expressions

    The two patterns of the module, [DOI_PATTERN] and [ISBN_PATTERN], are
    matched as [re] matches them: a backtracking matcher, greedy
    quantifiers, [search] trying each start position from the left.  The
    matcher is written in continuation-passing style; [k] receives the
    rest of the text and the text captured by group 1 so far. *)
(* ===================================================================== *)

Inductive regex : Type :=
| Chr (p : N -> bool)                 (* one character of a class *)
| Seq (r1 r2 : regex)                 (* r1 r2 *)
| Opt (r : regex)                     (* r?  *)
| Star (p : N -> bool)                (* [class]* *)
| Rep (lo extra : nat) (r : regex)    (* r{lo,lo+extra} *)
| Grp (r : regex).                    (* ( r ), group 1 *)

Fixpoint star_match {T} (p : N -> bool) (s : pystr)
    (k : pystr -> option T) : option T :=
  match s with
  | c :: s' =>
      if p c
      then match star_match p s' k with
           | Some x => Some x
           | None => k s
           end
      else k s
  | [] => k []
  end.

Fixpoint rmatch {T} (r : regex) (s : pystr) (cap : option pystr)
    (k : pystr -> option pystr -> option T) {struct r} : option T :=
  match r with
  | Chr p =>
      match s with
      | c :: s' => if p c then k s' cap else None
      | [] => None
      end
  | Seq r1 r2 => rmatch r1 s cap (fun s' cap' => rmatch r2 s' cap' k)
  | Opt r1 =>
      match rmatch r1 s cap k with
      | Some x => Some x
      | None => k s cap
      end
  | Star p => star_match p s (fun s' => k s' cap)
  | Rep lo extra r1 =>
      let fix more (e : nat) (s : pystr) (cap : option pystr) : option T :=
        match e with
        | O => k s cap
        | S e' =>
            match rmatch r1 s cap (fun s' cap' => more e' s' cap') with
            | Some x => Some x
            | None => k s cap
            end
        end in
      let fix atleast (n : nat) (s : pystr) (cap : option pystr) : option T :=
        match n with
        | O => more extra s cap
        | S n' => rmatch r1 s cap (fun s' cap' => atleast n' s' cap')
        end in
      atleast lo s cap
  | Grp r1 =>
      rmatch r1 s cap
        (fun s' _ => k s' (Some (take (length s - length s')%nat s)))
  end.

(** [pattern.search(text)], giving [m.group(1)] (every pattern here has
    its group on every path, so a match always has one). *)
Fixpoint re_search (r : regex) (s : pystr) : option pystr :=
  match rmatch r s None (fun _ cap => Some (default [] cap)) with
  | Some g => Some g
  | None =>
      match s with
      | [] => None
      | _ :: s' => re_search r s'
      end
  end.

(** A literal character. *)
Definition lit (a : ascii) : regex := Chr (N.eqb (ch a)).

(** A literal letter under [re.IGNORECASE]: both cases, and the letters
    that [re] folds onto I and S (dotted capital I, dotless i, long s). *)
Definition letter_i (a : ascii) (c : N) : bool :=
  (lower_cp c =? lower_cp (ch a))
  || ((lower_cp (ch a) =? ch "i") && ((c =? 304) || (c =? 305)))
  || ((lower_cp (ch a) =? ch "s") && (c =? 383)).

Definition lit_i (a : ascii) : regex := Chr (letter_i a).

Definition one_of (s : string) (c : N) : bool :=
  existsb (N.eqb c) (py s).

(** [DOI_PATTERN]: the group [10\.\d{4,9}/T+], where the class [T] is
    every character but white space, comma, semicolon, the two quote
    characters (code point 34 is the double quote), and the closing
    brackets ], } and >. *)
Definition doi_tail (c : N) : bool :=
  negb (is_space c || one_of ",;'" c || (c =? 34) || one_of "]}>" c).

Definition DOI_PATTERN : regex :=
  Grp (Seq (lit "1") (Seq (lit "0") (Seq (lit ".")
      (Seq (Rep 4 5 (Chr is_digit))
      (Seq (lit "/") (Seq (Chr doi_tail) (Star doi_tail))))))).

(** [ISBN_PATTERN], compiled with [re.IGNORECASE]: a non-capturing group
    for the label (the letters ISBN, one optional - or :, any white space)
    followed by group 1, the number: an optional 978 or 979 prefix with
    an optional separator, nine times a digit with an optional separator,
    and a last digit or X.  A separator is a hyphen or a white space.
    The label group carries no quantifier: it is required. *)
Definition dash_or_space (c : N) : bool := (c =? ch "-") || is_space c.

Definition ISBN_label : regex :=
  Seq (lit_i "I") (Seq (lit_i "S") (Seq (lit_i "B") (Seq (lit_i "N")
      (Seq (Opt (Chr (one_of "-:"))) (Star is_space))))).

Definition ISBN_number : regex :=
  Seq (Opt (Seq (lit "9") (Seq (lit "7") (Seq (Chr (one_of "89"))
                (Opt (Chr dash_or_space))))))
      (Seq (Rep 9 0 (Seq (Chr is_digit) (Opt (Chr dash_or_space))))
           (Chr (fun c => is_digit c || one_of "Xx" c))).

Definition ISBN_PATTERN : regex := Seq ISBN_label (Grp ISBN_number).

(** [re.sub(r'[-\s]', '', s)] *)
Definition remove_dash_space (s : pystr) : pystr :=
  List.filter (fun c => negb (dash_or_space c)) s.

(** [_clean_doi]: [rstrip] of the characters . , ; : > ) } ] and of the
    two quote characters. *)
Definition _clean_doi (doi : pystr) : pystr :=
  rstrip_by (fun c => one_of ".,;:'>)}]" c || (c =? 34)) doi.


(* ===================================================================== *)
(** * Filename generation: [_sanitize_filename] *)
(* ===================================================================== *)

(** Unicode data for [unicodedata.normalize("NFKD", _)], from the
    character database of Unicode 14.0, the one that CPython 3.11
    carries.  A row [(a, b, k)] of [combining_class_table] gives the
    canonical combining class [k] of the code points [a] to [b]; every
    other code point is a starter, of class 0. *)
Definition combining_class_table : list (N * N * N) :=
  [(768, 788, 230); (789, 789, 232); (790, 793, 220); (794, 794, 232); (795,
   795, 216); (796, 800, 220); (801, 802, 202); (803, 806, 220); (807, 808,
   202); (809, 819, 220); (820, 824, 1); (825, 828, 220); (829, 836, 230);
   (837, 837, 240); (838, 838, 230); (839, 841, 220); (842, 844, 230); (845,
   846, 220); (848, 850, 230); (851, 854, 220); (855, 855, 230); (856, 856,
   232); (857, 858, 220); (859, 859, 230); (860, 860, 233); (861, 862, 234);
   (863, 863, 233); (864, 865, 234); (866, 866, 233); (867, 879, 230);
   (1155, 1159, 230); (1425, 1425, 220); (1426, 1429, 230); (1430, 1430,
   220); (1431, 1433, 230); (1434, 1434, 222); (1435, 1435, 220); (1436,
   1441, 230); (1442, 1447, 220); (1448, 1449, 230); (1450, 1450, 220);
   (1451, 1452, 230); (1453, 1453, 222); (1454, 1454, 228); (1455, 1455,
   230); (1456, 1456, 10); (1457, 1457, 11); (1458, 1458, 12); (1459, 1459,
   13); (1460, 1460, 14); (1461, 1461, 15); (1462, 1462, 16); (1463, 1463,
   17); (1464, 1464, 18); (1465, 1466, 19); (1467, 1467, 20); (1468, 1468,
   21); (1469, 1469, 22); (1471, 1471, 23); (1473, 1473, 24); (1474, 1474,
   25); (1476, 1476, 230); (1477, 1477, 220); (1479, 1479, 18); (1552, 1559,
   230); (1560, 1560, 30); (1561, 1561, 31); (1562, 1562, 32); (1611, 1611,
   27); (1612, 1612, 28); (1613, 1613, 29); (1614, 1614, 30); (1615, 1615,
   31); (1616, 1616, 32); (1617, 1617, 33); (1618, 1618, 34); (1619, 1620,
   230); (1621, 1622, 220); (1623, 1627, 230); (1628, 1628, 220); (1629,
   1630, 230); (1631, 1631, 220); (1648, 1648, 35); (1750, 1756, 230);
   (1759, 1762, 230); (1763, 1763, 220); (1764, 1764, 230); (1767, 1768,
   230); (1770, 1770, 220); (1771, 1772, 230); (1773, 1773, 220); (1809,
   1809, 36); (1840, 1840, 230); (1841, 1841, 220); (1842, 1843, 230);
   (1844, 1844, 220); (1845, 1846, 230); (1847, 1849, 220); (1850, 1850,
   230); (1851, 1852, 220); (1853, 1853, 230); (1854, 1854, 220); (1855,
   1857, 230); (1858, 1858, 220); (1859, 1859, 230); (1860, 1860, 220);
   (1861, 1861, 230); (1862, 1862, 220); (1863, 1863, 230); (1864, 1864,
   220); (1865, 1866, 230); (2027, 2033, 230); (2034, 2034, 220); (2035,
   2035, 230); (2045, 2045, 220); (2070, 2073, 230); (2075, 2083, 230);
   (2085, 2087, 230); (2089, 2093, 230); (2137, 2139, 220); (2200, 2200,
   230); (2201, 2203, 220); (2204, 2207, 230); (2250, 2254, 230); (2255,
   2259, 220); (2260, 2273, 230); (2275, 2275, 220); (2276, 2277, 230);
   (2278, 2278, 220); (2279, 2280, 230); (2281, 2281, 220); (2282, 2284,
   230); (2285, 2287, 220); (2288, 2288, 27); (2289, 2289, 28); (2290, 2290,
   29); (2291, 2293, 230); (2294, 2294, 220); (2295, 2296, 230); (2297,
   2298, 220); (2299, 2303, 230); (2364, 2364, 7); (2381, 2381, 9); (2385,
   2385, 230); (2386, 2386, 220); (2387, 2388, 230); (2492, 2492, 7); (2509,
   2509, 9); (2558, 2558, 230); (2620, 2620, 7); (2637, 2637, 9); (2748,
   2748, 7); (2765, 2765, 9); (2876, 2876, 7); (2893, 2893, 9); (3021, 3021,
   9); (3132, 3132, 7); (3149, 3149, 9); (3157, 3157, 84); (3158, 3158, 91);
   (3260, 3260, 7); (3277, 3277, 9); (3387, 3388, 9); (3405, 3405, 9);
   (3530, 3530, 9); (3640, 3641, 103); (3642, 3642, 9); (3656, 3659, 107);
   (3768, 3769, 118); (3770, 3770, 9); (3784, 3787, 122); (3864, 3865, 220);
   (3893, 3893, 220); (3895, 3895, 220); (3897, 3897, 216); (3953, 3953,
   129); (3954, 3954, 130); (3956, 3956, 132); (3962, 3965, 130); (3968,
   3968, 130); (3970, 3971, 230); (3972, 3972, 9); (3974, 3975, 230); (4038,
   4038, 220); (4151, 4151, 7); (4153, 4154, 9); (4237, 4237, 220); (4957,
   4959, 230); (5908, 5909, 9); (5940, 5940, 9); (6098, 6098, 9); (6109,
   6109, 230); (6313, 6313, 228); (6457, 6457, 222); (6458, 6458, 230);
   (6459, 6459, 220); (6679, 6679, 230); (6680, 6680, 220); (6752, 6752, 9);
   (6773, 6780, 230); (6783, 6783, 220); (6832, 6836, 230); (6837, 6842,
   220); (6843, 6844, 230); (6845, 6845, 220); (6847, 6848, 220); (6849,
   6850, 230); (6851, 6852, 220); (6853, 6857, 230); (6858, 6858, 220);
   (6859, 6862, 230); (6964, 6964, 7); (6980, 6980, 9); (7019, 7019, 230);
   (7020, 7020, 220); (7021, 7027, 230); (7082, 7083, 9); (7142, 7142, 7);
   (7154, 7155, 9); (7223, 7223, 7); (7376, 7378, 230); (7380, 7380, 1);
   (7381, 7385, 220); (7386, 7387, 230); (7388, 7391, 220); (7392, 7392,
   230); (7394, 7400, 1); (7405, 7405, 220); (7412, 7412, 230); (7416, 7417,
   230); (7616, 7617, 230); (7618, 7618, 220); (7619, 7625, 230); (7626,
   7626, 220); (7627, 7628, 230); (7629, 7629, 234); (7630, 7630, 214);
   (7631, 7631, 220); (7632, 7632, 202); (7633, 7669, 230); (7670, 7670,
   232); (7671, 7672, 228); (7673, 7673, 220); (7674, 7674, 218); (7675,
   7675, 230); (7676, 7676, 233); (7677, 7677, 220); (7678, 7678, 230);
   (7679, 7679, 220); (8400, 8401, 230); (8402, 8403, 1); (8404, 8407, 230);
   (8408, 8410, 1); (8411, 8412, 230); (8417, 8417, 230); (8421, 8422, 1);
   (8423, 8423, 230); (8424, 8424, 220); (8425, 8425, 230); (8426, 8427, 1);
   (8428, 8431, 220); (8432, 8432, 230); (11503, 11505, 230); (11647, 11647,
   9); (11744, 11775, 230); (12330, 12330, 218); (12331, 12331, 228);
   (12332, 12332, 232); (12333, 12333, 222); (12334, 12335, 224); (12441,
   12442, 8); (42607, 42607, 230); (42612, 42621, 230); (42654, 42655, 230);
   (42736, 42737, 230); (43014, 43014, 9); (43052, 43052, 9); (43204, 43204,
   9); (43232, 43249, 230); (43307, 43309, 220); (43347, 43347, 9); (43443,
   43443, 7); (43456, 43456, 9); (43696, 43696, 230); (43698, 43699, 230);
   (43700, 43700, 220); (43703, 43704, 230); (43710, 43711, 230); (43713,
   43713, 230); (43766, 43766, 9); (44013, 44013, 9); (64286, 64286, 26);
   (65056, 65062, 230); (65063, 65069, 220); (65070, 65071, 230); (66045,
   66045, 220); (66272, 66272, 220); (66422, 66426, 230); (68109, 68109,
   220); (68111, 68111, 230); (68152, 68152, 230); (68153, 68153, 1);
   (68154, 68154, 220); (68159, 68159, 9); (68325, 68325, 230); (68326,
   68326, 220); (68900, 68903, 230); (69291, 69292, 230); (69446, 69447,
   220); (69448, 69450, 230); (69451, 69451, 220); (69452, 69452, 230);
   (69453, 69456, 220); (69506, 69506, 230); (69507, 69507, 220); (69508,
   69508, 230); (69509, 69509, 220); (69702, 69702, 9); (69744, 69744, 9);
   (69759, 69759, 9); (69817, 69817, 9); (69818, 69818, 7); (69888, 69890,
   230); (69939, 69940, 9); (70003, 70003, 7); (70080, 70080, 9); (70090,
   70090, 7); (70197, 70197, 9); (70198, 70198, 7); (70377, 70377, 7);
   (70378, 70378, 9); (70459, 70460, 7); (70477, 70477, 9); (70502, 70508,
   230); (70512, 70516, 230); (70722, 70722, 9); (70726, 70726, 7); (70750,
   70750, 230); (70850, 70850, 9); (70851, 70851, 7); (71103, 71103, 9);
   (71104, 71104, 7); (71231, 71231, 9); (71350, 71350, 9); (71351, 71351,
   7); (71467, 71467, 9); (71737, 71737, 9); (71738, 71738, 7); (71997,
   71998, 9); (72003, 72003, 7); (72160, 72160, 9); (72244, 72244, 9);
   (72263, 72263, 9); (72345, 72345, 9); (72767, 72767, 9); (73026, 73026,
   7); (73028, 73029, 9); (73111, 73111, 9); (92912, 92916, 1); (92976,
   92982, 230); (94192, 94193, 6); (113822, 113822, 1); (119141, 119142,
   216); (119143, 119145, 1); (119149, 119149, 226); (119150, 119154, 216);
   (119163, 119170, 220); (119173, 119177, 230); (119178, 119179, 220);
   (119210, 119213, 230); (119362, 119364, 230); (122880, 122886, 230);
   (122888, 122904, 230); (122907, 122913, 230); (122915, 122916, 230);
   (122918, 122922, 230); (123184, 123190, 230); (123566, 123566, 230);
   (123628, 123631, 230); (125136, 125142, 220); (125252, 125257, 230);
   (125258, 125258, 7)].

Definition combining_class (c : N) : N :=
  match List.find (fun '(a, b, _) => (a <=? c) && (c <=? b))
                  combining_class_table with
  | Some (_, _, k) => k
  | None => 0
  end.

(** The full compatibility decomposition of a code point: what is left
    when the decomposition mappings have been applied as often as they
    can be.  A row [(a, b, t)] of [decomposition_runs] says that the
    code points [a] to [b] decompose to the single code points [t],
    [t + 1], ...; [decomposition_table] lists the other code points that
    decompose, but for the Hangul syllables, which decompose by
    arithmetic into two or three jamos.  A code point that is not listed
    is its own decomposition. *)
Definition decomposition_runs : list (N * N * N) :=
  [(7475, 7482, 71); (7598, 7601, 626); (8308, 8313, 52); (8320, 8329, 48);
   (8342, 8345, 107); (8501, 8504, 1488); (9312, 9320, 49); (9398, 9423,
   65); (9424, 9449, 97); (12602, 12607, 4528); (12613, 12622, 4361);
   (12623, 12643, 4449); (12664, 12668, 4395); (12905, 12909, 4366); (13028,
   13033, 12490); (13038, 13042, 12510); (13045, 13050, 12520); (13051,
   13054, 12527); (65089, 65092, 12300); (65281, 65374, 33); (65413, 65418,
   12490); (65423, 65427, 12510); (65430, 65435, 12520); (65450, 65455,
   4528); (65461, 65470, 4361); (65474, 65479, 4449); (65482, 65487, 4455);
   (65490, 65495, 4461); (65513, 65516, 8592); (119808, 119833, 65);
   (119834, 119859, 97); (119860, 119885, 65); (119886, 119892, 97);
   (119894, 119911, 105); (119912, 119937, 65); (119938, 119963, 97);
   (119977, 119980, 78); (119982, 119989, 83); (119990, 119993, 97);
   (119997, 120003, 104); (120005, 120015, 112); (120016, 120041, 65);
   (120042, 120067, 97); (120071, 120074, 68); (120077, 120084, 74);
   (120086, 120092, 83); (120094, 120119, 97); (120123, 120126, 68);
   (120128, 120132, 73); (120138, 120144, 83); (120146, 120171, 97);
   (120172, 120197, 65); (120198, 120223, 97); (120224, 120249, 65);
   (120250, 120275, 97); (120276, 120301, 65); (120302, 120327, 97);
   (120328, 120353, 65); (120354, 120379, 97); (120380, 120405, 65);
   (120406, 120431, 97); (120432, 120457, 65); (120458, 120483, 97);
   (120488, 120504, 913); (120506, 120512, 931); (120514, 120538, 945);
   (120546, 120562, 913); (120564, 120570, 931); (120572, 120596, 945);
   (120604, 120620, 913); (120622, 120628, 931); (120630, 120654, 945);
   (120662, 120678, 913); (120680, 120686, 931); (120688, 120712, 945);
   (120720, 120736, 913); (120738, 120744, 931); (120746, 120770, 945);
   (120782, 120791, 48); (120792, 120801, 48); (120802, 120811, 48);
   (120812, 120821, 48); (120822, 120831, 48); (126474, 126477, 1603);
   (126506, 126509, 1603); (127280, 127305, 65); (130032, 130041, 48)].

Definition decomposition_table : list (N * list N) :=
  [(160, [32]); (168, [32; 776]); (170, [97]); (175, [32; 772]); (178,
   [50]); (179, [51]); (180, [32; 769]); (181, [956]); (184, [32; 807]);
   (185, [49]); (186, [111]); (188, [49; 8260; 52]); (189, [49; 8260; 50]);
   (190, [51; 8260; 52]); (192, [65; 768]); (193, [65; 769]); (194, [65;
   770]); (195, [65; 771]); (196, [65; 776]); (197, [65; 778]); (199, [67;
   807]); (200, [69; 768]); (201, [69; 769]); (202, [69; 770]); (203, [69;
   776]); (204, [73; 768]); (205, [73; 769]); (206, [73; 770]); (207, [73;
   776]); (209, [78; 771]); (210, [79; 768]); (211, [79; 769]); (212, [79;
   770]); (213, [79; 771]); (214, [79; 776]); (217, [85; 768]); (218, [85;
   769]); (219, [85; 770]); (220, [85; 776]); (221, [89; 769]); (224, [97;
   768]); (225, [97; 769]); (226, [97; 770]); (227, [97; 771]); (228, [97;
   776]); (229, [97; 778]); (231, [99; 807]); (232, [101; 768]); (233, [101;
   769]); (234, [101; 770]); (235, [101; 776]); (236, [105; 768]); (237,
   [105; 769]); (238, [105; 770]); (239, [105; 776]); (241, [110; 771]);
   (242, [111; 768]); (243, [111; 769]); (244, [111; 770]); (245, [111;
   771]); (246, [111; 776]); (249, [117; 768]); (250, [117; 769]); (251,
   [117; 770]); (252, [117; 776]); (253, [121; 769]); (255, [121; 776]);
   (256, [65; 772]); (257, [97; 772]); (258, [65; 774]); (259, [97; 774]);
   (260, [65; 808]); (261, [97; 808]); (262, [67; 769]); (263, [99; 769]);
   (264, [67; 770]); (265, [99; 770]); (266, [67; 775]); (267, [99; 775]);
   (268, [67; 780]); (269, [99; 780]); (270, [68; 780]); (271, [100; 780]);
   (274, [69; 772]); (275, [101; 772]); (276, [69; 774]); (277, [101; 774]);
   (278, [69; 775]); (279, [101; 775]); (280, [69; 808]); (281, [101; 808]);
   (282, [69; 780]); (283, [101; 780]); (284, [71; 770]); (285, [103; 770]);
   (286, [71; 774]); (287, [103; 774]); (288, [71; 775]); (289, [103; 775]);
   (290, [71; 807]); (291, [103; 807]); (292, [72; 770]); (293, [104; 770]);
   (296, [73; 771]); (297, [105; 771]); (298, [73; 772]); (299, [105; 772]);
   (300, [73; 774]); (301, [105; 774]); (302, [73; 808]); (303, [105; 808]);
   (304, [73; 775]); (306, [73; 74]); (307, [105; 106]); (308, [74; 770]);
   (309, [106; 770]); (310, [75; 807]); (311, [107; 807]); (313, [76; 769]);
   (314, [108; 769]); (315, [76; 807]); (316, [108; 807]); (317, [76; 780]);
   (318, [108; 780]); (319, [76; 183]); (320, [108; 183]); (323, [78; 769]);
   (324, [110; 769]); (325, [78; 807]); (326, [110; 807]); (327, [78; 780]);
   (328, [110; 780]); (329, [700; 110]); (332, [79; 772]); (333, [111;
   772]); (334, [79; 774]); (335, [111; 774]); (336, [79; 779]); (337, [111;
   779]); (340, [82; 769]); (341, [114; 769]); (342, [82; 807]); (343, [114;
   807]); (344, [82; 780]); (345, [114; 780]); (346, [83; 769]); (347, [115;
   769]); (348, [83; 770]); (349, [115; 770]); (350, [83; 807]); (351, [115;
   807]); (352, [83; 780]); (353, [115; 780]); (354, [84; 807]); (355, [116;
   807]); (356, [84; 780]); (357, [116; 780]); (360, [85; 771]); (361, [117;
   771]); (362, [85; 772]); (363, [117; 772]); (364, [85; 774]); (365, [117;
   774]); (366, [85; 778]); (367, [117; 778]); (368, [85; 779]); (369, [117;
   779]); (370, [85; 808]); (371, [117; 808]); (372, [87; 770]); (373, [119;
   770]); (374, [89; 770]); (375, [121; 770]); (376, [89; 776]); (377, [90;
   769]); (378, [122; 769]); (379, [90; 775]); (380, [122; 775]); (381, [90;
   780]); (382, [122; 780]); (383, [115]); (416, [79; 795]); (417, [111;
   795]); (431, [85; 795]); (432, [117; 795]); (452, [68; 90; 780]); (453,
   [68; 122; 780]); (454, [100; 122; 780]); (455, [76; 74]); (456, [76;
   106]); (457, [108; 106]); (458, [78; 74]); (459, [78; 106]); (460, [110;
   106]); (461, [65; 780]); (462, [97; 780]); (463, [73; 780]); (464, [105;
   780]); (465, [79; 780]); (466, [111; 780]); (467, [85; 780]); (468, [117;
   780]); (469, [85; 776; 772]); (470, [117; 776; 772]); (471, [85; 776;
   769]); (472, [117; 776; 769]); (473, [85; 776; 780]); (474, [117; 776;
   780]); (475, [85; 776; 768]); (476, [117; 776; 768]); (478, [65; 776;
   772]); (479, [97; 776; 772]); (480, [65; 775; 772]); (481, [97; 775;
   772]); (482, [198; 772]); (483, [230; 772]); (486, [71; 780]); (487,
   [103; 780]); (488, [75; 780]); (489, [107; 780]); (490, [79; 808]); (491,
   [111; 808]); (492, [79; 808; 772]); (493, [111; 808; 772]); (494, [439;
   780]); (495, [658; 780]); (496, [106; 780]); (497, [68; 90]); (498, [68;
   122]); (499, [100; 122]); (500, [71; 769]); (501, [103; 769]); (504, [78;
   768]); (505, [110; 768]); (506, [65; 778; 769]); (507, [97; 778; 769]);
   (508, [198; 769]); (509, [230; 769]); (510, [216; 769]); (511, [248;
   769]); (512, [65; 783]); (513, [97; 783]); (514, [65; 785]); (515, [97;
   785]); (516, [69; 783]); (517, [101; 783]); (518, [69; 785]); (519, [101;
   785]); (520, [73; 783]); (521, [105; 783]); (522, [73; 785]); (523, [105;
   785]); (524, [79; 783]); (525, [111; 783]); (526, [79; 785]); (527, [111;
   785]); (528, [82; 783]); (529, [114; 783]); (530, [82; 785]); (531, [114;
   785]); (532, [85; 783]); (533, [117; 783]); (534, [85; 785]); (535, [117;
   785]); (536, [83; 806]); (537, [115; 806]); (538, [84; 806]); (539, [116;
   806]); (542, [72; 780]); (543, [104; 780]); (550, [65; 775]); (551, [97;
   775]); (552, [69; 807]); (553, [101; 807]); (554, [79; 776; 772]); (555,
   [111; 776; 772]); (556, [79; 771; 772]); (557, [111; 771; 772]); (558,
   [79; 775]); (559, [111; 775]); (560, [79; 775; 772]); (561, [111; 775;
   772]); (562, [89; 772]); (563, [121; 772]); (688, [104]); (689, [614]);
   (690, [106]); (691, [114]); (692, [633]); (693, [635]); (694, [641]);
   (695, [119]); (696, [121]); (728, [32; 774]); (729, [32; 775]); (730,
   [32; 778]); (731, [32; 808]); (732, [32; 771]); (733, [32; 779]); (736,
   [611]); (737, [108]); (738, [115]); (739, [120]); (740, [661]); (832,
   [768]); (833, [769]); (835, [787]); (836, [776; 769]); (884, [697]);
   (890, [32; 837]); (894, [59]); (900, [32; 769]); (901, [32; 776; 769]);
   (902, [913; 769]); (903, [183]); (904, [917; 769]); (905, [919; 769]);
   (906, [921; 769]); (908, [927; 769]); (910, [933; 769]); (911, [937;
   769]); (912, [953; 776; 769]); (938, [921; 776]); (939, [933; 776]);
   (940, [945; 769]); (941, [949; 769]); (942, [951; 769]); (943, [953;
   769]); (944, [965; 776; 769]); (970, [953; 776]); (971, [965; 776]);
   (972, [959; 769]); (973, [965; 769]); (974, [969; 769]); (976, [946]);
   (977, [952]); (978, [933]); (979, [933; 769]); (980, [933; 776]); (981,
   [966]); (982, [960]); (1008, [954]); (1009, [961]); (1010, [962]); (1012,
   [920]); (1013, [949]); (1017, [931]); (1024, [1045; 768]); (1025, [1045;
   776]); (1027, [1043; 769]); (1031, [1030; 776]); (1036, [1050; 769]);
   (1037, [1048; 768]); (1038, [1059; 774]); (1049, [1048; 774]); (1081,
   [1080; 774]); (1104, [1077; 768]); (1105, [1077; 776]); (1107, [1075;
   769]); (1111, [1110; 776]); (1116, [1082; 769]); (1117, [1080; 768]);
   (1118, [1091; 774]); (1142, [1140; 783]); (1143, [1141; 783]); (1217,
   [1046; 774]); (1218, [1078; 774]); (1232, [1040; 774]); (1233, [1072;
   774]); (1234, [1040; 776]); (1235, [1072; 776]); (1238, [1045; 774]);
   (1239, [1077; 774]); (1242, [1240; 776]); (1243, [1241; 776]); (1244,
   [1046; 776]); (1245, [1078; 776]); (1246, [1047; 776]); (1247, [1079;
   776]); (1250, [1048; 772]); (1251, [1080; 772]); (1252, [1048; 776]);
   (1253, [1080; 776]); (1254, [1054; 776]); (1255, [1086; 776]); (1258,
   [1256; 776]); (1259, [1257; 776]); (1260, [1069; 776]); (1261, [1101;
   776]); (1262, [1059; 772]); (1263, [1091; 772]); (1264, [1059; 776]);
   (1265, [1091; 776]); (1266, [1059; 779]); (1267, [1091; 779]); (1268,
   [1063; 776]); (1269, [1095; 776]); (1272, [1067; 776]); (1273, [1099;
   776]); (1415, [1381; 1410]); (1570, [1575; 1619]); (1571, [1575; 1620]);
   (1572, [1608; 1620]); (1573, [1575; 1621]); (1574, [1610; 1620]); (1653,
   [1575; 1652]); (1654, [1608; 1652]); (1655, [1735; 1652]); (1656, [1610;
   1652]); (1728, [1749; 1620]); (1730, [1729; 1620]); (1747, [1746; 1620]);
   (2345, [2344; 2364]); (2353, [2352; 2364]); (2356, [2355; 2364]); (2392,
   [2325; 2364]); (2393, [2326; 2364]); (2394, [2327; 2364]); (2395, [2332;
   2364]); (2396, [2337; 2364]); (2397, [2338; 2364]); (2398, [2347; 2364]);
   (2399, [2351; 2364]); (2507, [2503; 2494]); (2508, [2503; 2519]); (2524,
   [2465; 2492]); (2525, [2466; 2492]); (2527, [2479; 2492]); (2611, [2610;
   2620]); (2614, [2616; 2620]); (2649, [2582; 2620]); (2650, [2583; 2620]);
   (2651, [2588; 2620]); (2654, [2603; 2620]); (2888, [2887; 2902]); (2891,
   [2887; 2878]); (2892, [2887; 2903]); (2908, [2849; 2876]); (2909, [2850;
   2876]); (2964, [2962; 3031]); (3018, [3014; 3006]); (3019, [3015; 3006]);
   (3020, [3014; 3031]); (3144, [3142; 3158]); (3264, [3263; 3285]); (3271,
   [3270; 3285]); (3272, [3270; 3286]); (3274, [3270; 3266]); (3275, [3270;
   3266; 3285]); (3402, [3398; 3390]); (3403, [3399; 3390]); (3404, [3398;
   3415]); (3546, [3545; 3530]); (3548, [3545; 3535]); (3549, [3545; 3535;
   3530]); (3550, [3545; 3551]); (3635, [3661; 3634]); (3763, [3789; 3762]);
   (3804, [3755; 3737]); (3805, [3755; 3745]); (3852, [3851]); (3907, [3906;
   4023]); (3917, [3916; 4023]); (3922, [3921; 4023]); (3927, [3926; 4023]);
   (3932, [3931; 4023]); (3945, [3904; 4021]); (3955, [3953; 3954]); (3957,
   [3953; 3956]); (3958, [4018; 3968]); (3959, [4018; 3953; 3968]); (3960,
   [4019; 3968]); (3961, [4019; 3953; 3968]); (3969, [3953; 3968]); (3987,
   [3986; 4023]); (3997, [3996; 4023]); (4002, [4001; 4023]); (4007, [4006;
   4023]); (4012, [4011; 4023]); (4025, [3984; 4021]); (4134, [4133; 4142]);
   (4348, [4316]); (6918, [6917; 6965]); (6920, [6919; 6965]); (6922, [6921;
   6965]); (6924, [6923; 6965]); (6926, [6925; 6965]); (6930, [6929; 6965]);
   (6971, [6970; 6965]); (6973, [6972; 6965]); (6976, [6974; 6965]); (6977,
   [6975; 6965]); (6979, [6978; 6965]); (7468, [65]); (7469, [198]); (7470,
   [66]); (7472, [68]); (7473, [69]); (7474, [398]); (7484, [79]); (7485,
   [546]); (7486, [80]); (7487, [82]); (7488, [84]); (7489, [85]); (7490,
   [87]); (7491, [97]); (7492, [592]); (7493, [593]); (7494, [7426]); (7495,
   [98]); (7496, [100]); (7497, [101]); (7498, [601]); (7499, [603]); (7500,
   [604]); (7501, [103]); (7503, [107]); (7504, [109]); (7505, [331]);
   (7506, [111]); (7507, [596]); (7508, [7446]); (7509, [7447]); (7510,
   [112]); (7511, [116]); (7512, [117]); (7513, [7453]); (7514, [623]);
   (7515, [118]); (7516, [7461]); (7517, [946]); (7518, [947]); (7519,
   [948]); (7520, [966]); (7521, [967]); (7522, [105]); (7523, [114]);
   (7524, [117]); (7525, [118]); (7526, [946]); (7527, [947]); (7528,
   [961]); (7529, [966]); (7530, [967]); (7544, [1085]); (7579, [594]);
   (7580, [99]); (7581, [597]); (7582, [240]); (7583, [604]); (7584, [102]);
   (7585, [607]); (7586, [609]); (7587, [613]); (7588, [616]); (7589,
   [617]); (7590, [618]); (7591, [7547]); (7592, [669]); (7593, [621]);
   (7594, [7557]); (7595, [671]); (7596, [625]); (7597, [624]); (7602,
   [632]); (7603, [642]); (7604, [643]); (7605, [427]); (7606, [649]);
   (7607, [650]); (7608, [7452]); (7609, [651]); (7610, [652]); (7611,
   [122]); (7612, [656]); (7613, [657]); (7614, [658]); (7615, [952]);
   (7680, [65; 805]); (7681, [97; 805]); (7682, [66; 775]); (7683, [98;
   775]); (7684, [66; 803]); (7685, [98; 803]); (7686, [66; 817]); (7687,
   [98; 817]); (7688, [67; 807; 769]); (7689, [99; 807; 769]); (7690, [68;
   775]); (7691, [100; 775]); (7692, [68; 803]); (7693, [100; 803]); (7694,
   [68; 817]); (7695, [100; 817]); (7696, [68; 807]); (7697, [100; 807]);
   (7698, [68; 813]); (7699, [100; 813]); (7700, [69; 772; 768]); (7701,
   [101; 772; 768]); (7702, [69; 772; 769]); (7703, [101; 772; 769]); (7704,
   [69; 813]); (7705, [101; 813]); (7706, [69; 816]); (7707, [101; 816]);
   (7708, [69; 807; 774]); (7709, [101; 807; 774]); (7710, [70; 775]);
   (7711, [102; 775]); (7712, [71; 772]); (7713, [103; 772]); (7714, [72;
   775]); (7715, [104; 775]); (7716, [72; 803]); (7717, [104; 803]); (7718,
   [72; 776]); (7719, [104; 776]); (7720, [72; 807]); (7721, [104; 807]);
   (7722, [72; 814]); (7723, [104; 814]); (7724, [73; 816]); (7725, [105;
   816]); (7726, [73; 776; 769]); (7727, [105; 776; 769]); (7728, [75;
   769]); (7729, [107; 769]); (7730, [75; 803]); (7731, [107; 803]); (7732,
   [75; 817]); (7733, [107; 817]); (7734, [76; 803]); (7735, [108; 803]);
   (7736, [76; 803; 772]); (7737, [108; 803; 772]); (7738, [76; 817]);
   (7739, [108; 817]); (7740, [76; 813]); (7741, [108; 813]); (7742, [77;
   769]); (7743, [109; 769]); (7744, [77; 775]); (7745, [109; 775]); (7746,
   [77; 803]); (7747, [109; 803]); (7748, [78; 775]); (7749, [110; 775]);
   (7750, [78; 803]); (7751, [110; 803]); (7752, [78; 817]); (7753, [110;
   817]); (7754, [78; 813]); (7755, [110; 813]); (7756, [79; 771; 769]);
   (7757, [111; 771; 769]); (7758, [79; 771; 776]); (7759, [111; 771; 776]);
   (7760, [79; 772; 768]); (7761, [111; 772; 768]); (7762, [79; 772; 769]);
   (7763, [111; 772; 769]); (7764, [80; 769]); (7765, [112; 769]); (7766,
   [80; 775]); (7767, [112; 775]); (7768, [82; 775]); (7769, [114; 775]);
   (7770, [82; 803]); (7771, [114; 803]); (7772, [82; 803; 772]); (7773,
   [114; 803; 772]); (7774, [82; 817]); (7775, [114; 817]); (7776, [83;
   775]); (7777, [115; 775]); (7778, [83; 803]); (7779, [115; 803]); (7780,
   [83; 769; 775]); (7781, [115; 769; 775]); (7782, [83; 780; 775]); (7783,
   [115; 780; 775]); (7784, [83; 803; 775]); (7785, [115; 803; 775]); (7786,
   [84; 775]); (7787, [116; 775]); (7788, [84; 803]); (7789, [116; 803]);
   (7790, [84; 817]); (7791, [116; 817]); (7792, [84; 813]); (7793, [116;
   813]); (7794, [85; 804]); (7795, [117; 804]); (7796, [85; 816]); (7797,
   [117; 816]); (7798, [85; 813]); (7799, [117; 813]); (7800, [85; 771;
   769]); (7801, [117; 771; 769]); (7802, [85; 772; 776]); (7803, [117; 772;
   776]); (7804, [86; 771]); (7805, [118; 771]); (7806, [86; 803]); (7807,
   [118; 803]); (7808, [87; 768]); (7809, [119; 768]); (7810, [87; 769]);
   (7811, [119; 769]); (7812, [87; 776]); (7813, [119; 776]); (7814, [87;
   775]); (7815, [119; 775]); (7816, [87; 803]); (7817, [119; 803]); (7818,
   [88; 775]); (7819, [120; 775]); (7820, [88; 776]); (7821, [120; 776]);
   (7822, [89; 775]); (7823, [121; 775]); (7824, [90; 770]); (7825, [122;
   770]); (7826, [90; 803]); (7827, [122; 803]); (7828, [90; 817]); (7829,
   [122; 817]); (7830, [104; 817]); (7831, [116; 776]); (7832, [119; 778]);
   (7833, [121; 778]); (7834, [97; 702]); (7835, [115; 775]); (7840, [65;
   803]); (7841, [97; 803]); (7842, [65; 777]); (7843, [97; 777]); (7844,
   [65; 770; 769]); (7845, [97; 770; 769]); (7846, [65; 770; 768]); (7847,
   [97; 770; 768]); (7848, [65; 770; 777]); (7849, [97; 770; 777]); (7850,
   [65; 770; 771]); (7851, [97; 770; 771]); (7852, [65; 803; 770]); (7853,
   [97; 803; 770]); (7854, [65; 774; 769]); (7855, [97; 774; 769]); (7856,
   [65; 774; 768]); (7857, [97; 774; 768]); (7858, [65; 774; 777]); (7859,
   [97; 774; 777]); (7860, [65; 774; 771]); (7861, [97; 774; 771]); (7862,
   [65; 803; 774]); (7863, [97; 803; 774]); (7864, [69; 803]); (7865, [101;
   803]); (7866, [69; 777]); (7867, [101; 777]); (7868, [69; 771]); (7869,
   [101; 771]); (7870, [69; 770; 769]); (7871, [101; 770; 769]); (7872, [69;
   770; 768]); (7873, [101; 770; 768]); (7874, [69; 770; 777]); (7875, [101;
   770; 777]); (7876, [69; 770; 771]); (7877, [101; 770; 771]); (7878, [69;
   803; 770]); (7879, [101; 803; 770]); (7880, [73; 777]); (7881, [105;
   777]); (7882, [73; 803]); (7883, [105; 803]); (7884, [79; 803]); (7885,
   [111; 803]); (7886, [79; 777]); (7887, [111; 777]); (7888, [79; 770;
   769]); (7889, [111; 770; 769]); (7890, [79; 770; 768]); (7891, [111; 770;
   768]); (7892, [79; 770; 777]); (7893, [111; 770; 777]); (7894, [79; 770;
   771]); (7895, [111; 770; 771]); (7896, [79; 803; 770]); (7897, [111; 803;
   770]); (7898, [79; 795; 769]); (7899, [111; 795; 769]); (7900, [79; 795;
   768]); (7901, [111; 795; 768]); (7902, [79; 795; 777]); (7903, [111; 795;
   777]); (7904, [79; 795; 771]); (7905, [111; 795; 771]); (7906, [79; 795;
   803]); (7907, [111; 795; 803]); (7908, [85; 803]); (7909, [117; 803]);
   (7910, [85; 777]); (7911, [117; 777]); (7912, [85; 795; 769]); (7913,
   [117; 795; 769]); (7914, [85; 795; 768]); (7915, [117; 795; 768]); (7916,
   [85; 795; 777]); (7917, [117; 795; 777]); (7918, [85; 795; 771]); (7919,
   [117; 795; 771]); (7920, [85; 795; 803]); (7921, [117; 795; 803]); (7922,
   [89; 768]); (7923, [121; 768]); (7924, [89; 803]); (7925, [121; 803]);
   (7926, [89; 777]); (7927, [121; 777]); (7928, [89; 771]); (7929, [121;
   771]); (7936, [945; 787]); (7937, [945; 788]); (7938, [945; 787; 768]);
   (7939, [945; 788; 768]); (7940, [945; 787; 769]); (7941, [945; 788;
   769]); (7942, [945; 787; 834]); (7943, [945; 788; 834]); (7944, [913;
   787]); (7945, [913; 788]); (7946, [913; 787; 768]); (7947, [913; 788;
   768]); (7948, [913; 787; 769]); (7949, [913; 788; 769]); (7950, [913;
   787; 834]); (7951, [913; 788; 834]); (7952, [949; 787]); (7953, [949;
   788]); (7954, [949; 787; 768]); (7955, [949; 788; 768]); (7956, [949;
   787; 769]); (7957, [949; 788; 769]); (7960, [917; 787]); (7961, [917;
   788]); (7962, [917; 787; 768]); (7963, [917; 788; 768]); (7964, [917;
   787; 769]); (7965, [917; 788; 769]); (7968, [951; 787]); (7969, [951;
   788]); (7970, [951; 787; 768]); (7971, [951; 788; 768]); (7972, [951;
   787; 769]); (7973, [951; 788; 769]); (7974, [951; 787; 834]); (7975,
   [951; 788; 834]); (7976, [919; 787]); (7977, [919; 788]); (7978, [919;
   787; 768]); (7979, [919; 788; 768]); (7980, [919; 787; 769]); (7981,
   [919; 788; 769]); (7982, [919; 787; 834]); (7983, [919; 788; 834]);
   (7984, [953; 787]); (7985, [953; 788]); (7986, [953; 787; 768]); (7987,
   [953; 788; 768]); (7988, [953; 787; 769]); (7989, [953; 788; 769]);
   (7990, [953; 787; 834]); (7991, [953; 788; 834]); (7992, [921; 787]);
   (7993, [921; 788]); (7994, [921; 787; 768]); (7995, [921; 788; 768]);
   (7996, [921; 787; 769]); (7997, [921; 788; 769]); (7998, [921; 787;
   834]); (7999, [921; 788; 834]); (8000, [959; 787]); (8001, [959; 788]);
   (8002, [959; 787; 768]); (8003, [959; 788; 768]); (8004, [959; 787;
   769]); (8005, [959; 788; 769]); (8008, [927; 787]); (8009, [927; 788]);
   (8010, [927; 787; 768]); (8011, [927; 788; 768]); (8012, [927; 787;
   769]); (8013, [927; 788; 769]); (8016, [965; 787]); (8017, [965; 788]);
   (8018, [965; 787; 768]); (8019, [965; 788; 768]); (8020, [965; 787;
   769]); (8021, [965; 788; 769]); (8022, [965; 787; 834]); (8023, [965;
   788; 834]); (8025, [933; 788]); (8027, [933; 788; 768]); (8029, [933;
   788; 769]); (8031, [933; 788; 834]); (8032, [969; 787]); (8033, [969;
   788]); (8034, [969; 787; 768]); (8035, [969; 788; 768]); (8036, [969;
   787; 769]); (8037, [969; 788; 769]); (8038, [969; 787; 834]); (8039,
   [969; 788; 834]); (8040, [937; 787]); (8041, [937; 788]); (8042, [937;
   787; 768]); (8043, [937; 788; 768]); (8044, [937; 787; 769]); (8045,
   [937; 788; 769]); (8046, [937; 787; 834]); (8047, [937; 788; 834]);
   (8048, [945; 768]); (8049, [945; 769]); (8050, [949; 768]); (8051, [949;
   769]); (8052, [951; 768]); (8053, [951; 769]); (8054, [953; 768]); (8055,
   [953; 769]); (8056, [959; 768]); (8057, [959; 769]); (8058, [965; 768]);
   (8059, [965; 769]); (8060, [969; 768]); (8061, [969; 769]); (8064, [945;
   787; 837]); (8065, [945; 788; 837]); (8066, [945; 787; 768; 837]); (8067,
   [945; 788; 768; 837]); (8068, [945; 787; 769; 837]); (8069, [945; 788;
   769; 837]); (8070, [945; 787; 834; 837]); (8071, [945; 788; 834; 837]);
   (8072, [913; 787; 837]); (8073, [913; 788; 837]); (8074, [913; 787; 768;
   837]); (8075, [913; 788; 768; 837]); (8076, [913; 787; 769; 837]); (8077,
   [913; 788; 769; 837]); (8078, [913; 787; 834; 837]); (8079, [913; 788;
   834; 837]); (8080, [951; 787; 837]); (8081, [951; 788; 837]); (8082,
   [951; 787; 768; 837]); (8083, [951; 788; 768; 837]); (8084, [951; 787;
   769; 837]); (8085, [951; 788; 769; 837]); (8086, [951; 787; 834; 837]);
   (8087, [951; 788; 834; 837]); (8088, [919; 787; 837]); (8089, [919; 788;
   837]); (8090, [919; 787; 768; 837]); (8091, [919; 788; 768; 837]); (8092,
   [919; 787; 769; 837]); (8093, [919; 788; 769; 837]); (8094, [919; 787;
   834; 837]); (8095, [919; 788; 834; 837]); (8096, [969; 787; 837]); (8097,
   [969; 788; 837]); (8098, [969; 787; 768; 837]); (8099, [969; 788; 768;
   837]); (8100, [969; 787; 769; 837]); (8101, [969; 788; 769; 837]); (8102,
   [969; 787; 834; 837]); (8103, [969; 788; 834; 837]); (8104, [937; 787;
   837]); (8105, [937; 788; 837]); (8106, [937; 787; 768; 837]); (8107,
   [937; 788; 768; 837]); (8108, [937; 787; 769; 837]); (8109, [937; 788;
   769; 837]); (8110, [937; 787; 834; 837]); (8111, [937; 788; 834; 837]);
   (8112, [945; 774]); (8113, [945; 772]); (8114, [945; 768; 837]); (8115,
   [945; 837]); (8116, [945; 769; 837]); (8118, [945; 834]); (8119, [945;
   834; 837]); (8120, [913; 774]); (8121, [913; 772]); (8122, [913; 768]);
   (8123, [913; 769]); (8124, [913; 837]); (8125, [32; 787]); (8126, [953]);
   (8127, [32; 787]); (8128, [32; 834]); (8129, [32; 776; 834]); (8130,
   [951; 768; 837]); (8131, [951; 837]); (8132, [951; 769; 837]); (8134,
   [951; 834]); (8135, [951; 834; 837]); (8136, [917; 768]); (8137, [917;
   769]); (8138, [919; 768]); (8139, [919; 769]); (8140, [919; 837]); (8141,
   [32; 787; 768]); (8142, [32; 787; 769]); (8143, [32; 787; 834]); (8144,
   [953; 774]); (8145, [953; 772]); (8146, [953; 776; 768]); (8147, [953;
   776; 769]); (8150, [953; 834]); (8151, [953; 776; 834]); (8152, [921;
   774]); (8153, [921; 772]); (8154, [921; 768]); (8155, [921; 769]); (8157,
   [32; 788; 768]); (8158, [32; 788; 769]); (8159, [32; 788; 834]); (8160,
   [965; 774]); (8161, [965; 772]); (8162, [965; 776; 768]); (8163, [965;
   776; 769]); (8164, [961; 787]); (8165, [961; 788]); (8166, [965; 834]);
   (8167, [965; 776; 834]); (8168, [933; 774]); (8169, [933; 772]); (8170,
   [933; 768]); (8171, [933; 769]); (8172, [929; 788]); (8173, [32; 776;
   768]); (8174, [32; 776; 769]); (8175, [96]); (8178, [969; 768; 837]);
   (8179, [969; 837]); (8180, [969; 769; 837]); (8182, [969; 834]); (8183,
   [969; 834; 837]); (8184, [927; 768]); (8185, [927; 769]); (8186, [937;
   768]); (8187, [937; 769]); (8188, [937; 837]); (8189, [32; 769]); (8190,
   [32; 788]); (8192, [32]); (8193, [32]); (8194, [32]); (8195, [32]);
   (8196, [32]); (8197, [32]); (8198, [32]); (8199, [32]); (8200, [32]);
   (8201, [32]); (8202, [32]); (8209, [8208]); (8215, [32; 819]); (8228,
   [46]); (8229, [46; 46]); (8230, [46; 46; 46]); (8239, [32]); (8243,
   [8242; 8242]); (8244, [8242; 8242; 8242]); (8246, [8245; 8245]); (8247,
   [8245; 8245; 8245]); (8252, [33; 33]); (8254, [32; 773]); (8263, [63;
   63]); (8264, [63; 33]); (8265, [33; 63]); (8279, [8242; 8242; 8242;
   8242]); (8287, [32]); (8304, [48]); (8305, [105]); (8314, [43]); (8315,
   [8722]); (8316, [61]); (8317, [40]); (8318, [41]); (8319, [110]); (8330,
   [43]); (8331, [8722]); (8332, [61]); (8333, [40]); (8334, [41]); (8336,
   [97]); (8337, [101]); (8338, [111]); (8339, [120]); (8340, [601]); (8341,
   [104]); (8346, [112]); (8347, [115]); (8348, [116]); (8360, [82; 115]);
   (8448, [97; 47; 99]); (8449, [97; 47; 115]); (8450, [67]); (8451, [176;
   67]); (8453, [99; 47; 111]); (8454, [99; 47; 117]); (8455, [400]); (8457,
   [176; 70]); (8458, [103]); (8459, [72]); (8460, [72]); (8461, [72]);
   (8462, [104]); (8463, [295]); (8464, [73]); (8465, [73]); (8466, [76]);
   (8467, [108]); (8469, [78]); (8470, [78; 111]); (8473, [80]); (8474,
   [81]); (8475, [82]); (8476, [82]); (8477, [82]); (8480, [83; 77]); (8481,
   [84; 69; 76]); (8482, [84; 77]); (8484, [90]); (8486, [937]); (8488,
   [90]); (8490, [75]); (8491, [65; 778]); (8492, [66]); (8493, [67]);
   (8495, [101]); (8496, [69]); (8497, [70]); (8499, [77]); (8500, [111]);
   (8505, [105]); (8507, [70; 65; 88]); (8508, [960]); (8509, [947]); (8510,
   [915]); (8511, [928]); (8512, [8721]); (8517, [68]); (8518, [100]);
   (8519, [101]); (8520, [105]); (8521, [106]); (8528, [49; 8260; 55]);
   (8529, [49; 8260; 57]); (8530, [49; 8260; 49; 48]); (8531, [49; 8260;
   51]); (8532, [50; 8260; 51]); (8533, [49; 8260; 53]); (8534, [50; 8260;
   53]); (8535, [51; 8260; 53]); (8536, [52; 8260; 53]); (8537, [49; 8260;
   54]); (8538, [53; 8260; 54]); (8539, [49; 8260; 56]); (8540, [51; 8260;
   56]); (8541, [53; 8260; 56]); (8542, [55; 8260; 56]); (8543, [49; 8260]);
   (8544, [73]); (8545, [73; 73]); (8546, [73; 73; 73]); (8547, [73; 86]);
   (8548, [86]); (8549, [86; 73]); (8550, [86; 73; 73]); (8551, [86; 73; 73;
   73]); (8552, [73; 88]); (8553, [88]); (8554, [88; 73]); (8555, [88; 73;
   73]); (8556, [76]); (8557, [67]); (8558, [68]); (8559, [77]); (8560,
   [105]); (8561, [105; 105]); (8562, [105; 105; 105]); (8563, [105; 118]);
   (8564, [118]); (8565, [118; 105]); (8566, [118; 105; 105]); (8567, [118;
   105; 105; 105]); (8568, [105; 120]); (8569, [120]); (8570, [120; 105]);
   (8571, [120; 105; 105]); (8572, [108]); (8573, [99]); (8574, [100]);
   (8575, [109]); (8585, [48; 8260; 51]); (8602, [8592; 824]); (8603, [8594;
   824]); (8622, [8596; 824]); (8653, [8656; 824]); (8654, [8660; 824]);
   (8655, [8658; 824]); (8708, [8707; 824]); (8713, [8712; 824]); (8716,
   [8715; 824]); (8740, [8739; 824]); (8742, [8741; 824]); (8748, [8747;
   8747]); (8749, [8747; 8747; 8747]); (8751, [8750; 8750]); (8752, [8750;
   8750; 8750]); (8769, [8764; 824]); (8772, [8771; 824]); (8775, [8773;
   824]); (8777, [8776; 824]); (8800, [61; 824]); (8802, [8801; 824]);
   (8813, [8781; 824]); (8814, [60; 824]); (8815, [62; 824]); (8816, [8804;
   824]); (8817, [8805; 824]); (8820, [8818; 824]); (8821, [8819; 824]);
   (8824, [8822; 824]); (8825, [8823; 824]); (8832, [8826; 824]); (8833,
   [8827; 824]); (8836, [8834; 824]); (8837, [8835; 824]); (8840, [8838;
   824]); (8841, [8839; 824]); (8876, [8866; 824]); (8877, [8872; 824]);
   (8878, [8873; 824]); (8879, [8875; 824]); (8928, [8828; 824]); (8929,
   [8829; 824]); (8930, [8849; 824]); (8931, [8850; 824]); (8938, [8882;
   824]); (8939, [8883; 824]); (8940, [8884; 824]); (8941, [8885; 824]);
   (9001, [12296]); (9002, [12297]); (9321, [49; 48]); (9322, [49; 49]);
   (9323, [49; 50]); (9324, [49; 51]); (9325, [49; 52]); (9326, [49; 53]);
   (9327, [49; 54]); (9328, [49; 55]); (9329, [49; 56]); (9330, [49; 57]);
   (9331, [50; 48]); (9332, [40; 49; 41]); (9333, [40; 50; 41]); (9334, [40;
   51; 41]); (9335, [40; 52; 41]); (9336, [40; 53; 41]); (9337, [40; 54;
   41]); (9338, [40; 55; 41]); (9339, [40; 56; 41]); (9340, [40; 57; 41]);
   (9341, [40; 49; 48; 41]); (9342, [40; 49; 49; 41]); (9343, [40; 49; 50;
   41]); (9344, [40; 49; 51; 41]); (9345, [40; 49; 52; 41]); (9346, [40; 49;
   53; 41]); (9347, [40; 49; 54; 41]); (9348, [40; 49; 55; 41]); (9349, [40;
   49; 56; 41]); (9350, [40; 49; 57; 41]); (9351, [40; 50; 48; 41]); (9352,
   [49; 46]); (9353, [50; 46]); (9354, [51; 46]); (9355, [52; 46]); (9356,
   [53; 46]); (9357, [54; 46]); (9358, [55; 46]); (9359, [56; 46]); (9360,
   [57; 46]); (9361, [49; 48; 46]); (9362, [49; 49; 46]); (9363, [49; 50;
   46]); (9364, [49; 51; 46]); (9365, [49; 52; 46]); (9366, [49; 53; 46]);
   (9367, [49; 54; 46]); (9368, [49; 55; 46]); (9369, [49; 56; 46]); (9370,
   [49; 57; 46]); (9371, [50; 48; 46]); (9372, [40; 97; 41]); (9373, [40;
   98; 41]); (9374, [40; 99; 41]); (9375, [40; 100; 41]); (9376, [40; 101;
   41]); (9377, [40; 102; 41]); (9378, [40; 103; 41]); (9379, [40; 104;
   41]); (9380, [40; 105; 41]); (9381, [40; 106; 41]); (9382, [40; 107;
   41]); (9383, [40; 108; 41]); (9384, [40; 109; 41]); (9385, [40; 110;
   41]); (9386, [40; 111; 41]); (9387, [40; 112; 41]); (9388, [40; 113;
   41]); (9389, [40; 114; 41]); (9390, [40; 115; 41]); (9391, [40; 116;
   41]); (9392, [40; 117; 41]); (9393, [40; 118; 41]); (9394, [40; 119;
   41]); (9395, [40; 120; 41]); (9396, [40; 121; 41]); (9397, [40; 122;
   41]); (9450, [48]); (10764, [8747; 8747; 8747; 8747]); (10868, [58; 58;
   61]); (10869, [61; 61]); (10870, [61; 61; 61]); (10972, [10973; 824]);
   (11388, [106]); (11389, [86]); (11631, [11617]); (11935, [27597]);
   (12019, [40863]); (12032, [19968]); (12033, [20008]); (12034, [20022]);
   (12035, [20031]); (12036, [20057]); (12037, [20101]); (12038, [20108]);
   (12039, [20128]); (12040, [20154]); (12041, [20799]); (12042, [20837]);
   (12043, [20843]); (12044, [20866]); (12045, [20886]); (12046, [20907]);
   (12047, [20960]); (12048, [20981]); (12049, [20992]); (12050, [21147]);
   (12051, [21241]); (12052, [21269]); (12053, [21274]); (12054, [21304]);
   (12055, [21313]); (12056, [21340]); (12057, [21353]); (12058, [21378]);
   (12059, [21430]); (12060, [21448]); (12061, [21475]); (12062, [22231]);
   (12063, [22303]); (12064, [22763]); (12065, [22786]); (12066, [22794]);
   (12067, [22805]); (12068, [22823]); (12069, [22899]); (12070, [23376]);
   (12071, [23424]); (12072, [23544]); (12073, [23567]); (12074, [23586]);
   (12075, [23608]); (12076, [23662]); (12077, [23665]); (12078, [24027]);
   (12079, [24037]); (12080, [24049]); (12081, [24062]); (12082, [24178]);
   (12083, [24186]); (12084, [24191]); (12085, [24308]); (12086, [24318]);
   (12087, [24331]); (12088, [24339]); (12089, [24400]); (12090, [24417]);
   (12091, [24435]); (12092, [24515]); (12093, [25096]); (12094, [25142]);
   (12095, [25163]); (12096, [25903]); (12097, [25908]); (12098, [25991]);
   (12099, [26007]); (12100, [26020]); (12101, [26041]); (12102, [26080]);
   (12103, [26085]); (12104, [26352]); (12105, [26376]); (12106, [26408]);
   (12107, [27424]); (12108, [27490]); (12109, [27513]); (12110, [27571]);
   (12111, [27595]); (12112, [27604]); (12113, [27611]); (12114, [27663]);
   (12115, [27668]); (12116, [27700]); (12117, [28779]); (12118, [29226]);
   (12119, [29238]); (12120, [29243]); (12121, [29247]); (12122, [29255]);
   (12123, [29273]); (12124, [29275]); (12125, [29356]); (12126, [29572]);
   (12127, [29577]); (12128, [29916]); (12129, [29926]); (12130, [29976]);
   (12131, [29983]); (12132, [29992]); (12133, [30000]); (12134, [30091]);
   (12135, [30098]); (12136, [30326]); (12137, [30333]); (12138, [30382]);
   (12139, [30399]); (12140, [30446]); (12141, [30683]); (12142, [30690]);
   (12143, [30707]); (12144, [31034]); (12145, [31160]); (12146, [31166]);
   (12147, [31348]); (12148, [31435]); (12149, [31481]); (12150, [31859]);
   (12151, [31992]); (12152, [32566]); (12153, [32593]); (12154, [32650]);
   (12155, [32701]); (12156, [32769]); (12157, [32780]); (12158, [32786]);
   (12159, [32819]); (12160, [32895]); (12161, [32905]); (12162, [33251]);
   (12163, [33258]); (12164, [33267]); (12165, [33276]); (12166, [33292]);
   (12167, [33307]); (12168, [33311]); (12169, [33390]); (12170, [33394]);
   (12171, [33400]); (12172, [34381]); (12173, [34411]); (12174, [34880]);
   (12175, [34892]); (12176, [34915]); (12177, [35198]); (12178, [35211]);
   (12179, [35282]); (12180, [35328]); (12181, [35895]); (12182, [35910]);
   (12183, [35925]); (12184, [35960]); (12185, [35997]); (12186, [36196]);
   (12187, [36208]); (12188, [36275]); (12189, [36523]); (12190, [36554]);
   (12191, [36763]); (12192, [36784]); (12193, [36789]); (12194, [37009]);
   (12195, [37193]); (12196, [37318]); (12197, [37324]); (12198, [37329]);
   (12199, [38263]); (12200, [38272]); (12201, [38428]); (12202, [38582]);
   (12203, [38585]); (12204, [38632]); (12205, [38737]); (12206, [38750]);
   (12207, [38754]); (12208, [38761]); (12209, [38859]); (12210, [38893]);
   (12211, [38899]); (12212, [38913]); (12213, [39080]); (12214, [39131]);
   (12215, [39135]); (12216, [39318]); (12217, [39321]); (12218, [39340]);
   (12219, [39592]); (12220, [39640]); (12221, [39647]); (12222, [39717]);
   (12223, [39727]); (12224, [39730]); (12225, [39740]); (12226, [39770]);
   (12227, [40165]); (12228, [40565]); (12229, [40575]); (12230, [40613]);
   (12231, [40635]); (12232, [40643]); (12233, [40653]); (12234, [40657]);
   (12235, [40697]); (12236, [40701]); (12237, [40718]); (12238, [40723]);
   (12239, [40736]); (12240, [40763]); (12241, [40778]); (12242, [40786]);
   (12243, [40845]); (12244, [40860]); (12245, [40864]); (12288, [32]);
   (12342, [12306]); (12344, [21313]); (12345, [21316]); (12346, [21317]);
   (12364, [12363; 12441]); (12366, [12365; 12441]); (12368, [12367;
   12441]); (12370, [12369; 12441]); (12372, [12371; 12441]); (12374,
   [12373; 12441]); (12376, [12375; 12441]); (12378, [12377; 12441]);
   (12380, [12379; 12441]); (12382, [12381; 12441]); (12384, [12383;
   12441]); (12386, [12385; 12441]); (12389, [12388; 12441]); (12391,
   [12390; 12441]); (12393, [12392; 12441]); (12400, [12399; 12441]);
   (12401, [12399; 12442]); (12403, [12402; 12441]); (12404, [12402;
   12442]); (12406, [12405; 12441]); (12407, [12405; 12442]); (12409,
   [12408; 12441]); (12410, [12408; 12442]); (12412, [12411; 12441]);
   (12413, [12411; 12442]); (12436, [12358; 12441]); (12443, [32; 12441]);
   (12444, [32; 12442]); (12446, [12445; 12441]); (12447, [12424; 12426]);
   (12460, [12459; 12441]); (12462, [12461; 12441]); (12464, [12463;
   12441]); (12466, [12465; 12441]); (12468, [12467; 12441]); (12470,
   [12469; 12441]); (12472, [12471; 12441]); (12474, [12473; 12441]);
   (12476, [12475; 12441]); (12478, [12477; 12441]); (12480, [12479;
   12441]); (12482, [12481; 12441]); (12485, [12484; 12441]); (12487,
   [12486; 12441]); (12489, [12488; 12441]); (12496, [12495; 12441]);
   (12497, [12495; 12442]); (12499, [12498; 12441]); (12500, [12498;
   12442]); (12502, [12501; 12441]); (12503, [12501; 12442]); (12505,
   [12504; 12441]); (12506, [12504; 12442]); (12508, [12507; 12441]);
   (12509, [12507; 12442]); (12532, [12454; 12441]); (12535, [12527;
   12441]); (12536, [12528; 12441]); (12537, [12529; 12441]); (12538,
   [12530; 12441]); (12542, [12541; 12441]); (12543, [12467; 12488]);
   (12593, [4352]); (12594, [4353]); (12595, [4522]); (12596, [4354]);
   (12597, [4524]); (12598, [4525]); (12599, [4355]); (12600, [4356]);
   (12601, [4357]); (12608, [4378]); (12609, [4358]); (12610, [4359]);
   (12611, [4360]); (12612, [4385]); (12644, [4448]); (12645, [4372]);
   (12646, [4373]); (12647, [4551]); (12648, [4552]); (12649, [4556]);
   (12650, [4558]); (12651, [4563]); (12652, [4567]); (12653, [4569]);
   (12654, [4380]); (12655, [4573]); (12656, [4575]); (12657, [4381]);
   (12658, [4382]); (12659, [4384]); (12660, [4386]); (12661, [4387]);
   (12662, [4391]); (12663, [4393]); (12669, [4402]); (12670, [4406]);
   (12671, [4416]); (12672, [4423]); (12673, [4428]); (12674, [4593]);
   (12675, [4594]); (12676, [4439]); (12677, [4440]); (12678, [4441]);
   (12679, [4484]); (12680, [4485]); (12681, [4488]); (12682, [4497]);
   (12683, [4498]); (12684, [4500]); (12685, [4510]); (12686, [4513]);
   (12690, [19968]); (12691, [20108]); (12692, [19977]); (12693, [22235]);
   (12694, [19978]); (12695, [20013]); (12696, [19979]); (12697, [30002]);
   (12698, [20057]); (12699, [19993]); (12700, [19969]); (12701, [22825]);
   (12702, [22320]); (12703, [20154]); (12800, [40; 4352; 41]); (12801, [40;
   4354; 41]); (12802, [40; 4355; 41]); (12803, [40; 4357; 41]); (12804,
   [40; 4358; 41]); (12805, [40; 4359; 41]); (12806, [40; 4361; 41]);
   (12807, [40; 4363; 41]); (12808, [40; 4364; 41]); (12809, [40; 4366;
   41]); (12810, [40; 4367; 41]); (12811, [40; 4368; 41]); (12812, [40;
   4369; 41]); (12813, [40; 4370; 41]); (12814, [40; 4352; 4449; 41]);
   (12815, [40; 4354; 4449; 41]); (12816, [40; 4355; 4449; 41]); (12817,
   [40; 4357; 4449; 41]); (12818, [40; 4358; 4449; 41]); (12819, [40; 4359;
   4449; 41]); (12820, [40; 4361; 4449; 41]); (12821, [40; 4363; 4449; 41]);
   (12822, [40; 4364; 4449; 41]); (12823, [40; 4366; 4449; 41]); (12824,
   [40; 4367; 4449; 41]); (12825, [40; 4368; 4449; 41]); (12826, [40; 4369;
   4449; 41]); (12827, [40; 4370; 4449; 41]); (12828, [40; 4364; 4462; 41]);
   (12829, [40; 4363; 4457; 4364; 4453; 4523; 41]); (12830, [40; 4363; 4457;
   4370; 4462; 41]); (12832, [40; 19968; 41]); (12833, [40; 20108; 41]);
   (12834, [40; 19977; 41]); (12835, [40; 22235; 41]); (12836, [40; 20116;
   41]); (12837, [40; 20845; 41]); (12838, [40; 19971; 41]); (12839, [40;
   20843; 41]); (12840, [40; 20061; 41]); (12841, [40; 21313; 41]); (12842,
   [40; 26376; 41]); (12843, [40; 28779; 41]); (12844, [40; 27700; 41]);
   (12845, [40; 26408; 41]); (12846, [40; 37329; 41]); (12847, [40; 22303;
   41]); (12848, [40; 26085; 41]); (12849, [40; 26666; 41]); (12850, [40;
   26377; 41]); (12851, [40; 31038; 41]); (12852, [40; 21517; 41]); (12853,
   [40; 29305; 41]); (12854, [40; 36001; 41]); (12855, [40; 31069; 41]);
   (12856, [40; 21172; 41]); (12857, [40; 20195; 41]); (12858, [40; 21628;
   41]); (12859, [40; 23398; 41]); (12860, [40; 30435; 41]); (12861, [40;
   20225; 41]); (12862, [40; 36039; 41]); (12863, [40; 21332; 41]); (12864,
   [40; 31085; 41]); (12865, [40; 20241; 41]); (12866, [40; 33258; 41]);
   (12867, [40; 33267; 41]); (12868, [21839]); (12869, [24188]); (12870,
   [25991]); (12871, [31631]); (12880, [80; 84; 69]); (12881, [50; 49]);
   (12882, [50; 50]); (12883, [50; 51]); (12884, [50; 52]); (12885, [50;
   53]); (12886, [50; 54]); (12887, [50; 55]); (12888, [50; 56]); (12889,
   [50; 57]); (12890, [51; 48]); (12891, [51; 49]); (12892, [51; 50]);
   (12893, [51; 51]); (12894, [51; 52]); (12895, [51; 53]); (12896, [4352]);
   (12897, [4354]); (12898, [4355]); (12899, [4357]); (12900, [4358]);
   (12901, [4359]); (12902, [4361]); (12903, [4363]); (12904, [4364]);
   (12910, [4352; 4449]); (12911, [4354; 4449]); (12912, [4355; 4449]);
   (12913, [4357; 4449]); (12914, [4358; 4449]); (12915, [4359; 4449]);
   (12916, [4361; 4449]); (12917, [4363; 4449]); (12918, [4364; 4449]);
   (12919, [4366; 4449]); (12920, [4367; 4449]); (12921, [4368; 4449]);
   (12922, [4369; 4449]); (12923, [4370; 4449]); (12924, [4366; 4449; 4535;
   4352; 4457]); (12925, [4364; 4462; 4363; 4468]); (12926, [4363; 4462]);
   (12928, [19968]); (12929, [20108]); (12930, [19977]); (12931, [22235]);
   (12932, [20116]); (12933, [20845]); (12934, [19971]); (12935, [20843]);
   (12936, [20061]); (12937, [21313]); (12938, [26376]); (12939, [28779]);
   (12940, [27700]); (12941, [26408]); (12942, [37329]); (12943, [22303]);
   (12944, [26085]); (12945, [26666]); (12946, [26377]); (12947, [31038]);
   (12948, [21517]); (12949, [29305]); (12950, [36001]); (12951, [31069]);
   (12952, [21172]); (12953, [31192]); (12954, [30007]); (12955, [22899]);
   (12956, [36969]); (12957, [20778]); (12958, [21360]); (12959, [27880]);
   (12960, [38917]); (12961, [20241]); (12962, [20889]); (12963, [27491]);
   (12964, [19978]); (12965, [20013]); (12966, [19979]); (12967, [24038]);
   (12968, [21491]); (12969, [21307]); (12970, [23447]); (12971, [23398]);
   (12972, [30435]); (12973, [20225]); (12974, [36039]); (12975, [21332]);
   (12976, [22812]); (12977, [51; 54]); (12978, [51; 55]); (12979, [51;
   56]); (12980, [51; 57]); (12981, [52; 48]); (12982, [52; 49]); (12983,
   [52; 50]); (12984, [52; 51]); (12985, [52; 52]); (12986, [52; 53]);
   (12987, [52; 54]); (12988, [52; 55]); (12989, [52; 56]); (12990, [52;
   57]); (12991, [53; 48]); (12992, [49; 26376]); (12993, [50; 26376]);
   (12994, [51; 26376]); (12995, [52; 26376]); (12996, [53; 26376]); (12997,
   [54; 26376]); (12998, [55; 26376]); (12999, [56; 26376]); (13000, [57;
   26376]); (13001, [49; 48; 26376]); (13002, [49; 49; 26376]); (13003, [49;
   50; 26376]); (13004, [72; 103]); (13005, [101; 114; 103]); (13006, [101;
   86]); (13007, [76; 84; 68]); (13008, [12450]); (13009, [12452]); (13010,
   [12454]); (13011, [12456]); (13012, [12458]); (13013, [12459]); (13014,
   [12461]); (13015, [12463]); (13016, [12465]); (13017, [12467]); (13018,
   [12469]); (13019, [12471]); (13020, [12473]); (13021, [12475]); (13022,
   [12477]); (13023, [12479]); (13024, [12481]); (13025, [12484]); (13026,
   [12486]); (13027, [12488]); (13034, [12498]); (13035, [12501]); (13036,
   [12504]); (13037, [12507]); (13043, [12516]); (13044, [12518]); (13055,
   [20196; 21644]); (13056, [12450; 12495; 12442; 12540; 12488]); (13057,
   [12450; 12523; 12501; 12449]); (13058, [12450; 12531; 12504; 12442;
   12450]); (13059, [12450; 12540; 12523]); (13060, [12452; 12491; 12531;
   12463; 12441]); (13061, [12452; 12531; 12481]); (13062, [12454; 12457;
   12531]); (13063, [12456; 12473; 12463; 12540; 12488; 12441]); (13064,
   [12456; 12540; 12459; 12540]); (13065, [12458; 12531; 12473]); (13066,
   [12458; 12540; 12512]); (13067, [12459; 12452; 12522]); (13068, [12459;
   12521; 12483; 12488]); (13069, [12459; 12525; 12522; 12540]); (13070,
   [12459; 12441; 12525; 12531]); (13071, [12459; 12441; 12531; 12510]);
   (13072, [12461; 12441; 12459; 12441]); (13073, [12461; 12441; 12491;
   12540]); (13074, [12461; 12517; 12522; 12540]); (13075, [12461; 12441;
   12523; 12479; 12441; 12540]); (13076, [12461; 12525]); (13077, [12461;
   12525; 12463; 12441; 12521; 12512]); (13078, [12461; 12525; 12513; 12540;
   12488; 12523]); (13079, [12461; 12525; 12527; 12483; 12488]); (13080,
   [12463; 12441; 12521; 12512]); (13081, [12463; 12441; 12521; 12512;
   12488; 12531]); (13082, [12463; 12523; 12475; 12441; 12452; 12525]);
   (13083, [12463; 12525; 12540; 12493]); (13084, [12465; 12540; 12473]);
   (13085, [12467; 12523; 12490]); (13086, [12467; 12540; 12507; 12442]);
   (13087, [12469; 12452; 12463; 12523]); (13088, [12469; 12531; 12481;
   12540; 12512]); (13089, [12471; 12522; 12531; 12463; 12441]); (13090,
   [12475; 12531; 12481]); (13091, [12475; 12531; 12488]); (13092, [12479;
   12441; 12540; 12473]); (13093, [12486; 12441; 12471]); (13094, [12488;
   12441; 12523]); (13095, [12488; 12531]); (13096, [12490; 12494]); (13097,
   [12494; 12483; 12488]); (13098, [12495; 12452; 12484]); (13099, [12495;
   12442; 12540; 12475; 12531; 12488]); (13100, [12495; 12442; 12540;
   12484]); (13101, [12495; 12441; 12540; 12524; 12523]); (13102, [12498;
   12442; 12450; 12473; 12488; 12523]); (13103, [12498; 12442; 12463;
   12523]); (13104, [12498; 12442; 12467]); (13105, [12498; 12441; 12523]);
   (13106, [12501; 12449; 12521; 12483; 12488; 12441]); (13107, [12501;
   12451; 12540; 12488]); (13108, [12501; 12441; 12483; 12471; 12455;
   12523]); (13109, [12501; 12521; 12531]); (13110, [12504; 12463; 12479;
   12540; 12523]); (13111, [12504; 12442; 12477]); (13112, [12504; 12442;
   12491; 12498]); (13113, [12504; 12523; 12484]); (13114, [12504; 12442;
   12531; 12473]); (13115, [12504; 12442; 12540; 12471; 12441]); (13116,
   [12504; 12441; 12540; 12479]); (13117, [12507; 12442; 12452; 12531;
   12488]); (13118, [12507; 12441; 12523; 12488]); (13119, [12507; 12531]);
   (13120, [12507; 12442; 12531; 12488; 12441]); (13121, [12507; 12540;
   12523]); (13122, [12507; 12540; 12531]); (13123, [12510; 12452; 12463;
   12525]); (13124, [12510; 12452; 12523]); (13125, [12510; 12483; 12495]);
   (13126, [12510; 12523; 12463]); (13127, [12510; 12531; 12471; 12519;
   12531]); (13128, [12511; 12463; 12525; 12531]); (13129, [12511; 12522]);
   (13130, [12511; 12522; 12495; 12441; 12540; 12523]); (13131, [12513;
   12459; 12441]); (13132, [12513; 12459; 12441; 12488; 12531]); (13133,
   [12513; 12540; 12488; 12523]); (13134, [12516; 12540; 12488; 12441]);
   (13135, [12516; 12540; 12523]); (13136, [12518; 12450; 12531]); (13137,
   [12522; 12483; 12488; 12523]); (13138, [12522; 12521]); (13139, [12523;
   12498; 12442; 12540]); (13140, [12523; 12540; 12501; 12441; 12523]);
   (13141, [12524; 12512]); (13142, [12524; 12531; 12488; 12465; 12441;
   12531]); (13143, [12527; 12483; 12488]); (13144, [48; 28857]); (13145,
   [49; 28857]); (13146, [50; 28857]); (13147, [51; 28857]); (13148, [52;
   28857]); (13149, [53; 28857]); (13150, [54; 28857]); (13151, [55;
   28857]); (13152, [56; 28857]); (13153, [57; 28857]); (13154, [49; 48;
   28857]); (13155, [49; 49; 28857]); (13156, [49; 50; 28857]); (13157, [49;
   51; 28857]); (13158, [49; 52; 28857]); (13159, [49; 53; 28857]); (13160,
   [49; 54; 28857]); (13161, [49; 55; 28857]); (13162, [49; 56; 28857]);
   (13163, [49; 57; 28857]); (13164, [50; 48; 28857]); (13165, [50; 49;
   28857]); (13166, [50; 50; 28857]); (13167, [50; 51; 28857]); (13168, [50;
   52; 28857]); (13169, [104; 80; 97]); (13170, [100; 97]); (13171, [65;
   85]); (13172, [98; 97; 114]); (13173, [111; 86]); (13174, [112; 99]);
   (13175, [100; 109]); (13176, [100; 109; 50]); (13177, [100; 109; 51]);
   (13178, [73; 85]); (13179, [24179; 25104]); (13180, [26157; 21644]);
   (13181, [22823; 27491]); (13182, [26126; 27835]); (13183, [26666; 24335;
   20250; 31038]); (13184, [112; 65]); (13185, [110; 65]); (13186, [956;
   65]); (13187, [109; 65]); (13188, [107; 65]); (13189, [75; 66]); (13190,
   [77; 66]); (13191, [71; 66]); (13192, [99; 97; 108]); (13193, [107; 99;
   97; 108]); (13194, [112; 70]); (13195, [110; 70]); (13196, [956; 70]);
   (13197, [956; 103]); (13198, [109; 103]); (13199, [107; 103]); (13200,
   [72; 122]); (13201, [107; 72; 122]); (13202, [77; 72; 122]); (13203, [71;
   72; 122]); (13204, [84; 72; 122]); (13205, [956; 108]); (13206, [109;
   108]); (13207, [100; 108]); (13208, [107; 108]); (13209, [102; 109]);
   (13210, [110; 109]); (13211, [956; 109]); (13212, [109; 109]); (13213,
   [99; 109]); (13214, [107; 109]); (13215, [109; 109; 50]); (13216, [99;
   109; 50]); (13217, [109; 50]); (13218, [107; 109; 50]); (13219, [109;
   109; 51]); (13220, [99; 109; 51]); (13221, [109; 51]); (13222, [107; 109;
   51]); (13223, [109; 8725; 115]); (13224, [109; 8725; 115; 50]); (13225,
   [80; 97]); (13226, [107; 80; 97]); (13227, [77; 80; 97]); (13228, [71;
   80; 97]); (13229, [114; 97; 100]); (13230, [114; 97; 100; 8725; 115]);
   (13231, [114; 97; 100; 8725; 115; 50]); (13232, [112; 115]); (13233,
   [110; 115]); (13234, [956; 115]); (13235, [109; 115]); (13236, [112;
   86]); (13237, [110; 86]); (13238, [956; 86]); (13239, [109; 86]); (13240,
   [107; 86]); (13241, [77; 86]); (13242, [112; 87]); (13243, [110; 87]);
   (13244, [956; 87]); (13245, [109; 87]); (13246, [107; 87]); (13247, [77;
   87]); (13248, [107; 937]); (13249, [77; 937]); (13250, [97; 46; 109;
   46]); (13251, [66; 113]); (13252, [99; 99]); (13253, [99; 100]); (13254,
   [67; 8725; 107; 103]); (13255, [67; 111; 46]); (13256, [100; 66]);
   (13257, [71; 121]); (13258, [104; 97]); (13259, [72; 80]); (13260, [105;
   110]); (13261, [75; 75]); (13262, [75; 77]); (13263, [107; 116]); (13264,
   [108; 109]); (13265, [108; 110]); (13266, [108; 111; 103]); (13267, [108;
   120]); (13268, [109; 98]); (13269, [109; 105; 108]); (13270, [109; 111;
   108]); (13271, [80; 72]); (13272, [112; 46; 109; 46]); (13273, [80; 80;
   77]); (13274, [80; 82]); (13275, [115; 114]); (13276, [83; 118]); (13277,
   [87; 98]); (13278, [86; 8725; 109]); (13279, [65; 8725; 109]); (13280,
   [49; 26085]); (13281, [50; 26085]); (13282, [51; 26085]); (13283, [52;
   26085]); (13284, [53; 26085]); (13285, [54; 26085]); (13286, [55;
   26085]); (13287, [56; 26085]); (13288, [57; 26085]); (13289, [49; 48;
   26085]); (13290, [49; 49; 26085]); (13291, [49; 50; 26085]); (13292, [49;
   51; 26085]); (13293, [49; 52; 26085]); (13294, [49; 53; 26085]); (13295,
   [49; 54; 26085]); (13296, [49; 55; 26085]); (13297, [49; 56; 26085]);
   (13298, [49; 57; 26085]); (13299, [50; 48; 26085]); (13300, [50; 49;
   26085]); (13301, [50; 50; 26085]); (13302, [50; 51; 26085]); (13303, [50;
   52; 26085]); (13304, [50; 53; 26085]); (13305, [50; 54; 26085]); (13306,
   [50; 55; 26085]); (13307, [50; 56; 26085]); (13308, [50; 57; 26085]);
   (13309, [51; 48; 26085]); (13310, [51; 49; 26085]); (13311, [103; 97;
   108]); (42652, [1098]); (42653, [1100]); (42864, [42863]); (42994, [67]);
   (42995, [70]); (42996, [81]); (43000, [294]); (43001, [339]); (43868,
   [42791]); (43869, [43831]); (43870, [619]); (43871, [43858]); (43881,
   [653]); (63744, [35912]); (63745, [26356]); (63746, [36554]); (63747,
   [36040]); (63748, [28369]); (63749, [20018]); (63750, [21477]); (63751,
   [40860]); (63752, [40860]); (63753, [22865]); (63754, [37329]); (63755,
   [21895]); (63756, [22856]); (63757, [25078]); (63758, [30313]); (63759,
   [32645]); (63760, [34367]); (63761, [34746]); (63762, [35064]); (63763,
   [37007]); (63764, [27138]); (63765, [27931]); (63766, [28889]); (63767,
   [29662]); (63768, [33853]); (63769, [37226]); (63770, [39409]); (63771,
   [20098]); (63772, [21365]); (63773, [27396]); (63774, [29211]); (63775,
   [34349]); (63776, [40478]); (63777, [23888]); (63778, [28651]); (63779,
   [34253]); (63780, [35172]); (63781, [25289]); (63782, [33240]); (63783,
   [34847]); (63784, [24266]); (63785, [26391]); (63786, [28010]); (63787,
   [29436]); (63788, [37070]); (63789, [20358]); (63790, [20919]); (63791,
   [21214]); (63792, [25796]); (63793, [27347]); (63794, [29200]); (63795,
   [30439]); (63796, [32769]); (63797, [34310]); (63798, [34396]); (63799,
   [36335]); (63800, [38706]); (63801, [39791]); (63802, [40442]); (63803,
   [30860]); (63804, [31103]); (63805, [32160]); (63806, [33737]); (63807,
   [37636]); (63808, [40575]); (63809, [35542]); (63810, [22751]); (63811,
   [24324]); (63812, [31840]); (63813, [32894]); (63814, [29282]); (63815,
   [30922]); (63816, [36034]); (63817, [38647]); (63818, [22744]); (63819,
   [23650]); (63820, [27155]); (63821, [28122]); (63822, [28431]); (63823,
   [32047]); (63824, [32311]); (63825, [38475]); (63826, [21202]); (63827,
   [32907]); (63828, [20956]); (63829, [20940]); (63830, [31260]); (63831,
   [32190]); (63832, [33777]); (63833, [38517]); (63834, [35712]); (63835,
   [25295]); (63836, [27138]); (63837, [35582]); (63838, [20025]); (63839,
   [23527]); (63840, [24594]); (63841, [29575]); (63842, [30064]); (63843,
   [21271]); (63844, [30971]); (63845, [20415]); (63846, [24489]); (63847,
   [19981]); (63848, [27852]); (63849, [25976]); (63850, [32034]); (63851,
   [21443]); (63852, [22622]); (63853, [30465]); (63854, [33865]); (63855,
   [35498]); (63856, [27578]); (63857, [36784]); (63858, [27784]); (63859,
   [25342]); (63860, [33509]); (63861, [25504]); (63862, [30053]); (63863,
   [20142]); (63864, [20841]); (63865, [20937]); (63866, [26753]); (63867,
   [31975]); (63868, [33391]); (63869, [35538]); (63870, [37327]); (63871,
   [21237]); (63872, [21570]); (63873, [22899]); (63874, [24300]); (63875,
   [26053]); (63876, [28670]); (63877, [31018]); (63878, [38317]); (63879,
   [39530]); (63880, [40599]); (63881, [40654]); (63882, [21147]); (63883,
   [26310]); (63884, [27511]); (63885, [36706]); (63886, [24180]); (63887,
   [24976]); (63888, [25088]); (63889, [25754]); (63890, [28451]); (63891,
   [29001]); (63892, [29833]); (63893, [31178]); (63894, [32244]); (63895,
   [32879]); (63896, [36646]); (63897, [34030]); (63898, [36899]); (63899,
   [37706]); (63900, [21015]); (63901, [21155]); (63902, [21693]); (63903,
   [28872]); (63904, [35010]); (63905, [35498]); (63906, [24265]); (63907,
   [24565]); (63908, [25467]); (63909, [27566]); (63910, [31806]); (63911,
   [29557]); (63912, [20196]); (63913, [22265]); (63914, [23527]); (63915,
   [23994]); (63916, [24604]); (63917, [29618]); (63918, [29801]); (63919,
   [32666]); (63920, [32838]); (63921, [37428]); (63922, [38646]); (63923,
   [38728]); (63924, [38936]); (63925, [20363]); (63926, [31150]); (63927,
   [37300]); (63928, [38584]); (63929, [24801]); (63930, [20102]); (63931,
   [20698]); (63932, [23534]); (63933, [23615]); (63934, [26009]); (63935,
   [27138]); (63936, [29134]); (63937, [30274]); (63938, [34044]); (63939,
   [36988]); (63940, [40845]); (63941, [26248]); (63942, [38446]); (63943,
   [21129]); (63944, [26491]); (63945, [26611]); (63946, [27969]); (63947,
   [28316]); (63948, [29705]); (63949, [30041]); (63950, [30827]); (63951,
   [32016]); (63952, [39006]); (63953, [20845]); (63954, [25134]); (63955,
   [38520]); (63956, [20523]); (63957, [23833]); (63958, [28138]); (63959,
   [36650]); (63960, [24459]); (63961, [24900]); (63962, [26647]); (63963,
   [29575]); (63964, [38534]); (63965, [21033]); (63966, [21519]); (63967,
   [23653]); (63968, [26131]); (63969, [26446]); (63970, [26792]); (63971,
   [27877]); (63972, [29702]); (63973, [30178]); (63974, [32633]); (63975,
   [35023]); (63976, [35041]); (63977, [37324]); (63978, [38626]); (63979,
   [21311]); (63980, [28346]); (63981, [21533]); (63982, [29136]); (63983,
   [29848]); (63984, [34298]); (63985, [38563]); (63986, [40023]); (63987,
   [40607]); (63988, [26519]); (63989, [28107]); (63990, [33256]); (63991,
   [31435]); (63992, [31520]); (63993, [31890]); (63994, [29376]); (63995,
   [28825]); (63996, [35672]); (63997, [20160]); (63998, [33590]); (63999,
   [21050]); (64000, [20999]); (64001, [24230]); (64002, [25299]); (64003,
   [31958]); (64004, [23429]); (64005, [27934]); (64006, [26292]); (64007,
   [36667]); (64008, [34892]); (64009, [38477]); (64010, [35211]); (64011,
   [24275]); (64012, [20800]); (64013, [21952]); (64016, [22618]); (64018,
   [26228]); (64021, [20958]); (64022, [29482]); (64023, [30410]); (64024,
   [31036]); (64025, [31070]); (64026, [31077]); (64027, [31119]); (64028,
   [38742]); (64029, [31934]); (64030, [32701]); (64032, [34322]); (64034,
   [35576]); (64037, [36920]); (64038, [37117]); (64042, [39151]); (64043,
   [39164]); (64044, [39208]); (64045, [40372]); (64046, [37086]); (64047,
   [38583]); (64048, [20398]); (64049, [20711]); (64050, [20813]); (64051,
   [21193]); (64052, [21220]); (64053, [21329]); (64054, [21917]); (64055,
   [22022]); (64056, [22120]); (64057, [22592]); (64058, [22696]); (64059,
   [23652]); (64060, [23662]); (64061, [24724]); (64062, [24936]); (64063,
   [24974]); (64064, [25074]); (64065, [25935]); (64066, [26082]); (64067,
   [26257]); (64068, [26757]); (64069, [28023]); (64070, [28186]); (64071,
   [28450]); (64072, [29038]); (64073, [29227]); (64074, [29730]); (64075,
   [30865]); (64076, [31038]); (64077, [31049]); (64078, [31048]); (64079,
   [31056]); (64080, [31062]); (64081, [31069]); (64082, [31117]); (64083,
   [31118]); (64084, [31296]); (64085, [31361]); (64086, [31680]); (64087,
   [32244]); (64088, [32265]); (64089, [32321]); (64090, [32626]); (64091,
   [32773]); (64092, [33261]); (64093, [33401]); (64094, [33401]); (64095,
   [33879]); (64096, [35088]); (64097, [35222]); (64098, [35585]); (64099,
   [35641]); (64100, [36051]); (64101, [36104]); (64102, [36790]); (64103,
   [36920]); (64104, [38627]); (64105, [38911]); (64106, [38971]); (64107,
   [24693]); (64108, [148206]); (64109, [33304]); (64112, [20006]); (64113,
   [20917]); (64114, [20840]); (64115, [20352]); (64116, [20805]); (64117,
   [20864]); (64118, [21191]); (64119, [21242]); (64120, [21917]); (64121,
   [21845]); (64122, [21913]); (64123, [21986]); (64124, [22618]); (64125,
   [22707]); (64126, [22852]); (64127, [22868]); (64128, [23138]); (64129,
   [23336]); (64130, [24274]); (64131, [24281]); (64132, [24425]); (64133,
   [24493]); (64134, [24792]); (64135, [24910]); (64136, [24840]); (64137,
   [24974]); (64138, [24928]); (64139, [25074]); (64140, [25140]); (64141,
   [25540]); (64142, [25628]); (64143, [25682]); (64144, [25942]); (64145,
   [26228]); (64146, [26391]); (64147, [26395]); (64148, [26454]); (64149,
   [27513]); (64150, [27578]); (64151, [27969]); (64152, [28379]); (64153,
   [28363]); (64154, [28450]); (64155, [28702]); (64156, [29038]); (64157,
   [30631]); (64158, [29237]); (64159, [29359]); (64160, [29482]); (64161,
   [29809]); (64162, [29958]); (64163, [30011]); (64164, [30237]); (64165,
   [30239]); (64166, [30410]); (64167, [30427]); (64168, [30452]); (64169,
   [30538]); (64170, [30528]); (64171, [30924]); (64172, [31409]); (64173,
   [31680]); (64174, [31867]); (64175, [32091]); (64176, [32244]); (64177,
   [32574]); (64178, [32773]); (64179, [33618]); (64180, [33775]); (64181,
   [34681]); (64182, [35137]); (64183, [35206]); (64184, [35222]); (64185,
   [35519]); (64186, [35576]); (64187, [35531]); (64188, [35585]); (64189,
   [35582]); (64190, [35565]); (64191, [35641]); (64192, [35722]); (64193,
   [36104]); (64194, [36664]); (64195, [36978]); (64196, [37273]); (64197,
   [37494]); (64198, [38524]); (64199, [38627]); (64200, [38742]); (64201,
   [38875]); (64202, [38911]); (64203, [38923]); (64204, [38971]); (64205,
   [39698]); (64206, [40860]); (64207, [141386]); (64208, [141380]); (64209,
   [144341]); (64210, [15261]); (64211, [16408]); (64212, [16441]); (64213,
   [152137]); (64214, [154832]); (64215, [163539]); (64216, [40771]);
   (64217, [40846]); (64256, [102; 102]); (64257, [102; 105]); (64258, [102;
   108]); (64259, [102; 102; 105]); (64260, [102; 102; 108]); (64261, [115;
   116]); (64262, [115; 116]); (64275, [1396; 1398]); (64276, [1396; 1381]);
   (64277, [1396; 1387]); (64278, [1406; 1398]); (64279, [1396; 1389]);
   (64285, [1497; 1460]); (64287, [1522; 1463]); (64288, [1506]); (64289,
   [1488]); (64290, [1491]); (64291, [1492]); (64292, [1499]); (64293,
   [1500]); (64294, [1501]); (64295, [1512]); (64296, [1514]); (64297,
   [43]); (64298, [1513; 1473]); (64299, [1513; 1474]); (64300, [1513; 1468;
   1473]); (64301, [1513; 1468; 1474]); (64302, [1488; 1463]); (64303,
   [1488; 1464]); (64304, [1488; 1468]); (64305, [1489; 1468]); (64306,
   [1490; 1468]); (64307, [1491; 1468]); (64308, [1492; 1468]); (64309,
   [1493; 1468]); (64310, [1494; 1468]); (64312, [1496; 1468]); (64313,
   [1497; 1468]); (64314, [1498; 1468]); (64315, [1499; 1468]); (64316,
   [1500; 1468]); (64318, [1502; 1468]); (64320, [1504; 1468]); (64321,
   [1505; 1468]); (64323, [1507; 1468]); (64324, [1508; 1468]); (64326,
   [1510; 1468]); (64327, [1511; 1468]); (64328, [1512; 1468]); (64329,
   [1513; 1468]); (64330, [1514; 1468]); (64331, [1493; 1465]); (64332,
   [1489; 1471]); (64333, [1499; 1471]); (64334, [1508; 1471]); (64335,
   [1488; 1500]); (64336, [1649]); (64337, [1649]); (64338, [1659]); (64339,
   [1659]); (64340, [1659]); (64341, [1659]); (64342, [1662]); (64343,
   [1662]); (64344, [1662]); (64345, [1662]); (64346, [1664]); (64347,
   [1664]); (64348, [1664]); (64349, [1664]); (64350, [1658]); (64351,
   [1658]); (64352, [1658]); (64353, [1658]); (64354, [1663]); (64355,
   [1663]); (64356, [1663]); (64357, [1663]); (64358, [1657]); (64359,
   [1657]); (64360, [1657]); (64361, [1657]); (64362, [1700]); (64363,
   [1700]); (64364, [1700]); (64365, [1700]); (64366, [1702]); (64367,
   [1702]); (64368, [1702]); (64369, [1702]); (64370, [1668]); (64371,
   [1668]); (64372, [1668]); (64373, [1668]); (64374, [1667]); (64375,
   [1667]); (64376, [1667]); (64377, [1667]); (64378, [1670]); (64379,
   [1670]); (64380, [1670]); (64381, [1670]); (64382, [1671]); (64383,
   [1671]); (64384, [1671]); (64385, [1671]); (64386, [1677]); (64387,
   [1677]); (64388, [1676]); (64389, [1676]); (64390, [1678]); (64391,
   [1678]); (64392, [1672]); (64393, [1672]); (64394, [1688]); (64395,
   [1688]); (64396, [1681]); (64397, [1681]); (64398, [1705]); (64399,
   [1705]); (64400, [1705]); (64401, [1705]); (64402, [1711]); (64403,
   [1711]); (64404, [1711]); (64405, [1711]); (64406, [1715]); (64407,
   [1715]); (64408, [1715]); (64409, [1715]); (64410, [1713]); (64411,
   [1713]); (64412, [1713]); (64413, [1713]); (64414, [1722]); (64415,
   [1722]); (64416, [1723]); (64417, [1723]); (64418, [1723]); (64419,
   [1723]); (64420, [1749; 1620]); (64421, [1749; 1620]); (64422, [1729]);
   (64423, [1729]); (64424, [1729]); (64425, [1729]); (64426, [1726]);
   (64427, [1726]); (64428, [1726]); (64429, [1726]); (64430, [1746]);
   (64431, [1746]); (64432, [1746; 1620]); (64433, [1746; 1620]); (64467,
   [1709]); (64468, [1709]); (64469, [1709]); (64470, [1709]); (64471,
   [1735]); (64472, [1735]); (64473, [1734]); (64474, [1734]); (64475,
   [1736]); (64476, [1736]); (64477, [1735; 1652]); (64478, [1739]); (64479,
   [1739]); (64480, [1733]); (64481, [1733]); (64482, [1737]); (64483,
   [1737]); (64484, [1744]); (64485, [1744]); (64486, [1744]); (64487,
   [1744]); (64488, [1609]); (64489, [1609]); (64490, [1610; 1620; 1575]);
   (64491, [1610; 1620; 1575]); (64492, [1610; 1620; 1749]); (64493, [1610;
   1620; 1749]); (64494, [1610; 1620; 1608]); (64495, [1610; 1620; 1608]);
   (64496, [1610; 1620; 1735]); (64497, [1610; 1620; 1735]); (64498, [1610;
   1620; 1734]); (64499, [1610; 1620; 1734]); (64500, [1610; 1620; 1736]);
   (64501, [1610; 1620; 1736]); (64502, [1610; 1620; 1744]); (64503, [1610;
   1620; 1744]); (64504, [1610; 1620; 1744]); (64505, [1610; 1620; 1609]);
   (64506, [1610; 1620; 1609]); (64507, [1610; 1620; 1609]); (64508,
   [1740]); (64509, [1740]); (64510, [1740]); (64511, [1740]); (64512,
   [1610; 1620; 1580]); (64513, [1610; 1620; 1581]); (64514, [1610; 1620;
   1605]); (64515, [1610; 1620; 1609]); (64516, [1610; 1620; 1610]); (64517,
   [1576; 1580]); (64518, [1576; 1581]); (64519, [1576; 1582]); (64520,
   [1576; 1605]); (64521, [1576; 1609]); (64522, [1576; 1610]); (64523,
   [1578; 1580]); (64524, [1578; 1581]); (64525, [1578; 1582]); (64526,
   [1578; 1605]); (64527, [1578; 1609]); (64528, [1578; 1610]); (64529,
   [1579; 1580]); (64530, [1579; 1605]); (64531, [1579; 1609]); (64532,
   [1579; 1610]); (64533, [1580; 1581]); (64534, [1580; 1605]); (64535,
   [1581; 1580]); (64536, [1581; 1605]); (64537, [1582; 1580]); (64538,
   [1582; 1581]); (64539, [1582; 1605]); (64540, [1587; 1580]); (64541,
   [1587; 1581]); (64542, [1587; 1582]); (64543, [1587; 1605]); (64544,
   [1589; 1581]); (64545, [1589; 1605]); (64546, [1590; 1580]); (64547,
   [1590; 1581]); (64548, [1590; 1582]); (64549, [1590; 1605]); (64550,
   [1591; 1581]); (64551, [1591; 1605]); (64552, [1592; 1605]); (64553,
   [1593; 1580]); (64554, [1593; 1605]); (64555, [1594; 1580]); (64556,
   [1594; 1605]); (64557, [1601; 1580]); (64558, [1601; 1581]); (64559,
   [1601; 1582]); (64560, [1601; 1605]); (64561, [1601; 1609]); (64562,
   [1601; 1610]); (64563, [1602; 1581]); (64564, [1602; 1605]); (64565,
   [1602; 1609]); (64566, [1602; 1610]); (64567, [1603; 1575]); (64568,
   [1603; 1580]); (64569, [1603; 1581]); (64570, [1603; 1582]); (64571,
   [1603; 1604]); (64572, [1603; 1605]); (64573, [1603; 1609]); (64574,
   [1603; 1610]); (64575, [1604; 1580]); (64576, [1604; 1581]); (64577,
   [1604; 1582]); (64578, [1604; 1605]); (64579, [1604; 1609]); (64580,
   [1604; 1610]); (64581, [1605; 1580]); (64582, [1605; 1581]); (64583,
   [1605; 1582]); (64584, [1605; 1605]); (64585, [1605; 1609]); (64586,
   [1605; 1610]); (64587, [1606; 1580]); (64588, [1606; 1581]); (64589,
   [1606; 1582]); (64590, [1606; 1605]); (64591, [1606; 1609]); (64592,
   [1606; 1610]); (64593, [1607; 1580]); (64594, [1607; 1605]); (64595,
   [1607; 1609]); (64596, [1607; 1610]); (64597, [1610; 1580]); (64598,
   [1610; 1581]); (64599, [1610; 1582]); (64600, [1610; 1605]); (64601,
   [1610; 1609]); (64602, [1610; 1610]); (64603, [1584; 1648]); (64604,
   [1585; 1648]); (64605, [1609; 1648]); (64606, [32; 1612; 1617]); (64607,
   [32; 1613; 1617]); (64608, [32; 1614; 1617]); (64609, [32; 1615; 1617]);
   (64610, [32; 1616; 1617]); (64611, [32; 1617; 1648]); (64612, [1610;
   1620; 1585]); (64613, [1610; 1620; 1586]); (64614, [1610; 1620; 1605]);
   (64615, [1610; 1620; 1606]); (64616, [1610; 1620; 1609]); (64617, [1610;
   1620; 1610]); (64618, [1576; 1585]); (64619, [1576; 1586]); (64620,
   [1576; 1605]); (64621, [1576; 1606]); (64622, [1576; 1609]); (64623,
   [1576; 1610]); (64624, [1578; 1585]); (64625, [1578; 1586]); (64626,
   [1578; 1605]); (64627, [1578; 1606]); (64628, [1578; 1609]); (64629,
   [1578; 1610]); (64630, [1579; 1585]); (64631, [1579; 1586]); (64632,
   [1579; 1605]); (64633, [1579; 1606]); (64634, [1579; 1609]); (64635,
   [1579; 1610]); (64636, [1601; 1609]); (64637, [1601; 1610]); (64638,
   [1602; 1609]); (64639, [1602; 1610]); (64640, [1603; 1575]); (64641,
   [1603; 1604]); (64642, [1603; 1605]); (64643, [1603; 1609]); (64644,
   [1603; 1610]); (64645, [1604; 1605]); (64646, [1604; 1609]); (64647,
   [1604; 1610]); (64648, [1605; 1575]); (64649, [1605; 1605]); (64650,
   [1606; 1585]); (64651, [1606; 1586]); (64652, [1606; 1605]); (64653,
   [1606; 1606]); (64654, [1606; 1609]); (64655, [1606; 1610]); (64656,
   [1609; 1648]); (64657, [1610; 1585]); (64658, [1610; 1586]); (64659,
   [1610; 1605]); (64660, [1610; 1606]); (64661, [1610; 1609]); (64662,
   [1610; 1610]); (64663, [1610; 1620; 1580]); (64664, [1610; 1620; 1581]);
   (64665, [1610; 1620; 1582]); (64666, [1610; 1620; 1605]); (64667, [1610;
   1620; 1607]); (64668, [1576; 1580]); (64669, [1576; 1581]); (64670,
   [1576; 1582]); (64671, [1576; 1605]); (64672, [1576; 1607]); (64673,
   [1578; 1580]); (64674, [1578; 1581]); (64675, [1578; 1582]); (64676,
   [1578; 1605]); (64677, [1578; 1607]); (64678, [1579; 1605]); (64679,
   [1580; 1581]); (64680, [1580; 1605]); (64681, [1581; 1580]); (64682,
   [1581; 1605]); (64683, [1582; 1580]); (64684, [1582; 1605]); (64685,
   [1587; 1580]); (64686, [1587; 1581]); (64687, [1587; 1582]); (64688,
   [1587; 1605]); (64689, [1589; 1581]); (64690, [1589; 1582]); (64691,
   [1589; 1605]); (64692, [1590; 1580]); (64693, [1590; 1581]); (64694,
   [1590; 1582]); (64695, [1590; 1605]); (64696, [1591; 1581]); (64697,
   [1592; 1605]); (64698, [1593; 1580]); (64699, [1593; 1605]); (64700,
   [1594; 1580]); (64701, [1594; 1605]); (64702, [1601; 1580]); (64703,
   [1601; 1581]); (64704, [1601; 1582]); (64705, [1601; 1605]); (64706,
   [1602; 1581]); (64707, [1602; 1605]); (64708, [1603; 1580]); (64709,
   [1603; 1581]); (64710, [1603; 1582]); (64711, [1603; 1604]); (64712,
   [1603; 1605]); (64713, [1604; 1580]); (64714, [1604; 1581]); (64715,
   [1604; 1582]); (64716, [1604; 1605]); (64717, [1604; 1607]); (64718,
   [1605; 1580]); (64719, [1605; 1581]); (64720, [1605; 1582]); (64721,
   [1605; 1605]); (64722, [1606; 1580]); (64723, [1606; 1581]); (64724,
   [1606; 1582]); (64725, [1606; 1605]); (64726, [1606; 1607]); (64727,
   [1607; 1580]); (64728, [1607; 1605]); (64729, [1607; 1648]); (64730,
   [1610; 1580]); (64731, [1610; 1581]); (64732, [1610; 1582]); (64733,
   [1610; 1605]); (64734, [1610; 1607]); (64735, [1610; 1620; 1605]);
   (64736, [1610; 1620; 1607]); (64737, [1576; 1605]); (64738, [1576;
   1607]); (64739, [1578; 1605]); (64740, [1578; 1607]); (64741, [1579;
   1605]); (64742, [1579; 1607]); (64743, [1587; 1605]); (64744, [1587;
   1607]); (64745, [1588; 1605]); (64746, [1588; 1607]); (64747, [1603;
   1604]); (64748, [1603; 1605]); (64749, [1604; 1605]); (64750, [1606;
   1605]); (64751, [1606; 1607]); (64752, [1610; 1605]); (64753, [1610;
   1607]); (64754, [1600; 1614; 1617]); (64755, [1600; 1615; 1617]); (64756,
   [1600; 1616; 1617]); (64757, [1591; 1609]); (64758, [1591; 1610]);
   (64759, [1593; 1609]); (64760, [1593; 1610]); (64761, [1594; 1609]);
   (64762, [1594; 1610]); (64763, [1587; 1609]); (64764, [1587; 1610]);
   (64765, [1588; 1609]); (64766, [1588; 1610]); (64767, [1581; 1609]);
   (64768, [1581; 1610]); (64769, [1580; 1609]); (64770, [1580; 1610]);
   (64771, [1582; 1609]); (64772, [1582; 1610]); (64773, [1589; 1609]);
   (64774, [1589; 1610]); (64775, [1590; 1609]); (64776, [1590; 1610]);
   (64777, [1588; 1580]); (64778, [1588; 1581]); (64779, [1588; 1582]);
   (64780, [1588; 1605]); (64781, [1588; 1585]); (64782, [1587; 1585]);
   (64783, [1589; 1585]); (64784, [1590; 1585]); (64785, [1591; 1609]);
   (64786, [1591; 1610]); (64787, [1593; 1609]); (64788, [1593; 1610]);
   (64789, [1594; 1609]); (64790, [1594; 1610]); (64791, [1587; 1609]);
   (64792, [1587; 1610]); (64793, [1588; 1609]); (64794, [1588; 1610]);
   (64795, [1581; 1609]); (64796, [1581; 1610]); (64797, [1580; 1609]);
   (64798, [1580; 1610]); (64799, [1582; 1609]); (64800, [1582; 1610]);
   (64801, [1589; 1609]); (64802, [1589; 1610]); (64803, [1590; 1609]);
   (64804, [1590; 1610]); (64805, [1588; 1580]); (64806, [1588; 1581]);
   (64807, [1588; 1582]); (64808, [1588; 1605]); (64809, [1588; 1585]);
   (64810, [1587; 1585]); (64811, [1589; 1585]); (64812, [1590; 1585]);
   (64813, [1588; 1580]); (64814, [1588; 1581]); (64815, [1588; 1582]);
   (64816, [1588; 1605]); (64817, [1587; 1607]); (64818, [1588; 1607]);
   (64819, [1591; 1605]); (64820, [1587; 1580]); (64821, [1587; 1581]);
   (64822, [1587; 1582]); (64823, [1588; 1580]); (64824, [1588; 1581]);
   (64825, [1588; 1582]); (64826, [1591; 1605]); (64827, [1592; 1605]);
   (64828, [1575; 1611]); (64829, [1575; 1611]); (64848, [1578; 1580;
   1605]); (64849, [1578; 1581; 1580]); (64850, [1578; 1581; 1580]); (64851,
   [1578; 1581; 1605]); (64852, [1578; 1582; 1605]); (64853, [1578; 1605;
   1580]); (64854, [1578; 1605; 1581]); (64855, [1578; 1605; 1582]); (64856,
   [1580; 1605; 1581]); (64857, [1580; 1605; 1581]); (64858, [1581; 1605;
   1610]); (64859, [1581; 1605; 1609]); (64860, [1587; 1581; 1580]); (64861,
   [1587; 1580; 1581]); (64862, [1587; 1580; 1609]); (64863, [1587; 1605;
   1581]); (64864, [1587; 1605; 1581]); (64865, [1587; 1605; 1580]); (64866,
   [1587; 1605; 1605]); (64867, [1587; 1605; 1605]); (64868, [1589; 1581;
   1581]); (64869, [1589; 1581; 1581]); (64870, [1589; 1605; 1605]); (64871,
   [1588; 1581; 1605]); (64872, [1588; 1581; 1605]); (64873, [1588; 1580;
   1610]); (64874, [1588; 1605; 1582]); (64875, [1588; 1605; 1582]); (64876,
   [1588; 1605; 1605]); (64877, [1588; 1605; 1605]); (64878, [1590; 1581;
   1609]); (64879, [1590; 1582; 1605]); (64880, [1590; 1582; 1605]); (64881,
   [1591; 1605; 1581]); (64882, [1591; 1605; 1581]); (64883, [1591; 1605;
   1605]); (64884, [1591; 1605; 1610]); (64885, [1593; 1580; 1605]); (64886,
   [1593; 1605; 1605]); (64887, [1593; 1605; 1605]); (64888, [1593; 1605;
   1609]); (64889, [1594; 1605; 1605]); (64890, [1594; 1605; 1610]); (64891,
   [1594; 1605; 1609]); (64892, [1601; 1582; 1605]); (64893, [1601; 1582;
   1605]); (64894, [1602; 1605; 1581]); (64895, [1602; 1605; 1605]); (64896,
   [1604; 1581; 1605]); (64897, [1604; 1581; 1610]); (64898, [1604; 1581;
   1609]); (64899, [1604; 1580; 1580]); (64900, [1604; 1580; 1580]); (64901,
   [1604; 1582; 1605]); (64902, [1604; 1582; 1605]); (64903, [1604; 1605;
   1581]); (64904, [1604; 1605; 1581]); (64905, [1605; 1581; 1580]); (64906,
   [1605; 1581; 1605]); (64907, [1605; 1581; 1610]); (64908, [1605; 1580;
   1581]); (64909, [1605; 1580; 1605]); (64910, [1605; 1582; 1580]); (64911,
   [1605; 1582; 1605]); (64914, [1605; 1580; 1582]); (64915, [1607; 1605;
   1580]); (64916, [1607; 1605; 1605]); (64917, [1606; 1581; 1605]); (64918,
   [1606; 1581; 1609]); (64919, [1606; 1580; 1605]); (64920, [1606; 1580;
   1605]); (64921, [1606; 1580; 1609]); (64922, [1606; 1605; 1610]); (64923,
   [1606; 1605; 1609]); (64924, [1610; 1605; 1605]); (64925, [1610; 1605;
   1605]); (64926, [1576; 1582; 1610]); (64927, [1578; 1580; 1610]); (64928,
   [1578; 1580; 1609]); (64929, [1578; 1582; 1610]); (64930, [1578; 1582;
   1609]); (64931, [1578; 1605; 1610]); (64932, [1578; 1605; 1609]); (64933,
   [1580; 1605; 1610]); (64934, [1580; 1581; 1609]); (64935, [1580; 1605;
   1609]); (64936, [1587; 1582; 1609]); (64937, [1589; 1581; 1610]); (64938,
   [1588; 1581; 1610]); (64939, [1590; 1581; 1610]); (64940, [1604; 1580;
   1610]); (64941, [1604; 1605; 1610]); (64942, [1610; 1581; 1610]); (64943,
   [1610; 1580; 1610]); (64944, [1610; 1605; 1610]); (64945, [1605; 1605;
   1610]); (64946, [1602; 1605; 1610]); (64947, [1606; 1581; 1610]); (64948,
   [1602; 1605; 1581]); (64949, [1604; 1581; 1605]); (64950, [1593; 1605;
   1610]); (64951, [1603; 1605; 1610]); (64952, [1606; 1580; 1581]); (64953,
   [1605; 1582; 1610]); (64954, [1604; 1580; 1605]); (64955, [1603; 1605;
   1605]); (64956, [1604; 1580; 1605]); (64957, [1606; 1580; 1581]); (64958,
   [1580; 1581; 1610]); (64959, [1581; 1580; 1610]); (64960, [1605; 1580;
   1610]); (64961, [1601; 1605; 1610]); (64962, [1576; 1581; 1610]); (64963,
   [1603; 1605; 1605]); (64964, [1593; 1580; 1605]); (64965, [1589; 1605;
   1605]); (64966, [1587; 1582; 1610]); (64967, [1606; 1580; 1610]); (65008,
   [1589; 1604; 1746]); (65009, [1602; 1604; 1746]); (65010, [1575; 1604;
   1604; 1607]); (65011, [1575; 1603; 1576; 1585]); (65012, [1605; 1581;
   1605; 1583]); (65013, [1589; 1604; 1593; 1605]); (65014, [1585; 1587;
   1608; 1604]); (65015, [1593; 1604; 1610; 1607]); (65016, [1608; 1587;
   1604; 1605]); (65017, [1589; 1604; 1609]); (65018, [1589; 1604; 1609; 32;
   1575; 1604; 1604; 1607; 32; 1593; 1604; 1610; 1607; 32; 1608; 1587; 1604;
   1605]); (65019, [1580; 1604; 32; 1580; 1604; 1575; 1604; 1607]); (65020,
   [1585; 1740; 1575; 1604]); (65040, [44]); (65041, [12289]); (65042,
   [12290]); (65043, [58]); (65044, [59]); (65045, [33]); (65046, [63]);
   (65047, [12310]); (65048, [12311]); (65049, [46; 46; 46]); (65072, [46;
   46]); (65073, [8212]); (65074, [8211]); (65075, [95]); (65076, [95]);
   (65077, [40]); (65078, [41]); (65079, [123]); (65080, [125]); (65081,
   [12308]); (65082, [12309]); (65083, [12304]); (65084, [12305]); (65085,
   [12298]); (65086, [12299]); (65087, [12296]); (65088, [12297]); (65095,
   [91]); (65096, [93]); (65097, [32; 773]); (65098, [32; 773]); (65099,
   [32; 773]); (65100, [32; 773]); (65101, [95]); (65102, [95]); (65103,
   [95]); (65104, [44]); (65105, [12289]); (65106, [46]); (65108, [59]);
   (65109, [58]); (65110, [63]); (65111, [33]); (65112, [8212]); (65113,
   [40]); (65114, [41]); (65115, [123]); (65116, [125]); (65117, [12308]);
   (65118, [12309]); (65119, [35]); (65120, [38]); (65121, [42]); (65122,
   [43]); (65123, [45]); (65124, [60]); (65125, [62]); (65126, [61]);
   (65128, [92]); (65129, [36]); (65130, [37]); (65131, [64]); (65136, [32;
   1611]); (65137, [1600; 1611]); (65138, [32; 1612]); (65140, [32; 1613]);
   (65142, [32; 1614]); (65143, [1600; 1614]); (65144, [32; 1615]); (65145,
   [1600; 1615]); (65146, [32; 1616]); (65147, [1600; 1616]); (65148, [32;
   1617]); (65149, [1600; 1617]); (65150, [32; 1618]); (65151, [1600;
   1618]); (65152, [1569]); (65153, [1575; 1619]); (65154, [1575; 1619]);
   (65155, [1575; 1620]); (65156, [1575; 1620]); (65157, [1608; 1620]);
   (65158, [1608; 1620]); (65159, [1575; 1621]); (65160, [1575; 1621]);
   (65161, [1610; 1620]); (65162, [1610; 1620]); (65163, [1610; 1620]);
   (65164, [1610; 1620]); (65165, [1575]); (65166, [1575]); (65167, [1576]);
   (65168, [1576]); (65169, [1576]); (65170, [1576]); (65171, [1577]);
   (65172, [1577]); (65173, [1578]); (65174, [1578]); (65175, [1578]);
   (65176, [1578]); (65177, [1579]); (65178, [1579]); (65179, [1579]);
   (65180, [1579]); (65181, [1580]); (65182, [1580]); (65183, [1580]);
   (65184, [1580]); (65185, [1581]); (65186, [1581]); (65187, [1581]);
   (65188, [1581]); (65189, [1582]); (65190, [1582]); (65191, [1582]);
   (65192, [1582]); (65193, [1583]); (65194, [1583]); (65195, [1584]);
   (65196, [1584]); (65197, [1585]); (65198, [1585]); (65199, [1586]);
   (65200, [1586]); (65201, [1587]); (65202, [1587]); (65203, [1587]);
   (65204, [1587]); (65205, [1588]); (65206, [1588]); (65207, [1588]);
   (65208, [1588]); (65209, [1589]); (65210, [1589]); (65211, [1589]);
   (65212, [1589]); (65213, [1590]); (65214, [1590]); (65215, [1590]);
   (65216, [1590]); (65217, [1591]); (65218, [1591]); (65219, [1591]);
   (65220, [1591]); (65221, [1592]); (65222, [1592]); (65223, [1592]);
   (65224, [1592]); (65225, [1593]); (65226, [1593]); (65227, [1593]);
   (65228, [1593]); (65229, [1594]); (65230, [1594]); (65231, [1594]);
   (65232, [1594]); (65233, [1601]); (65234, [1601]); (65235, [1601]);
   (65236, [1601]); (65237, [1602]); (65238, [1602]); (65239, [1602]);
   (65240, [1602]); (65241, [1603]); (65242, [1603]); (65243, [1603]);
   (65244, [1603]); (65245, [1604]); (65246, [1604]); (65247, [1604]);
   (65248, [1604]); (65249, [1605]); (65250, [1605]); (65251, [1605]);
   (65252, [1605]); (65253, [1606]); (65254, [1606]); (65255, [1606]);
   (65256, [1606]); (65257, [1607]); (65258, [1607]); (65259, [1607]);
   (65260, [1607]); (65261, [1608]); (65262, [1608]); (65263, [1609]);
   (65264, [1609]); (65265, [1610]); (65266, [1610]); (65267, [1610]);
   (65268, [1610]); (65269, [1604; 1575; 1619]); (65270, [1604; 1575;
   1619]); (65271, [1604; 1575; 1620]); (65272, [1604; 1575; 1620]); (65273,
   [1604; 1575; 1621]); (65274, [1604; 1575; 1621]); (65275, [1604; 1575]);
   (65276, [1604; 1575]); (65375, [10629]); (65376, [10630]); (65377,
   [12290]); (65378, [12300]); (65379, [12301]); (65380, [12289]); (65381,
   [12539]); (65382, [12530]); (65383, [12449]); (65384, [12451]); (65385,
   [12453]); (65386, [12455]); (65387, [12457]); (65388, [12515]); (65389,
   [12517]); (65390, [12519]); (65391, [12483]); (65392, [12540]); (65393,
   [12450]); (65394, [12452]); (65395, [12454]); (65396, [12456]); (65397,
   [12458]); (65398, [12459]); (65399, [12461]); (65400, [12463]); (65401,
   [12465]); (65402, [12467]); (65403, [12469]); (65404, [12471]); (65405,
   [12473]); (65406, [12475]); (65407, [12477]); (65408, [12479]); (65409,
   [12481]); (65410, [12484]); (65411, [12486]); (65412, [12488]); (65419,
   [12498]); (65420, [12501]); (65421, [12504]); (65422, [12507]); (65428,
   [12516]); (65429, [12518]); (65436, [12527]); (65437, [12531]); (65438,
   [12441]); (65439, [12442]); (65440, [4448]); (65441, [4352]); (65442,
   [4353]); (65443, [4522]); (65444, [4354]); (65445, [4524]); (65446,
   [4525]); (65447, [4355]); (65448, [4356]); (65449, [4357]); (65456,
   [4378]); (65457, [4358]); (65458, [4359]); (65459, [4360]); (65460,
   [4385]); (65498, [4467]); (65499, [4468]); (65500, [4469]); (65504,
   [162]); (65505, [163]); (65506, [172]); (65507, [32; 772]); (65508,
   [166]); (65509, [165]); (65510, [8361]); (65512, [9474]); (65517,
   [9632]); (65518, [9675]); (67457, [720]); (67458, [721]); (67459, [230]);
   (67460, [665]); (67461, [595]); (67463, [675]); (67464, [43878]); (67465,
   [677]); (67466, [676]); (67467, [598]); (67468, [599]); (67469, [7569]);
   (67470, [600]); (67471, [606]); (67472, [681]); (67473, [612]); (67474,
   [610]); (67475, [608]); (67476, [667]); (67477, [295]); (67478, [668]);
   (67479, [615]); (67480, [644]); (67481, [682]); (67482, [683]); (67483,
   [620]); (67484, [122628]); (67485, [42894]); (67486, [622]); (67487,
   [122629]); (67488, [654]); (67489, [122630]); (67490, [248]); (67491,
   [630]); (67492, [631]); (67493, [113]); (67494, [634]); (67495,
   [122632]); (67496, [637]); (67497, [638]); (67498, [640]); (67499,
   [680]); (67500, [678]); (67501, [43879]); (67502, [679]); (67503, [648]);
   (67504, [11377]); (67506, [655]); (67507, [673]); (67508, [674]); (67509,
   [664]); (67510, [448]); (67511, [449]); (67512, [450]); (67513,
   [122634]); (67514, [122654]); (69786, [69785; 69818]); (69788, [69787;
   69818]); (69803, [69797; 69818]); (69934, [69937; 69927]); (69935,
   [69938; 69927]); (70475, [70471; 70462]); (70476, [70471; 70487]);
   (70843, [70841; 70842]); (70844, [70841; 70832]); (70846, [70841;
   70845]); (71098, [71096; 71087]); (71099, [71097; 71087]); (71992,
   [71989; 71984]); (119134, [119127; 119141]); (119135, [119128; 119141]);
   (119136, [119128; 119141; 119150]); (119137, [119128; 119141; 119151]);
   (119138, [119128; 119141; 119152]); (119139, [119128; 119141; 119153]);
   (119140, [119128; 119141; 119154]); (119227, [119225; 119141]); (119228,
   [119226; 119141]); (119229, [119225; 119141; 119150]); (119230, [119226;
   119141; 119150]); (119231, [119225; 119141; 119151]); (119232, [119226;
   119141; 119151]); (119964, [65]); (119966, [67]); (119967, [68]);
   (119970, [71]); (119973, [74]); (119974, [75]); (119995, [102]); (120068,
   [65]); (120069, [66]); (120120, [65]); (120121, [66]); (120134, [79]);
   (120484, [305]); (120485, [567]); (120505, [920]); (120513, [8711]);
   (120539, [8706]); (120540, [949]); (120541, [952]); (120542, [954]);
   (120543, [966]); (120544, [961]); (120545, [960]); (120563, [920]);
   (120571, [8711]); (120597, [8706]); (120598, [949]); (120599, [952]);
   (120600, [954]); (120601, [966]); (120602, [961]); (120603, [960]);
   (120621, [920]); (120629, [8711]); (120655, [8706]); (120656, [949]);
   (120657, [952]); (120658, [954]); (120659, [966]); (120660, [961]);
   (120661, [960]); (120679, [920]); (120687, [8711]); (120713, [8706]);
   (120714, [949]); (120715, [952]); (120716, [954]); (120717, [966]);
   (120718, [961]); (120719, [960]); (120737, [920]); (120745, [8711]);
   (120771, [8706]); (120772, [949]); (120773, [952]); (120774, [954]);
   (120775, [966]); (120776, [961]); (120777, [960]); (120778, [988]);
   (120779, [989]); (126464, [1575]); (126465, [1576]); (126466, [1580]);
   (126467, [1583]); (126469, [1608]); (126470, [1586]); (126471, [1581]);
   (126472, [1591]); (126473, [1610]); (126478, [1587]); (126479, [1593]);
   (126480, [1601]); (126481, [1589]); (126482, [1602]); (126483, [1585]);
   (126484, [1588]); (126485, [1578]); (126486, [1579]); (126487, [1582]);
   (126488, [1584]); (126489, [1590]); (126490, [1592]); (126491, [1594]);
   (126492, [1646]); (126493, [1722]); (126494, [1697]); (126495, [1647]);
   (126497, [1576]); (126498, [1580]); (126500, [1607]); (126503, [1581]);
   (126505, [1610]); (126510, [1587]); (126511, [1593]); (126512, [1601]);
   (126513, [1589]); (126514, [1602]); (126516, [1588]); (126517, [1578]);
   (126518, [1579]); (126519, [1582]); (126521, [1590]); (126523, [1594]);
   (126530, [1580]); (126535, [1581]); (126537, [1610]); (126539, [1604]);
   (126541, [1606]); (126542, [1587]); (126543, [1593]); (126545, [1589]);
   (126546, [1602]); (126548, [1588]); (126551, [1582]); (126553, [1590]);
   (126555, [1594]); (126557, [1722]); (126559, [1647]); (126561, [1576]);
   (126562, [1580]); (126564, [1607]); (126567, [1581]); (126568, [1591]);
   (126569, [1610]); (126570, [1603]); (126572, [1605]); (126573, [1606]);
   (126574, [1587]); (126575, [1593]); (126576, [1601]); (126577, [1589]);
   (126578, [1602]); (126580, [1588]); (126581, [1578]); (126582, [1579]);
   (126583, [1582]); (126585, [1590]); (126586, [1592]); (126587, [1594]);
   (126588, [1646]); (126590, [1697]); (126592, [1575]); (126593, [1576]);
   (126594, [1580]); (126595, [1583]); (126596, [1607]); (126597, [1608]);
   (126598, [1586]); (126599, [1581]); (126600, [1591]); (126601, [1610]);
   (126603, [1604]); (126604, [1605]); (126605, [1606]); (126606, [1587]);
   (126607, [1593]); (126608, [1601]); (126609, [1589]); (126610, [1602]);
   (126611, [1585]); (126612, [1588]); (126613, [1578]); (126614, [1579]);
   (126615, [1582]); (126616, [1584]); (126617, [1590]); (126618, [1592]);
   (126619, [1594]); (126625, [1576]); (126626, [1580]); (126627, [1583]);
   (126629, [1608]); (126630, [1586]); (126631, [1581]); (126632, [1591]);
   (126633, [1610]); (126635, [1604]); (126636, [1605]); (126637, [1606]);
   (126638, [1587]); (126639, [1593]); (126640, [1601]); (126641, [1589]);
   (126642, [1602]); (126643, [1585]); (126644, [1588]); (126645, [1578]);
   (126646, [1579]); (126647, [1582]); (126648, [1584]); (126649, [1590]);
   (126650, [1592]); (126651, [1594]); (127232, [48; 46]); (127233, [48;
   44]); (127234, [49; 44]); (127235, [50; 44]); (127236, [51; 44]);
   (127237, [52; 44]); (127238, [53; 44]); (127239, [54; 44]); (127240, [55;
   44]); (127241, [56; 44]); (127242, [57; 44]); (127248, [40; 65; 41]);
   (127249, [40; 66; 41]); (127250, [40; 67; 41]); (127251, [40; 68; 41]);
   (127252, [40; 69; 41]); (127253, [40; 70; 41]); (127254, [40; 71; 41]);
   (127255, [40; 72; 41]); (127256, [40; 73; 41]); (127257, [40; 74; 41]);
   (127258, [40; 75; 41]); (127259, [40; 76; 41]); (127260, [40; 77; 41]);
   (127261, [40; 78; 41]); (127262, [40; 79; 41]); (127263, [40; 80; 41]);
   (127264, [40; 81; 41]); (127265, [40; 82; 41]); (127266, [40; 83; 41]);
   (127267, [40; 84; 41]); (127268, [40; 85; 41]); (127269, [40; 86; 41]);
   (127270, [40; 87; 41]); (127271, [40; 88; 41]); (127272, [40; 89; 41]);
   (127273, [40; 90; 41]); (127274, [12308; 83; 12309]); (127275, [67]);
   (127276, [82]); (127277, [67; 68]); (127278, [87; 90]); (127306, [72;
   86]); (127307, [77; 86]); (127308, [83; 68]); (127309, [83; 83]);
   (127310, [80; 80; 86]); (127311, [87; 67]); (127338, [77; 67]); (127339,
   [77; 68]); (127340, [77; 82]); (127376, [68; 74]); (127488, [12411;
   12363]); (127489, [12467; 12467]); (127490, [12469]); (127504, [25163]);
   (127505, [23383]); (127506, [21452]); (127507, [12486; 12441]); (127508,
   [20108]); (127509, [22810]); (127510, [35299]); (127511, [22825]);
   (127512, [20132]); (127513, [26144]); (127514, [28961]); (127515,
   [26009]); (127516, [21069]); (127517, [24460]); (127518, [20877]);
   (127519, [26032]); (127520, [21021]); (127521, [32066]); (127522,
   [29983]); (127523, [36009]); (127524, [22768]); (127525, [21561]);
   (127526, [28436]); (127527, [25237]); (127528, [25429]); (127529,
   [19968]); (127530, [19977]); (127531, [36938]); (127532, [24038]);
   (127533, [20013]); (127534, [21491]); (127535, [25351]); (127536,
   [36208]); (127537, [25171]); (127538, [31105]); (127539, [31354]);
   (127540, [21512]); (127541, [28288]); (127542, [26377]); (127543,
   [26376]); (127544, [30003]); (127545, [21106]); (127546, [21942]);
   (127547, [37197]); (127552, [12308; 26412; 12309]); (127553, [12308;
   19977; 12309]); (127554, [12308; 20108; 12309]); (127555, [12308; 23433;
   12309]); (127556, [12308; 28857; 12309]); (127557, [12308; 25171;
   12309]); (127558, [12308; 30423; 12309]); (127559, [12308; 21213;
   12309]); (127560, [12308; 25943; 12309]); (127568, [24471]); (127569,
   [21487]); (194560, [20029]); (194561, [20024]); (194562, [20033]);
   (194563, [131362]); (194564, [20320]); (194565, [20398]); (194566,
   [20411]); (194567, [20482]); (194568, [20602]); (194569, [20633]);
   (194570, [20711]); (194571, [20687]); (194572, [13470]); (194573,
   [132666]); (194574, [20813]); (194575, [20820]); (194576, [20836]);
   (194577, [20855]); (194578, [132380]); (194579, [13497]); (194580,
   [20839]); (194581, [20877]); (194582, [132427]); (194583, [20887]);
   (194584, [20900]); (194585, [20172]); (194586, [20908]); (194587,
   [20917]); (194588, [168415]); (194589, [20981]); (194590, [20995]);
   (194591, [13535]); (194592, [21051]); (194593, [21062]); (194594,
   [21106]); (194595, [21111]); (194596, [13589]); (194597, [21191]);
   (194598, [21193]); (194599, [21220]); (194600, [21242]); (194601,
   [21253]); (194602, [21254]); (194603, [21271]); (194604, [21321]);
   (194605, [21329]); (194606, [21338]); (194607, [21363]); (194608,
   [21373]); (194609, [21375]); (194610, [21375]); (194611, [21375]);
   (194612, [133676]); (194613, [28784]); (194614, [21450]); (194615,
   [21471]); (194616, [133987]); (194617, [21483]); (194618, [21489]);
   (194619, [21510]); (194620, [21662]); (194621, [21560]); (194622,
   [21576]); (194623, [21608]); (194624, [21666]); (194625, [21750]);
   (194626, [21776]); (194627, [21843]); (194628, [21859]); (194629,
   [21892]); (194630, [21892]); (194631, [21913]); (194632, [21931]);
   (194633, [21939]); (194634, [21954]); (194635, [22294]); (194636,
   [22022]); (194637, [22295]); (194638, [22097]); (194639, [22132]);
   (194640, [20999]); (194641, [22766]); (194642, [22478]); (194643,
   [22516]); (194644, [22541]); (194645, [22411]); (194646, [22578]);
   (194647, [22577]); (194648, [22700]); (194649, [136420]); (194650,
   [22770]); (194651, [22775]); (194652, [22790]); (194653, [22810]);
   (194654, [22818]); (194655, [22882]); (194656, [136872]); (194657,
   [136938]); (194658, [23020]); (194659, [23067]); (194660, [23079]);
   (194661, [23000]); (194662, [23142]); (194663, [14062]); (194664,
   [14076]); (194665, [23304]); (194666, [23358]); (194667, [23358]);
   (194668, [137672]); (194669, [23491]); (194670, [23512]); (194671,
   [23527]); (194672, [23539]); (194673, [138008]); (194674, [23551]);
   (194675, [23558]); (194676, [24403]); (194677, [23586]); (194678,
   [14209]); (194679, [23648]); (194680, [23662]); (194681, [23744]);
   (194682, [23693]); (194683, [138724]); (194684, [23875]); (194685,
   [138726]); (194686, [23918]); (194687, [23915]); (194688, [23932]);
   (194689, [24033]); (194690, [24034]); (194691, [14383]); (194692,
   [24061]); (194693, [24104]); (194694, [24125]); (194695, [24169]);
   (194696, [14434]); (194697, [139651]); (194698, [14460]); (194699,
   [24240]); (194700, [24243]); (194701, [24246]); (194702, [24266]);
   (194703, [172946]); (194704, [24318]); (194705, [140081]); (194706,
   [140081]); (194707, [33281]); (194708, [24354]); (194709, [24354]);
   (194710, [14535]); (194711, [144056]); (194712, [156122]); (194713,
   [24418]); (194714, [24427]); (194715, [14563]); (194716, [24474]);
   (194717, [24525]); (194718, [24535]); (194719, [24569]); (194720,
   [24705]); (194721, [14650]); (194722, [14620]); (194723, [24724]);
   (194724, [141012]); (194725, [24775]); (194726, [24904]); (194727,
   [24908]); (194728, [24910]); (194729, [24908]); (194730, [24954]);
   (194731, [24974]); (194732, [25010]); (194733, [24996]); (194734,
   [25007]); (194735, [25054]); (194736, [25074]); (194737, [25078]);
   (194738, [25104]); (194739, [25115]); (194740, [25181]); (194741,
   [25265]); (194742, [25300]); (194743, [25424]); (194744, [142092]);
   (194745, [25405]); (194746, [25340]); (194747, [25448]); (194748,
   [25475]); (194749, [25572]); (194750, [142321]); (194751, [25634]);
   (194752, [25541]); (194753, [25513]); (194754, [14894]); (194755,
   [25705]); (194756, [25726]); (194757, [25757]); (194758, [25719]);
   (194759, [14956]); (194760, [25935]); (194761, [25964]); (194762,
   [143370]); (194763, [26083]); (194764, [26360]); (194765, [26185]);
   (194766, [15129]); (194767, [26257]); (194768, [15112]); (194769,
   [15076]); (194770, [20882]); (194771, [20885]); (194772, [26368]);
   (194773, [26268]); (194774, [32941]); (194775, [17369]); (194776,
   [26391]); (194777, [26395]); (194778, [26401]); (194779, [26462]);
   (194780, [26451]); (194781, [144323]); (194782, [15177]); (194783,
   [26618]); (194784, [26501]); (194785, [26706]); (194786, [26757]);
   (194787, [144493]); (194788, [26766]); (194789, [26655]); (194790,
   [26900]); (194791, [15261]); (194792, [26946]); (194793, [27043]);
   (194794, [27114]); (194795, [27304]); (194796, [145059]); (194797,
   [27355]); (194798, [15384]); (194799, [27425]); (194800, [145575]);
   (194801, [27476]); (194802, [15438]); (194803, [27506]); (194804,
   [27551]); (194805, [27578]); (194806, [27579]); (194807, [146061]);
   (194808, [138507]); (194809, [146170]); (194810, [27726]); (194811,
   [146620]); (194812, [27839]); (194813, [27853]); (194814, [27751]);
   (194815, [27926]); (194816, [27966]); (194817, [28023]); (194818,
   [27969]); (194819, [28009]); (194820, [28024]); (194821, [28037]);
   (194822, [146718]); (194823, [27956]); (194824, [28207]); (194825,
   [28270]); (194826, [15667]); (194827, [28363]); (194828, [28359]);
   (194829, [147153]); (194830, [28153]); (194831, [28526]); (194832,
   [147294]); (194833, [147342]); (194834, [28614]); (194835, [28729]);
   (194836, [28702]); (194837, [28699]); (194838, [15766]); (194839,
   [28746]); (194840, [28797]); (194841, [28791]); (194842, [28845]);
   (194843, [132389]); (194844, [28997]); (194845, [148067]); (194846,
   [29084]); (194847, [148395]); (194848, [29224]); (194849, [29237]);
   (194850, [29264]); (194851, [149000]); (194852, [29312]); (194853,
   [29333]); (194854, [149301]); (194855, [149524]); (194856, [29562]);
   (194857, [29579]); (194858, [16044]); (194859, [29605]); (194860,
   [16056]); (194861, [16056]); (194862, [29767]); (194863, [29788]);
   (194864, [29809]); (194865, [29829]); (194866, [29898]); (194867,
   [16155]); (194868, [29988]); (194869, [150582]); (194870, [30014]);
   (194871, [150674]); (194872, [30064]); (194873, [139679]); (194874,
   [30224]); (194875, [151457]); (194876, [151480]); (194877, [151620]);
   (194878, [16380]); (194879, [16392]); (194880, [30452]); (194881,
   [151795]); (194882, [151794]); (194883, [151833]); (194884, [151859]);
   (194885, [30494]); (194886, [30495]); (194887, [30495]); (194888,
   [30538]); (194889, [16441]); (194890, [30603]); (194891, [16454]);
   (194892, [16534]); (194893, [152605]); (194894, [30798]); (194895,
   [30860]); (194896, [30924]); (194897, [16611]); (194898, [153126]);
   (194899, [31062]); (194900, [153242]); (194901, [153285]); (194902,
   [31119]); (194903, [31211]); (194904, [16687]); (194905, [31296]);
   (194906, [31306]); (194907, [31311]); (194908, [153980]); (194909,
   [154279]); (194910, [154279]); (194911, [31470]); (194912, [16898]);
   (194913, [154539]); (194914, [31686]); (194915, [31689]); (194916,
   [16935]); (194917, [154752]); (194918, [31954]); (194919, [17056]);
   (194920, [31976]); (194921, [31971]); (194922, [32000]); (194923,
   [155526]); (194924, [32099]); (194925, [17153]); (194926, [32199]);
   (194927, [32258]); (194928, [32325]); (194929, [17204]); (194930,
   [156200]); (194931, [156231]); (194932, [17241]); (194933, [156377]);
   (194934, [32634]); (194935, [156478]); (194936, [32661]); (194937,
   [32762]); (194938, [32773]); (194939, [156890]); (194940, [156963]);
   (194941, [32864]); (194942, [157096]); (194943, [32880]); (194944,
   [144223]); (194945, [17365]); (194946, [32946]); (194947, [33027]);
   (194948, [17419]); (194949, [33086]); (194950, [23221]); (194951,
   [157607]); (194952, [157621]); (194953, [144275]); (194954, [144284]);
   (194955, [33281]); (194956, [33284]); (194957, [36766]); (194958,
   [17515]); (194959, [33425]); (194960, [33419]); (194961, [33437]);
   (194962, [21171]); (194963, [33457]); (194964, [33459]); (194965,
   [33469]); (194966, [33510]); (194967, [158524]); (194968, [33509]);
   (194969, [33565]); (194970, [33635]); (194971, [33709]); (194972,
   [33571]); (194973, [33725]); (194974, [33767]); (194975, [33879]);
   (194976, [33619]); (194977, [33738]); (194978, [33740]); (194979,
   [33756]); (194980, [158774]); (194981, [159083]); (194982, [158933]);
   (194983, [17707]); (194984, [34033]); (194985, [34035]); (194986,
   [34070]); (194987, [160714]); (194988, [34148]); (194989, [159532]);
   (194990, [17757]); (194991, [17761]); (194992, [159665]); (194993,
   [159954]); (194994, [17771]); (194995, [34384]); (194996, [34396]);
   (194997, [34407]); (194998, [34409]); (194999, [34473]); (195000,
   [34440]); (195001, [34574]); (195002, [34530]); (195003, [34681]);
   (195004, [34600]); (195005, [34667]); (195006, [34694]); (195007,
   [17879]); (195008, [34785]); (195009, [34817]); (195010, [17913]);
   (195011, [34912]); (195012, [34915]); (195013, [161383]); (195014,
   [35031]); (195015, [35038]); (195016, [17973]); (195017, [35066]);
   (195018, [13499]); (195019, [161966]); (195020, [162150]); (195021,
   [18110]); (195022, [18119]); (195023, [35488]); (195024, [35565]);
   (195025, [35722]); (195026, [35925]); (195027, [162984]); (195028,
   [36011]); (195029, [36033]); (195030, [36123]); (195031, [36215]);
   (195032, [163631]); (195033, [133124]); (195034, [36299]); (195035,
   [36284]); (195036, [36336]); (195037, [133342]); (195038, [36564]);
   (195039, [36664]); (195040, [165330]); (195041, [165357]); (195042,
   [37012]); (195043, [37105]); (195044, [37137]); (195045, [165678]);
   (195046, [37147]); (195047, [37432]); (195048, [37591]); (195049,
   [37592]); (195050, [37500]); (195051, [37881]); (195052, [37909]);
   (195053, [166906]); (195054, [38283]); (195055, [18837]); (195056,
   [38327]); (195057, [167287]); (195058, [18918]); (195059, [38595]);
   (195060, [23986]); (195061, [38691]); (195062, [168261]); (195063,
   [168474]); (195064, [19054]); (195065, [19062]); (195066, [38880]);
   (195067, [168970]); (195068, [19122]); (195069, [169110]); (195070,
   [38923]); (195071, [38923]); (195072, [38953]); (195073, [169398]);
   (195074, [39138]); (195075, [19251]); (195076, [39209]); (195077,
   [39335]); (195078, [39362]); (195079, [39422]); (195080, [19406]);
   (195081, [170800]); (195082, [39698]); (195083, [40000]); (195084,
   [40189]); (195085, [19662]); (195086, [19693]); (195087, [40295]);
   (195088, [172238]); (195089, [19704]); (195090, [172293]); (195091,
   [172558]); (195092, [172689]); (195093, [40635]); (195094, [19798]);
   (195095, [40697]); (195096, [40702]); (195097, [40709]); (195098,
   [40719]); (195099, [40726]); (195100, [40763]); (195101, [173568])].

Definition hangul_syllable (c : N) : list N :=
  let s := c - 44032 in
  [4352 + s / 588; 4449 + (s mod 588) / 28]
  ++ (if s mod 28 =? 0 then [] else [4519 + s mod 28]).

Definition decomposition (c : N) : list N :=
  if (44032 <=? c) && (c <=? 55203) then hangul_syllable c
  else
    match List.find (fun '(a, b, _) => (a <=? c) && (c <=? b))
                    decomposition_runs with
    | Some (a, _, t) => [t + (c - a)]
    | None =>
        match List.find (fun e => e.1 =? c) decomposition_table with
        | Some e => e.2
        | None => [c]
        end
    end.
Arguments combining_class : simpl never.
Arguments decomposition : simpl never.

(** Canonical ordering: a mark moves left past the marks of a strictly
    higher class that precede it, and never past a starter. *)
Fixpoint place_mark (c : N) (s : pystr) : pystr :=
  match s with
  | [] => [c]
  | d :: s' =>
      if (0 <? combining_class d) && (combining_class d <? combining_class c)
      then d :: place_mark c s'
      else c :: s
  end.

Definition put_in_order (c : N) (s : pystr) : pystr :=
  if combining_class c =? 0 then c :: s else place_mark c s.

Definition canonical_order (s : pystr) : pystr := foldr put_in_order [] s.

Definition normalize_NFKD (s : pystr) : pystr :=
  canonical_order (concat (map decomposition s)).

(** The characters that [_sanitize_filename] deletes: the class of the
    pattern is < > : / \ | ? * and the double quote (code point 34). *)
Definition is_forbidden (c : N) : bool :=
  one_of "<>:/\|?*" c || (c =? 34).

Definition remove_forbidden (s : pystr) : pystr :=
  List.filter (fun c => negb (is_forbidden c)) s.

(** [re.sub(r'\s+', ' ', s)]; [in_run] says that the previous character
    was white space, already replaced. *)
Fixpoint collapse_ws_aux (in_run : bool) (s : pystr) : pystr :=
  match s with
  | [] => []
  | c :: s' =>
      if is_space c
      then if in_run then collapse_ws_aux true s'
           else 32 :: collapse_ws_aux true s'
      else c :: collapse_ws_aux false s'
  end.

Definition collapse_ws (s : pystr) : pystr := collapse_ws_aux false s.

(** The last step: [if len(name) > 200: name = name[:200].rsplit(' ', 1)[0]] *)
Definition truncate_name (s : pystr) : pystr :=
  if (200 <? length s)%nat then rsplit1_head 32 (take 200 s) else s.

Section Sanitize.
(** The normalisation is a library call; the steps after it are stated
    over any normaliser, and instantiated with [normalize_NFKD]. *)
Variable normalize : pystr -> pystr.

Definition sanitize_with (name : pystr) : pystr :=
  let name := normalize name in
  let name := remove_forbidden name in
  let name := strip (collapse_ws name) in
  truncate_name name.
End Sanitize.

Definition _sanitize_filename (name : pystr) : pystr :=
  sanitize_with normalize_NFKD name.

(** [_format_author].  The body of its loop: the part of [a] before its
    first comma, stripped. *)
Definition last_name (a : pystr) : pystr :=
  strip (default [] (head (split_on (ch ",") a))).

Definition _format_author (authors : list pystr) : pystr :=
  match authors with
  | [] => py "Unknown"
  | _ =>
      match map last_name authors with
      | [a] => a
      | [a; b] => a ++ py " & " ++ b
      | a :: _ => a ++ py " et al."
      | [] => []
      end
  end.

(* ===================================================================== *)
(** * Paths

    A path is the string [str(path)] of a [pathlib.Path]: components
    joined by [/], without empty or dot components.  On such strings the
    [Path] constructor is the identity and path equality is string
    equality. *)
(* ===================================================================== *)

Definition slash : N := ch "/".
Definition dot : N := ch ".".

(** [os.path.basename] and [Path.name] *)
Definition basename (p : pystr) : pystr :=
  match rfind slash p with
  | Some i => drop (S i) p
  | None => p
  end.

(** [os.path.splitext(p)[0]]: the extension starts at the last dot of the
    last component, unless only dots precede it there. *)
Definition splitext_root (p : pystr) : pystr :=
  match rfind dot p with
  | None => p
  | Some d =>
      let start := match rfind slash p with Some i => S i | None => O end in
      if existsb (fun c => negb (c =? dot)) (take (d - start)%nat (drop start p))
      then take d p else p
  end.

(** [Path.parent] *)
Definition parent (p : pystr) : pystr :=
  match rfind slash p with
  | None => py "."
  | Some O => py "/"
  | Some i => take i p
  end.

(** [dir / name] *)
Definition joinpath (dir name : pystr) : pystr :=
  if startswith [slash] name then name
  else if bool_decide (dir = py ".") then name
  else if bool_decide (dir = py "/") then slash :: name
  else dir ++ slash :: name.

(** [Path.suffix] and [Path.stem]: the name is cut at its last dot when
    that dot is neither its first nor its last character. *)
Definition suffix_index (name : pystr) : option nat :=
  match rfind dot name with
  | Some i => if (0 <? i)%nat && (i <? length name - 1)%nat then Some i else None
  | None => None
  end.

Definition path_suffix (p : pystr) : pystr :=
  match suffix_index (basename p) with
  | Some i => drop i (basename p)
  | None => []
  end.

Definition path_stem (p : pystr) : pystr :=
  match suffix_index (basename p) with
  | Some i => take i (basename p)
  | None => basename p
  end.

(* ===================================================================== *)
(** * Floating point

    Confidence values are Python floats, that is binary64; the kernel's
    primitive floats give their operations bit for bit. *)
(* ===================================================================== *)

Definition float_of_nat (n : nat) : float :=
  PrimFloat.of_uint63 (Uint63.of_Z (Z.of_nat n)).

(** [a / b] for two non-negative integers (true division is correctly
    rounded; both operands are exact for counts below 2^53). *)
Definition py_truediv (a b : nat) : float :=
  PrimFloat.div (float_of_nat a) (float_of_nat b).

(** Round half to even of [m * 100 / 2^k], for [m], [k] non-negative. *)
Definition hundredths (m k : Z) : Z :=
  let q := (100 * m / 2 ^ k)%Z in
  let r := ((100 * m) mod 2 ^ k)%Z in
  if (2 ^ k <? 2 * r)%Z then (q + 1)%Z
  else if (2 * r =? 2 ^ k)%Z then (if Z.even q then q else q + 1)%Z
  else q.

(** [round(x, 2)]: CPython rounds the exact binary value of [x] to two
    decimals, half to even, and returns the float nearest to that decimal.
    Values without a fractional bit, infinities and NaN come back as they
    are.  (The last division is the nearest float as long as the number
    of hundredths is below 2^53; the module rounds ratios in [0, 1].) *)
Definition py_round2 (x : float) : float :=
  match Prim2SF x with
  | S754_finite sign m e =>
      if (0 <=? e)%Z then x
      else
        let h := hundredths (Zpos m) (- e) in
        let r := PrimFloat.div (PrimFloat.of_uint63 (Uint63.of_Z h)) 100%float in
        if sign then PrimFloat.opp r else r
  | _ => x
  end.

(** [c >= 0.5] *)
Definition ge_half (c : float) : bool := PrimFloat.leb 0.5%float c.

(* ===================================================================== *)
(** * Metadata records *)
(* ===================================================================== *)

Inductive Source : Type :=
| crossref | semantic_scholar | open_library | google_books | zotero
| manual_review.

(** The dictionary every provider returns.  Keys that only some providers
    set ([isbn], [zotero_key]) are [None] when absent; [doi] is optional
    because the manual-review record copies the extractor's field, which
    may be [None]. *)
Record Metadata : Type := {
  title : pystr;
  authors : list pystr;
  year : pystr;
  journal : pystr;
  publisher : pystr;
  doi : option pystr;
  isbn : option pystr;
  source : Source;
  confidence : float;
  zotero_key : option pystr;
}.

Definition set_confidence (c : float) (m : Metadata) : Metadata :=
  {| title := title m; authors := authors m; year := year m;
     journal := journal m; publisher := publisher m; doi := doi m;
     isbn := isbn m; source := source m; confidence := c;
     zotero_key := zotero_key m |}.

(** The result of [extract_pdf_info]. *)
Record PdfInfo : Type := {
  info_doi : option pystr;
  info_isbn : option pystr;
  info_title_guess : option pystr;
  info_text_snippet : pystr;
  info_pdf_metadata : gmap pystr pystr;
}.

(* ===================================================================== *)
(** * The outside world

    What the module reads from outside: the PDF reader, the settings
    file, the clock's formats and the answers of the five services.  A
    request either raises (connection error, timeout, a body that is not
    the JSON the client expects) or gives a status and a body; bodies are
    typed by the fields the client reads, an absent field being its
    default.  The reader fails to open a file, or opens it; reading an
    open document gives its metadata and page texts, or raises.  The
    settings file gives the settings, or reading it raises.  Moving a
    file can raise although the file is there. *)
(* ===================================================================== *)

Inductive http_result (A : Type) : Type :=
| HttpRaises
| HttpResponse (status : Z) (body : A).
Arguments HttpRaises {A}.
Arguments HttpResponse {A} status body.

(** An open document.  [doc_raises] is [Some e] when one of the calls
    made on it ([doc.metadata], [len(doc)], [doc[page_num]],
    [page.get_text()], [doc.close()]) raises [e], as on a
    password-protected or damaged file. *)
Record Document : Type := {
  doc_metadata : gmap pystr pystr;
  doc_pages : list pystr;
  doc_raises : option pystr;
}.

Record Settings : Type := {
  zotero_api_key : pystr;
  zotero_library_id : pystr;
  zotero_library_type : pystr;
}.

Record CrossrefItem : Type := {
  cr_author : list (pystr * pystr);          (* family, given *)
  cr_title : list pystr;
  cr_published_print : list (list Z);        (* date-parts *)
  cr_published_online : list (list Z);
  cr_created : list (list Z);
  cr_short_container_title : list pystr;
  cr_container_title : list pystr;
  cr_publisher : pystr;
  cr_DOI : pystr;
}.

Record S2Paper : Type := {
  s2_title : pystr;
  s2_authors : list pystr;                   (* names *)
  s2_year : option Z;                        (* null or a number *)
  s2_venue : pystr;
  s2_DOI : pystr;                            (* externalIds.DOI *)
}.

Record OLBook : Type := {
  ol_title : pystr;
  ol_authors : list pystr;
  ol_publishers : list pystr;
  ol_publish_date : pystr;
}.

Record GBVolume : Type := {
  gb_title : pystr;
  gb_authors : list pystr;
  gb_publishedDate : pystr;
  gb_publisher : pystr;
}.

Record ZoteroItem : Type := {
  zi_key : pystr;
  zi_creators : list (pystr * pystr);        (* lastName, firstName *)
  zi_title : pystr;
  zi_date : pystr;
  zi_publicationTitle : pystr;
  zi_journalAbbreviation : pystr;
  zi_publisher : pystr;
  zi_DOI : pystr;
}.

Record ZoteroChild : Type := {
  zc_key : pystr;
  zc_itemType : pystr;
  zc_contentType : pystr;
  zc_version : Z;
}.

Record World : Type := {
  fitz_open : pystr -> option Document;      (* None: the reader raises *)
  settings_file : Settings;                  (* what [load_settings] returns *)
  settings_fault : option pystr;             (* Some e: [load_settings] raises e *)
  move_fault : pystr -> pystr -> option pystr;
                                             (* Some e: [shutil.move] raises e *)
  crossref_works_doi : pystr -> http_result CrossrefItem;
  crossref_works_query : pystr -> http_result (list CrossrefItem);
  semantic_scholar_paper_search : pystr -> http_result (list S2Paper);
  open_library_books : pystr -> http_result (option OLBook);
  google_books_volumes : pystr -> http_result (list GBVolume);
  zotero_items : Settings -> pystr -> http_result (list ZoteroItem);
  zotero_item_children : Settings -> pystr -> http_result (list ZoteroChild);
  zotero_patch_item : Settings -> pystr -> pystr -> Z -> http_result unit;
  isoformat : nat -> pystr;                  (* an instant, as ISO-8601 *)
  strftime_session : nat -> pystr;           (* an instant, as %Y%m%d_%H%M%S *)
}.

(** The requests the module sends, in the order it sends them. *)
Inductive Call : Type :=
| GetCrossrefWork (doi : pystr)
| GetCrossrefQuery (title : pystr)
| GetSemanticScholar (title : pystr)
| GetOpenLibrary (isbn : pystr)
| GetGoogleBooks (isbn : pystr)
| GetZoteroItems (title : pystr)
| GetZoteroChildren (item_key : pystr)
| PatchZoteroItem (child_key new_filename : pystr).

(* ===================================================================== *)
(** * The rename log and the file system *)
(* ===================================================================== *)

(** One entry of [rename_log.json].  [entry_metadata] is [None] for the
    empty dictionary that [log_rename] stores when it is given none. *)
Record JournalEntry : Type := {
  original_path : pystr;
  new_path : pystr;
  timestamp : pystr;
  metadata_source : pystr;
  session_id : pystr;
  entry_metadata : option Metadata;
  undone : bool;
}.

(** The mutable state: regular files by path (with an identifier for
    their content), the log file ([None] while it does not exist), the
    UTC clock, and the requests sent so far.  Directories are not
    modelled: every path names a place where a file can be put. *)
Record State : Type := {
  files : gmap pystr N;
  log_file : option (list JournalEntry);
  clock : nat;
  calls : list Call;
}.

(** * The effect monad: a computation reads the world, updates the state,
    and returns or raises. *)
Inductive outcome (A : Type) : Type :=
| Ok (a : A)
| Raised (msg : pystr).
Arguments Ok {A} a.
Arguments Raised {A} msg.

Definition M (A : Type) : Type := World -> State -> outcome A * State.

Definition ret {A} (a : A) : M A := fun _ st => (Ok a, st).

Definition bind {A B} (m : M A) (f : A -> M B) : M B :=
  fun w st =>
    match m w st with
    | (Ok a, st') => f a w st'
    | (Raised e, st') => (Raised e, st')
    end.

Definition raise {A} (msg : pystr) : M A := fun _ st => (Raised msg, st).

(** [try: body  except Exception: return handler] *)
Definition try_except {A} (body : M A) (handler : pystr -> M A) : M A :=
  fun w st =>
    match body w st with
    | (Ok a, st') => (Ok a, st')
    | (Raised e, st') => handler e w st'
    end.

Notation "'let*' x ':=' m 'in' k" := (bind m (fun x => k))
  (at level 10, x pattern, m at level 100, k at level 200).

Definition ask : M World := fun w st => (Ok w, st).
Definition get : M State := fun _ st => (Ok st, st).
Definition put (st : State) : M unit := fun _ _ => (Ok tt, st).

Definition set_files (f : gmap pystr N) (st : State) : State :=
  {| files := f; log_file := log_file st; clock := clock st; calls := calls st |}.
Definition set_log_file (l : option (list JournalEntry)) (st : State) : State :=
  {| files := files st; log_file := l; clock := clock st; calls := calls st |}.
Definition set_clock (c : nat) (st : State) : State :=
  {| files := files st; log_file := log_file st; clock := c; calls := calls st |}.
Definition add_call (c : Call) (st : State) : State :=
  {| files := files st; log_file := log_file st; clock := clock st;
     calls := calls st ++ [c] |}.

Definition add_calls (cs : list Call) (st : State) : State :=
  {| files := files st; log_file := log_file st; clock := clock st;
     calls := calls st ++ cs |}.

(** [SESSION.get(...)]: the request is recorded, then the world answers;
    [r.status_code] and [r.json()] are the two components returned. *)
Definition request {A} (c : Call) (answer : World -> http_result A) : M (Z * A) :=
  fun w st =>
    match answer w with
    | HttpRaises => (Raised (py "request failed"), add_call c st)
    | HttpResponse status body => (Ok (status, body), add_call c st)
    end.

(* ===================================================================== *)
(** * PDF metadata extraction: [extract_pdf_info] *)
(* ===================================================================== *)

(** [meta.get(field, default)] with the empty string as default *)
Definition meta_get (meta : gmap pystr pystr) (field : string) : pystr :=
  default [] (meta !! py field).

(** The loop over the fields [subject], [keywords], [doi]: the first
    field with a DOI in it decides. *)
Fixpoint doi_from_fields (meta : gmap pystr pystr) (fields : list string)
    : option pystr :=
  match fields with
  | [] => None
  | f :: rest =>
      match meta_get meta f with
      | [] => doi_from_fields meta rest
      | val =>
          match re_search DOI_PATTERN val with
          | Some g => Some (_clean_doi g)
          | None => doi_from_fields meta rest
          end
      end
  end.

(** The ISBN step applied to the extracted text. *)
Definition extract_isbn (full_text : pystr) : option pystr :=
  match re_search ISBN_PATTERN full_text with
  | Some g => Some (remove_dash_space g)
  | None => None
  end.

(** The heuristic over the first ten non-blank lines. *)
Fixpoint first_title_line (lines : list pystr) : option pystr :=
  match lines with
  | [] => None
  | line :: rest =>
      if (10 <? length line)%nat
         && negb (bool_decide (is_Some (re_search DOI_PATTERN line)))
         && negb (startswith (py "http") line)
      then Some (take 200 line)
      else first_title_line rest
  end.

Definition extract_title_guess (full_text : pystr) : option pystr :=
  match strip full_text with
  | [] => None
  | _ =>
      let lines :=
        List.filter (fun l => negb (bool_decide (l = [])))
                    (map strip (split_on 10 full_text)) in
      first_title_line (take 10 lines)
  end.

Definition extract_pdf_info (pdf_path : pystr) : M PdfInfo :=
  let* w := ask in
  match fitz_open w pdf_path with
  | None =>
      ret {| info_doi := None; info_isbn := None; info_title_guess := None;
             info_text_snippet := []; info_pdf_metadata := ∅ |}
  | Some doc =>
      match doc_raises doc with
      | Some e => raise e
      | None =>
      let meta := doc_metadata doc in
      let full_text := join [10] (take 2 (doc_pages doc)) in
      let doi1 := doi_from_fields meta ["subject"; "keywords"; "doi"]%string in
      let doi2 :=
        if truthy doi1 then doi1
        else match re_search DOI_PATTERN full_text with
             | Some g => Some (_clean_doi g)
             | None => doi1
             end in
      let doi3 :=
        if truthy doi2 then doi2
        else match re_search DOI_PATTERN (basename pdf_path) with
             | Some g => Some (_clean_doi g)
             | None => doi2
             end in
      ret {| info_doi := doi3;
             info_isbn := extract_isbn full_text;
             info_title_guess := extract_title_guess full_text;
             info_text_snippet := take 3000 full_text;
             info_pdf_metadata :=
               filter (fun kv => kv.2 <> []) meta |}
      end
  end.

(* ===================================================================== *)
(** * Provider clients *)
(* ===================================================================== *)

(** [_parse_crossref_item] *)
Definition crossref_author (a : pystr * pystr) : list pystr :=
  match a.1 with
  | [] => []
  | family =>
      [strip_by (one_of ", ") (family ++ py ", " ++ a.2)]
  end.

Definition has_date (date_parts : list (list Z)) : bool :=
  match date_parts with
  | (_ :: _) :: _ => true
  | _ => false
  end.

Definition crossref_year (item : CrossrefItem) : pystr :=
  let dp := cr_published_print item in
  let dp := if has_date dp then dp else cr_published_online item in
  let dp := if has_date dp then dp else cr_created item in
  match dp with
  | (y :: _) :: _ => str_of_Z y
  | _ => []
  end.

Definition _parse_crossref_item (item : CrossrefItem) : Metadata :=
  let journal_list :=
    match cr_short_container_title item with
    | [] => cr_container_title item
    | l => l
    end in
  {| title := default [] (head (cr_title item));
     authors := concat (map crossref_author (cr_author item));
     year := crossref_year item;
     journal := default [] (head journal_list);
     publisher := cr_publisher item;
     doi := Some (cr_DOI item);
     isbn := None;
     source := crossref;
     confidence := 1.0%float;
     zotero_key := None |}.

Definition crossref_lookup_doi (doi : pystr) : M (option Metadata) :=
  try_except
    (let* (status, data) :=
       request (GetCrossrefWork doi) (fun w => crossref_works_doi w doi) in
     if negb (status =? 200)%Z then ret None
     else ret (Some (_parse_crossref_item data)))
    (fun _ => ret None).

(** The score of [crossref_search_title]: the share of the query's words
    that occur in the result's title, rounded to two decimals.  The
    record keeps the confidence it was parsed with when either title is
    empty or the query has no word. *)
Definition score_title (query_title : pystr) (result : Metadata) : Metadata :=
  let result_title := str_lower (title result) in
  let query_title := str_lower query_title in
  match result_title, query_title with
  | _ :: _, _ :: _ =>
      let words_q : gset pystr := list_to_set (split_ws query_title) in
      let words_r : gset pystr := list_to_set (split_ws result_title) in
      if bool_decide (words_q = ∅) then result
      else
        let overlap := py_truediv (size (words_q ∩ words_r)) (size words_q) in
        set_confidence (py_round2 overlap) result
  | _, _ => result
  end.

Definition crossref_search_title (title : pystr) : M (option Metadata) :=
  try_except
    (let* (status, items) :=
       request (GetCrossrefQuery title) (fun w => crossref_works_query w title) in
     if negb (status =? 200)%Z then ret None
     else match items with
          | [] => ret None
          | best :: _ => ret (Some (score_title title (_parse_crossref_item best)))
          end)
    (fun _ => ret None).

Definition semantic_scholar_search (title : pystr) : M (option Metadata) :=
  try_except
    (let* (status, papers) :=
       request (GetSemanticScholar title)
               (fun w => semantic_scholar_paper_search w title) in
     if negb (status =? 200)%Z then ret None
     else match papers with
          | [] => ret None
          | paper :: _ =>
              ret (Some {| title := s2_title paper;
                           authors := s2_authors paper;
                           year := match s2_year paper with
                                   | Some y => str_of_Z y
                                   | None => py "None"
                                   end;
                           journal := s2_venue paper;
                           publisher := [];
                           doi := Some (s2_DOI paper);
                           isbn := None;
                           source := semantic_scholar;
                           confidence := 0.7%float;
                           zotero_key := None |})
          end)
    (fun _ => ret None).

Definition _open_library_isbn (isbn : pystr) : M (option Metadata) :=
  try_except
    (let* (status, data) :=
       request (GetOpenLibrary isbn) (fun w => open_library_books w isbn) in
     if negb (status =? 200)%Z then ret None
     else match data with
          | None => ret None
          | Some book =>
              ret (Some {| title := ol_title book;
                           authors := ol_authors book;
                           year := match ol_publish_date book with
                                   | [] => []
                                   | d => last_n 4 d
                                   end;
                           journal := [];
                           publisher := default [] (head (ol_publishers book));
                           doi := Some [];
                           isbn := Some isbn;
                           source := open_library;
                           confidence := 0.9%float;
                           zotero_key := None |})
          end)
    (fun _ => ret None).

Definition _google_books_isbn (isbn : pystr) : M (option Metadata) :=
  try_except
    (let* (status, items) :=
       request (GetGoogleBooks isbn) (fun w => google_books_volumes w isbn) in
     if negb (status =? 200)%Z then ret None
     else match items with
          | [] => ret None
          | info :: _ =>
              ret (Some {| title := gb_title info;
                           authors := gb_authors info;
                           year := take 4 (gb_publishedDate info);
                           journal := [];
                           publisher := gb_publisher info;
                           doi := Some [];
                           isbn := Some isbn;
                           source := google_books;
                           confidence := 0.85%float;
                           zotero_key := None |})
          end)
    (fun _ => ret None).

Definition isbn_lookup (isbn : pystr) : M (option Metadata) :=
  let* result := _open_library_isbn isbn in
  match result with
  | Some r => ret (Some r)
  | None => _google_books_isbn isbn
  end.

Definition zotero_creator (c : pystr * pystr) : list pystr :=
  let name := match c.2 with
              | [] => c.1
              | first => c.1 ++ py ", " ++ first
              end in
  match name with [] => [] | _ => [name] end.

(** [load_settings]: the content of the settings file, or the defaults
    when there is none; a file that cannot be read or is not JSON makes
    it raise. *)
Definition load_settings : M Settings :=
  let* w := ask in
  match settings_fault w with
  | Some e => raise e
  | None => ret (settings_file w)
  end.

(** [settings or load_settings()] *)
Definition settings_or_load (settings : option Settings) : M Settings :=
  match settings with
  | Some s => ret s
  | None => load_settings
  end.

Definition zotero_search (title : pystr) (settings : option Settings)
    : M (option Metadata) :=
  let* s := settings_or_load settings in
  match zotero_api_key s, zotero_library_id s with
  | _ :: _, _ :: _ =>
      try_except
        (let* (status, items) :=
           request (GetZoteroItems title) (fun w => zotero_items w s title) in
         if negb (status =? 200)%Z then ret None
         else match items with
              | [] => ret None
              | item :: _ =>
                  ret (Some {| title := zi_title item;
                               authors := concat (map zotero_creator (zi_creators item));
                               year := take 4 (zi_date item);
                               journal := match zi_publicationTitle item with
                                          | [] => zi_journalAbbreviation item
                                          | t => t
                                          end;
                               publisher := zi_publisher item;
                               doi := Some (zi_DOI item);
                               isbn := None;
                               source := zotero;
                               confidence := 0.95%float;
                               zotero_key := Some (zi_key item) |})
              end)
        (fun _ => ret None)
  | _, _ => ret None
  end.

(** The first PDF attachment among the children, if any. *)
Definition is_pdf_attachment (c : ZoteroChild) : bool :=
  bool_decide (zc_itemType c = py "attachment")
  && bool_decide (zc_contentType c = py "application/pdf").

Definition zotero_update_attachment (item_key new_filename : pystr)
    (settings : option Settings) : M bool :=
  let* s := settings_or_load settings in
  match zotero_api_key s, zotero_library_id s with
  | _ :: _, _ :: _ =>
      try_except
        (let* (status, children) :=
           request (GetZoteroChildren item_key)
                   (fun w => zotero_item_children w s item_key) in
         if negb (status =? 200)%Z then ret false
         else match List.find is_pdf_attachment children with
              | None => ret false
              | Some child =>
                  let* (pstatus, _) :=
                    request (PatchZoteroItem (zc_key child) new_filename)
                            (fun w => zotero_patch_item w s (zc_key child)
                                        new_filename (zc_version child)) in
                  ret ((pstatus =? 200)%Z || (pstatus =? 204)%Z)
              end)
        (fun _ => ret false)
  | _, _ => ret false
  end.

(* ===================================================================== *)
(** * Metadata resolution pipeline: [resolve_metadata] *)
(* ===================================================================== *)

(** Step 6, the record for manual review. *)
Definition manual_review_record (info : PdfInfo) (pdf_path : pystr) : Metadata :=
  {| title := if truthy (info_title_guess info)
              then default [] (info_title_guess info)
              else splitext_root (basename pdf_path);
     authors := [];
     year := [];
     journal := [];
     publisher := [];
     doi := info_doi info;
     isbn := None;
     source := manual_review;
     confidence := 0.0%float;
     zotero_key := None |}.

(** A step of the waterfall: run the lookup when its guard holds, return
    its record when it is accepted, go on otherwise. *)
Definition step (guard : bool) (lookup : M (option Metadata))
    (accept : Metadata -> bool) (finish : Metadata -> Metadata)
    (next : M Metadata) : M Metadata :=
  if guard then
    let* metadata := lookup in
    match metadata with
    | Some m => if accept m then ret (finish m) else next
    | None => next
    end
  else next.

(** The body of [resolve_metadata] after its first line. *)
Definition resolve_from (info : PdfInfo) (pdf_path : pystr) : M Metadata :=
  let title := info_title_guess info in
  let query := default [] title in
  (* 1. DOI lookup via CrossRef *)
  step (truthy (info_doi info))
       (crossref_lookup_doi (default [] (info_doi info)))
       (fun _ => true) (set_confidence 1.0%float)
  (* 2. ISBN lookup for books *)
  (step (truthy (info_isbn info))
        (isbn_lookup (default [] (info_isbn info)))
        (fun _ => true) id
  (* 3. CrossRef free-text search *)
  (step (truthy title) (crossref_search_title query)
        (fun m => ge_half (confidence m)) id
  (* 4. Semantic Scholar search *)
  (step (truthy title) (semantic_scholar_search query)
        (fun _ => true) id
  (* 5. Zotero fallback *)
  (step (truthy title) (zotero_search query None)
        (fun _ => true) id
  (* 6. Manual review needed *)
  (ret (manual_review_record info pdf_path)))))).

Definition resolve_metadata (pdf_path : pystr) : M Metadata :=
  let* info := extract_pdf_info pdf_path in
  resolve_from info pdf_path.

(* ===================================================================== *)
(** * Rename log: [_load_log], [_save_log], [log_rename], undo *)
(* ===================================================================== *)

Definition _load_log : M (list JournalEntry) :=
  let* st := get in ret (default [] (log_file st)).

Definition _save_log (entries : list JournalEntry) : M unit :=
  let* st := get in put (set_log_file (Some entries) st).

(** [datetime.now(timezone.utc)]: the clock is read and moves on. *)
Definition utcnow : M nat :=
  let* st := get in
  let* _ := put (set_clock (S (clock st)) st) in
  ret (clock st).

Definition log_rename (original new_p metadata_source session : pystr)
    (metadata : option Metadata) : M unit :=
  let* entries := _load_log in
  let* w := ask in
  let* now := utcnow in
  _save_log (entries ++ [{| original_path := original;
                            new_path := new_p;
                            timestamp := isoformat w now;
                            metadata_source := metadata_source;
                            session_id := session;
                            entry_metadata := metadata;
                            undone := false |}]).

Definition get_history : M (list JournalEntry) := _load_log.

(** [Path.exists] *)
Definition path_exists (p : pystr) : M bool :=
  let* st := get in ret (bool_decide (is_Some (files st !! p))).

(** [shutil.move(src, dst)] between two file paths: the file at [src]
    takes the place of whatever is at [dst].  A missing [src] raises, and
    so does a move that the system refuses (a directory that is missing,
    a permission that is not given): no file has moved then. *)
Definition shutil_move (src dst : pystr) : M unit :=
  let* st := get in
  match files st !! src with
  | None => raise (py "No such file or directory: " ++ src)
  | Some content =>
      let* w := ask in
      match move_fault w src dst with
      | Some e => raise e
      | None => put (set_files (<[dst := content]> (delete src (files st))) st)
      end
  end.

Inductive UndoResult : Type :=
| UndoError (error : pystr)
| UndoSuccess (restored : pystr).

Definition set_undone (e : JournalEntry) : JournalEntry :=
  {| original_path := original_path e; new_path := new_path e;
     timestamp := timestamp e; metadata_source := metadata_source e;
     session_id := session_id e; entry_metadata := entry_metadata e;
     undone := true |}.

Definition undo_single (index : Z) : M UndoResult :=
  let* entries := _load_log in
  if (index <? 0)%Z || (Z.of_nat (length entries) <=? index)%Z
  then ret (UndoError (py "Invalid index"))
  else
    match entries !! Z.to_nat index with
    | None => raise (py "list index out of range")
    | Some entry =>
        if undone entry then ret (UndoError (py "Already undone"))
        else
          let new_p := new_path entry in
          let orig_p := original_path entry in
          let* new_there := path_exists new_p in
          if negb new_there
          then ret (UndoError (py "File not found: " ++ new_p))
          else
            let* orig_there := path_exists orig_p in
            if orig_there
            then ret (UndoError (py "Original path already occupied: " ++ orig_p))
            else
              let* _ := shutil_move new_p orig_p in
              let* _ := _save_log (<[Z.to_nat index := set_undone entry]> entries) in
              ret (UndoSuccess orig_p)
    end.

(** The loop of [undo_session] over [enumerate(entries)].  The iterator
    keeps the list loaded before the loop; re-binding [entries] inside
    the body does not change what the loop visits. *)
Fixpoint undo_session_loop (session : pystr) (i : nat)
    (entries : list JournalEntry) (results : list UndoResult)
    : M (list UndoResult) :=
  match entries with
  | [] => ret results
  | entry :: rest =>
      if bool_decide (session_id entry = session) && negb (undone entry)
      then
        let* r := undo_single (Z.of_nat i) in
        let* _ := _load_log in
        undo_session_loop session (S i) rest (results ++ [r])
      else undo_session_loop session (S i) rest results
  end.

Definition undo_session (session : pystr) : M (list UndoResult) :=
  let* entries := _load_log in
  undo_session_loop session 0 entries [].

(* ===================================================================== *)
(** * Scan and execute: [execute_renames] *)
(* ===================================================================== *)

(** One element of [files]; a key that is absent is [None]. *)
Record RenameItem : Type := {
  item_original_path : pystr;
  item_new_name : option pystr;
  item_proposed_name : option pystr;
  item_source : option pystr;
  item_metadata : option Metadata;
}.

Inductive RenameResult : Type :=
| RenameError (original error : pystr)
| RenameSuccess (original new_p : pystr) (zotero_updated : option bool).

(** The name tried at [counter]: [f"{stem} ({counter}){suffix}"] in the
    directory of the original. *)
Definition numbered (dir stem suffix : pystr) (counter : nat) : pystr :=
  joinpath dir (stem ++ py " (" ++ str_of_nat counter ++ py ")" ++ suffix).

(** The [while new_path.exists()] loop.  [fuel] bounds the number of
    iterations; [None] stands for a loop that has not ended within it. *)
Fixpoint free_name (fuel : nat) (fs : gmap pystr N) (dir stem suffix : pystr)
    (new_p : pystr) (counter : nat) : option pystr :=
  match fs !! new_p with
  | None => Some new_p
  | Some _ =>
      match fuel with
      | O => None
      | S fuel' =>
          free_name fuel' fs dir stem suffix
                    (numbered dir stem suffix counter) (S counter)
      end
  end.

(** The target of one item: the proposed path, or the first free
    numbered name when the proposed path is taken by another file.  The
    loop is given one more iteration than there are files. *)
Definition resolve_target (fs : gmap pystr N) (original new_p : pystr)
    : option pystr :=
  if bool_decide (is_Some (fs !! new_p)) && negb (bool_decide (new_p = original))
  then free_name (S (size fs)) fs (parent original)
                 (path_stem new_p) (path_suffix new_p) new_p 1
  else Some new_p.

Definition item_target_name (f : RenameItem) : pystr :=
  match item_new_name f with
  | Some n => n
  | None => default (basename (item_original_path f)) (item_proposed_name f)
  end.

Definition rename_one (settings : Settings) (session : pystr) (f : RenameItem)
    : M RenameResult :=
  let original := item_original_path f in
  let new_name := item_target_name f in
  let new_p := joinpath (parent original) new_name in
  let* there := path_exists original in
  if negb there then ret (RenameError original (py "File not found"))
  else
    let* st := get in
    match resolve_target (files st) original new_p with
    | None => raise (py "the collision loop did not end")
    | Some new_p =>
        try_except
          (let* _ := shutil_move original new_p in
           let metadata_source := default (py "unknown") (item_source f) in
           let* _ := log_rename original new_p metadata_source session
                                (item_metadata f) in
           match item_metadata f ≫= zotero_key with
           | Some (c :: key) =>
               match zotero_api_key settings with
               | _ :: _ =>
                   let* zotero_ok :=
                     zotero_update_attachment (c :: key) new_name (Some settings) in
                   ret (RenameSuccess original new_p (Some zotero_ok))
               | [] => ret (RenameSuccess original new_p None)
               end
           | _ => ret (RenameSuccess original new_p None)
           end)
          (fun e => ret (RenameError original e))
    end.

Fixpoint rename_loop (settings : Settings) (session : pystr)
    (items : list RenameItem) (results : list RenameResult)
    : M (list RenameResult) :=
  match items with
  | [] => ret results
  | f :: rest =>
      let* r := rename_one settings session f in
      rename_loop settings session rest (results ++ [r])
  end.

Definition execute_renames (items : list RenameItem) (session : option pystr)
    : M (list RenameResult * pystr) :=
  let* session :=
    match session with
    | Some s => ret s
    | None => let* w := ask in let* now := utcnow in ret (strftime_session w now)
    end in
  let* settings := load_settings in
  let* results := rename_loop settings session items [] in
  ret (results, session).

(* ===================================================================== *)
(** * Specification-level definitions

    What the design document says, in its own words, for the statements
    that compare it with the functions above. *)
(* ===================================================================== *)

Definition empty_state : State :=
  {| files := ∅; log_file := None; clock := 0; calls := [] |}.

(** What a provider client answers in a given world, and the requests it
    sends for it (the clients read nothing of the state). *)
Definition answer (lookup : M (option Metadata)) (w : World) : option Metadata :=
  match (lookup w empty_state).1 with
  | Ok r => r
  | Raised _ => None
  end.

Definition requests (lookup : M (option Metadata)) (w : World) : list Call :=
  calls (lookup w empty_state).2.

(** A client is stateless in a world when, from any state, it returns
    its answer, does not raise, and leaves the state as it was but for
    the requests. *)
Definition stateless (w : World) (lookup : M (option Metadata)) : Prop :=
  forall st,
    lookup w st = (Ok (answer lookup w), add_calls (requests lookup w) st).

(** The records the waterfall would accept, in its priority order:
    DOI-exact lookup (confidence forced to 1.0), ISBN lookup chain,
    primary free-text search when its confidence is at least 0.5,
    fallback text search, personal-library search. *)
Definition usable_records (w : World) (info : PdfInfo) : list Metadata :=
  let query := default [] (info_title_guess info) in
  let has_title := truthy (info_title_guess info) in
  (if truthy (info_doi info)
   then option_list (set_confidence 1.0%float <$>
           answer (crossref_lookup_doi (default [] (info_doi info))) w)
   else [])
  ++ (if truthy (info_isbn info)
      then option_list (answer (isbn_lookup (default [] (info_isbn info))) w)
      else [])
  ++ (if has_title
      then List.filter (fun m => ge_half (confidence m))
             (option_list (answer (crossref_search_title query) w))
      else [])
  ++ (if has_title
      then option_list (answer (semantic_scholar_search query) w)
      else [])
  ++ (if has_title
      then option_list (answer (zotero_search query None) w)
      else []).

(** The indices of the entries of a session that are not undone, in
    journal order, counted from [i]. *)
Fixpoint session_indices_from (session : pystr) (i : nat)
    (entries : list JournalEntry) : list nat :=
  match entries with
  | [] => []
  | entry :: rest =>
      if bool_decide (session_id entry = session) && negb (undone entry)
      then i :: session_indices_from session (S i) rest
      else session_indices_from session (S i) rest
  end.

Definition session_indices (session : pystr) (entries : list JournalEntry)
    : list nat :=
  session_indices_from session 0 entries.

(** [undo_single] applied to each index in turn, every outcome kept. *)
Fixpoint undo_each (indices : list nat) : M (list UndoResult) :=
  match indices with
  | [] => ret []
  | i :: rest =>
      let* r := undo_single (Z.of_nat i) in
      let* rs := undo_each rest in
      ret (r :: rs)
  end.

(** The word sets compared by the title score. *)
Definition word_set (s : pystr) : gset pystr :=
  list_to_set (split_ws (str_lower s)).

(** A world in which no service answers and no document opens; there is
    no settings file, and every move is allowed. *)
Definition silent_world : World :=
  {| fitz_open := fun _ => None;
     settings_file := {| zotero_api_key := []; zotero_library_id := [];
                         zotero_library_type := py "user" |};
     settings_fault := None;
     move_fault := fun _ _ => None;
     crossref_works_doi := fun _ => HttpRaises;
     crossref_works_query := fun _ => HttpRaises;
     semantic_scholar_paper_search := fun _ => HttpRaises;
     open_library_books := fun _ => HttpRaises;
     google_books_volumes := fun _ => HttpRaises;
     zotero_items := fun _ _ => HttpRaises;
     zotero_item_children := fun _ _ => HttpRaises;
     zotero_patch_item := fun _ _ _ _ => HttpRaises;
     isoformat := str_of_nat;
     strftime_session := str_of_nat |}.

(* ===================================================================== *)
(** * Data for the examples *)
(* ===================================================================== *)

Definition entry_ex (orig new_p session : string) (u : bool) : JournalEntry :=
  {| original_path := py orig; new_path := py new_p; timestamp := py "t";
     metadata_source := py "crossref"; session_id := py session;
     entry_metadata := None; undone := u |}.

Definition item_ex (orig new_name : string) : RenameItem :=
  {| item_original_path := py orig; item_new_name := Some (py new_name);
     item_proposed_name := None; item_source := None;
     item_metadata := None |}.

(** A state with the given files and an absent log. *)
Definition state_with (paths : list (string * N)) : State :=
  set_files (list_to_map (map (fun pc => (py pc.1, pc.2)) paths)) empty_state.

(* ===================================================================== *)
(** * Worlds for the examples *)
(* ===================================================================== *)

Definition set_move_fault (f : pystr -> pystr -> option pystr) (w : World)
    : World :=
  {| fitz_open := fitz_open w; settings_file := settings_file w;
     settings_fault := settings_fault w; move_fault := f;
     crossref_works_doi := crossref_works_doi w;
     crossref_works_query := crossref_works_query w;
     semantic_scholar_paper_search := semantic_scholar_paper_search w;
     open_library_books := open_library_books w;
     google_books_volumes := google_books_volumes w;
     zotero_items := zotero_items w;
     zotero_item_children := zotero_item_children w;
     zotero_patch_item := zotero_patch_item w;
     isoformat := isoformat w; strftime_session := strftime_session w |}.

Definition set_settings_fault (e : option pystr) (w : World) : World :=
  {| fitz_open := fitz_open w; settings_file := settings_file w;
     settings_fault := e; move_fault := move_fault w;
     crossref_works_doi := crossref_works_doi w;
     crossref_works_query := crossref_works_query w;
     semantic_scholar_paper_search := semantic_scholar_paper_search w;
     open_library_books := open_library_books w;
     google_books_volumes := google_books_volumes w;
     zotero_items := zotero_items w;
     zotero_item_children := zotero_item_children w;
     zotero_patch_item := zotero_patch_item w;
     isoformat := isoformat w; strftime_session := strftime_session w |}.

Definition set_fitz_open (f : pystr -> option Document) (w : World) : World :=
  {| fitz_open := f; settings_file := settings_file w;
     settings_fault := settings_fault w; move_fault := move_fault w;
     crossref_works_doi := crossref_works_doi w;
     crossref_works_query := crossref_works_query w;
     semantic_scholar_paper_search := semantic_scholar_paper_search w;
     open_library_books := open_library_books w;
     google_books_volumes := google_books_volumes w;
     zotero_items := zotero_items w;
     zotero_item_children := zotero_item_children w;
     zotero_patch_item := zotero_patch_item w;
     isoformat := isoformat w; strftime_session := strftime_session w |}.

Definition set_crossref_works_query
    (f : pystr -> http_result (list CrossrefItem)) (w : World) : World :=
  {| fitz_open := fitz_open w; settings_file := settings_file w;
     settings_fault := settings_fault w; move_fault := move_fault w;
     crossref_works_doi := crossref_works_doi w;
     crossref_works_query := f;
     semantic_scholar_paper_search := semantic_scholar_paper_search w;
     open_library_books := open_library_books w;
     google_books_volumes := google_books_volumes w;
     zotero_items := zotero_items w;
     zotero_item_children := zotero_item_children w;
     zotero_patch_item := zotero_patch_item w;
     isoformat := isoformat w; strftime_session := strftime_session w |}.

(** Every PDF is a document with the given page texts and no metadata;
    no service answers. *)
Definition world_with_pages (pages : list string) : World :=
  set_fitz_open
    (fun _ => Some {| doc_metadata := ∅; doc_pages := map py pages;
                      doc_raises := None |})
    silent_world.

(** A CrossRef work with the given title and nothing else. *)
Definition crossref_item_titled (t : string) : CrossrefItem :=
  {| cr_author := []; cr_title := [py t]; cr_published_print := [[]];
     cr_published_online := [[]]; cr_created := [[]];
     cr_short_container_title := []; cr_container_title := [];
     cr_publisher := []; cr_DOI := [] |}.

(** The free-text search of CrossRef answers every query with one work
    of the given title. *)
Definition world_crossref_finds (t : string) : World :=
  set_crossref_works_query
    (fun _ => HttpResponse 200 [crossref_item_titled t]) silent_world.

Definition info_with_title (t : string) : PdfInfo :=
  {| info_doi := None; info_isbn := None; info_title_guess := Some (py t);
     info_text_snippet := py t; info_pdf_metadata := ∅ |}.

(* ===================================================================== *)
(** * Invariants of a sanitized name *)
(* ===================================================================== *)

(** White space occurs only as single space characters.  [prev_space]
    says that the character before [s] is a space. *)
Fixpoint well_spaced (prev_space : bool) (s : pystr) : bool :=
  match s with
  | [] => true
  | c :: s' =>
      if is_space c
      then (c =? 32) && negb prev_space && well_spaced true s'
      else well_spaced false s'
  end.

(** The first, respectively the last, character is not in the class. *)
Definition head_ok (d : N -> bool) (s : pystr) : Prop :=
  match s with
  | c :: _ => d c = false
  | [] => True
  end.

Definition last_ok (d : N -> bool) (s : pystr) : Prop :=
  match last s with
  | Some c => d c = false
  | None => True
  end.

(** ASCII code points. *)
Definition is_ascii (c : N) : Prop := c < 128.

(** A name in sanitized form: no forbidden character, white space as
    single inner spaces only, at most 200 characters. *)
Definition sanitized (s : pystr) : Prop :=
  Forall (fun c => is_forbidden c = false) s
  /\ well_spaced false s = true
  /\ head_ok is_space s /\ last_ok is_space s
  /\ (length s <= 200)%nat.

Definition set_crossref_works_doi
    (f : pystr -> http_result CrossrefItem) (w : World) : World :=
  {| fitz_open := fitz_open w; settings_file := settings_file w;
     settings_fault := settings_fault w; move_fault := move_fault w;
     crossref_works_doi := f;
     crossref_works_query := crossref_works_query w;
     semantic_scholar_paper_search := semantic_scholar_paper_search w;
     open_library_books := open_library_books w;
     google_books_volumes := google_books_volumes w;
     zotero_items := zotero_items w;
     zotero_item_children := zotero_item_children w;
     zotero_patch_item := zotero_patch_item w;
     isoformat := isoformat w; strftime_session := strftime_session w |}.

(** Every PDF is a document of one page with the given text, and the DOI
    lookup of CrossRef answers every DOI with one work of the given
    title. *)
Definition world_doi_known (page t : string) : World :=
  set_fitz_open
    (fun _ => Some {| doc_metadata := ∅; doc_pages := [py page];
                      doc_raises := None |})
    (set_crossref_works_doi
       (fun _ => HttpResponse 200 (crossref_item_titled t)) silent_world).

(** Every PDF is a document with the given metadata fields and page
    texts; no service answers. *)
Definition world_with_document (meta : list (string * string))
    (pages : list string) : World :=
  set_fitz_open
    (fun _ => Some {| doc_metadata :=
                        list_to_map (map (fun kv => (py kv.1, py kv.2)) meta);
                      doc_pages := map py pages;
                      doc_raises := None |})
    silent_world.

(* ===================================================================== *)
(** * Matches of a pattern *)
(* ===================================================================== *)

(** [consumes r P]: whenever [r] matches at the start of a text, the
    part it consumed satisfies [P], the rest goes to the continuation,
    and the group is left as it was. *)
Definition consumes (r : regex) (P : pystr -> Prop) : Prop :=
  forall (s : pystr) (cap : option pystr)
         (k : pystr -> option pystr -> option pystr) (x : pystr),
    rmatch r s cap k = Some x ->
    exists u s', s = u ++ s' /\ P u /\ k s' cap = Some x.










(* ===================================================================== *)
(** * Properties *)
(* ===================================================================== *)

Example doi_search_ex :
  re_search DOI_PATTERN (py "see doi:10.1000/xyz123. Next")
  = Some (py "10.1000/xyz123.").
Proof. vm_compute. reflexivity. Qed.

Example isbn_search_ex :
  option_map remove_dash_space
    (re_search ISBN_PATTERN (py "Book ISBN: 978-0-306-40615-7 etc"))
  = Some (py "9780306406157").
Proof. vm_compute. reflexivity. Qed.

Example isbn_search_bare :
  re_search ISBN_PATTERN (py "Book 978-0-306-40615-7 etc") = None.
Proof. vm_compute. reflexivity. Qed.

(* ===================================================================== *)
(** ** The effect monad *)
(* ===================================================================== *)

Ltac run_monad :=
  unfold _load_log, _save_log, path_exists, shutil_move, utcnow,
    settings_or_load, load_settings, bind, ret, get, put, ask, raise,
    try_except in *;
  cbn beta iota zeta in *.

(* ===================================================================== *)
(** ** Undo of one entry *)
(* ===================================================================== *)

(** [undo_single], test by test.  The state that a successful call
    leaves: the file is back at its original path and the entry is
    flagged; a move that raises leaves the state as it was. *)
Lemma undo_single_unfold w st index :
  undo_single index w st =
  let entries := default [] (log_file st) in
  if ((index <? 0) || (Z.of_nat (length entries) <=? index))%Z
  then (Ok (UndoError (py "Invalid index")), st)
  else
    match entries !! Z.to_nat index with
    | None => (Raised (py "list index out of range"), st)
    | Some entry =>
        if undone entry then (Ok (UndoError (py "Already undone")), st)
        else
          match files st !! new_path entry with
          | None =>
              (Ok (UndoError (py "File not found: " ++ new_path entry)), st)
          | Some content =>
              match files st !! original_path entry with
              | Some _ =>
                  (Ok (UndoError (py "Original path already occupied: "
                                    ++ original_path entry)), st)
              | None =>
                  match move_fault w (new_path entry) (original_path entry) with
                  | Some e => (Raised e, st)
                  | None =>
                      (Ok (UndoSuccess (original_path entry)),
                       set_log_file
                         (Some (<[Z.to_nat index := set_undone entry]> entries))
                         (set_files (<[original_path entry := content]>
                                       (delete (new_path entry) (files st))) st))
                  end
              end
          end
    end.
Proof.
  unfold undo_single. run_monad.
  destruct ((index <? 0) || _)%Z; [done|].
  destruct (default [] (log_file st) !! Z.to_nat index) as [entry|]; [|done].
  destruct (undone entry); [done|].
  destruct (files st !! new_path entry) as [c|] eqn:Hn; cbn.
  - destruct (files st !! original_path entry) as [c'|] eqn:Ho; cbn; [done|].
    rewrite Hn. by destruct (move_fault w _ _).
  - done.
Qed.

Lemma undo_single_in_range (entries : list JournalEntry) (index : Z) :
  ((index <? 0) || (Z.of_nat (length entries) <=? index))%Z = false ->
  is_Some (entries !! Z.to_nat index).
Proof.
  intros H. apply orb_false_iff in H as [H1 H2].
  apply lookup_lt_is_Some. lia.
Qed.


(** What it raises is what the move raised, and nothing has changed
    then. *)
Lemma undo_single_raises w st index e st' :
  undo_single index w st = (Raised e, st') ->
  st' = st
  /\ exists entry,
       default [] (log_file st) !! Z.to_nat index = Some entry
       /\ undone entry = false
       /\ is_Some (files st !! new_path entry)
       /\ files st !! original_path entry = None
       /\ move_fault w (new_path entry) (original_path entry) = Some e.
Proof.
  rewrite undo_single_unfold. cbn zeta.
  destruct ((index <? 0) || _)%Z eqn:Hb; [done|].
  destruct (undo_single_in_range _ _ Hb) as [entry Hentry]. rewrite Hentry.
  destruct (undone entry) eqn:Hu; [done|].
  destruct (files st !! new_path entry) eqn:Hn; [|done].
  destruct (files st !! original_path entry) eqn:Ho; [done|].
  destruct (move_fault w _ _) eqn:Hm; [|done].
  intros [= -> ->]. split; [done|]. exists entry. by rewrite Hn.
Qed.

(** C10. Whenever [undo_single] returns an error (invalid index, already
    undone, target missing, source occupied), the state it leaves is the
    state it found: the persisted journal has no entry added, removed or
    changed, and no file has moved.  The journal is written on the
    success path only. *)
Theorem undo_single_error_leaves_journal w st index e st' :
  undo_single index w st = (Ok (UndoError e), st') ->
  st' = st /\ log_file st' = log_file st /\ files st' = files st.
Proof.
  rewrite undo_single_unfold. cbn zeta. intros H.
  assert (st' = st); [|by subst].
  destruct ((index <? 0) || _)%Z; [congruence|].
  destruct (_ !! Z.to_nat index) as [entry|]; [|congruence].
  destruct (undone entry); [congruence|].
  destruct (files st !! new_path entry); [|congruence].
  destruct (files st !! original_path entry); [congruence|].
  destruct (move_fault w _ _); congruence.
Qed.

Lemma undo_single_error_leaves_journal_witness :
  log_file (undo_single 0 silent_world
              (set_log_file (Some [entry_ex "/d/a.pdf" "/d/b.pdf" "s1" false])
                            empty_state)).2
  = Some [entry_ex "/d/a.pdf" "/d/b.pdf" "s1" false].
Proof.
  refine (proj1 (proj2 (undo_single_error_leaves_journal silent_world
            (set_log_file (Some [entry_ex "/d/a.pdf" "/d/b.pdf" "s1" false])
                          empty_state)
            0 (py "File not found: /d/b.pdf") _ _))).
  vm_compute. reflexivity.
Defined.

(* ===================================================================== *)
(** ** The rename executor *)
(* ===================================================================== *)

Lemma add_calls_nil st : add_calls [] st = st.
Proof. destruct st. unfold add_calls. cbn. by rewrite app_nil_r. Qed.

Lemma add_calls_app a b st : add_calls b (add_calls a st) = add_calls (a ++ b) st.
Proof. unfold add_calls. cbn. by rewrite app_assoc. Qed.

Lemma map_ascii_of_ch (l : list ascii) : map ascii_of_N (map ch l) = l.
Proof.
  induction l as [|a l IH]; cbn; [done|].
  unfold ch at 1. by rewrite ascii_N_embedding, IH.
Qed.

Lemma py_inj : Inj (=) (=) py.
Proof.
  intros a b H. unfold py in H.
  apply (f_equal (map ascii_of_N)) in H.
  rewrite !map_ascii_of_ch in H.
  rewrite <- (string_of_list_ascii_of_string a),
          <- (string_of_list_ascii_of_string b).
  by rewrite H.
Qed.

Lemma str_of_nat_inj : Inj (=) (=) str_of_nat.
Proof.
  intros a b H. apply py_inj in H.
  apply (f_equal NilEmpty.uint_of_string) in H.
  rewrite !NilEmpty.usu in H. injection H as H2. rename H2 into H.
  apply (f_equal Nat.of_uint) in H.
  by rewrite !Unsigned.of_to in H.
Qed.

Lemma startswith_slash_app (stem rest1 rest2 : pystr) :
  startswith [slash] (stem ++ py " (" ++ rest1)
  = startswith [slash] (stem ++ py " (" ++ rest2).
Proof. destruct stem; reflexivity. Qed.

Lemma joinpath_inj_name dir (a b : pystr) :
  startswith [slash] a = startswith [slash] b ->
  joinpath dir a = joinpath dir b -> a = b.
Proof.
  unfold joinpath. intros ->.
  destruct (startswith [slash] b); [done|].
  repeat case_bool_decide; intros Heq; simplify_list_eq; done.
Qed.

Lemma numbered_inj dir stem suffix : Inj (=) (=) (numbered dir stem suffix).
Proof.
  intros a b H. unfold numbered in H.
  apply joinpath_inj_name in H; [|apply startswith_slash_app].
  apply app_inv_head in H. apply app_inv_head in H.
  apply app_inv_tail in H. by apply str_of_nat_inj.
Qed.

(** Pigeonhole: an injective sequence of names cannot stay within the
    existing files for more steps than there are files. *)
Lemma all_taken_bound (fs : gmap pystr N) (f : nat -> pystr) (c n : nat) :
  Inj (=) (=) f ->
  (forall j, (c <= j < c + n)%nat -> is_Some (fs !! f j)) ->
  (n <= size fs)%nat.
Proof.
  intros Hinj Hall.
  pose (l := f <$> seq c n).
  assert (NoDup l) as Hnd by (apply NoDup_fmap_2; [done|apply NoDup_seq]).
  assert (list_to_set l ⊆ dom fs) as Hsub.
  { intros p Hp. apply elem_of_list_to_set in Hp.
    apply list_elem_of_fmap in Hp as (j & -> & Hj).
    apply elem_of_seq in Hj. apply elem_of_dom. apply Hall. lia. }
  apply subseteq_size in Hsub.
  rewrite size_list_to_set in Hsub by done.
  rewrite size_dom in Hsub. unfold l in Hsub.
  by rewrite length_fmap, length_seq in Hsub.
Qed.

Lemma free_name_none fuel fs dir stem suffix p c :
  free_name fuel fs dir stem suffix p c = None ->
  is_Some (fs !! p)
  /\ forall j, (c <= j < c + fuel)%nat ->
               is_Some (fs !! numbered dir stem suffix j).
Proof.
  revert p c. induction fuel as [|fuel IH]; intros p c; cbn.
  - destruct (fs !! p); [|done]. intros _. split; [done|]. lia.
  - destruct (fs !! p) eqn:Hp; [|done]. intros H.
    apply IH in H as [H1 H2]. split; [done|].
    intros j Hj. destruct (decide (j = c)) as [->|]; [done|].
    apply H2. lia.
Qed.

Lemma free_name_some fuel fs dir stem suffix p c t :
  free_name fuel fs dir stem suffix p c = Some t ->
  (fs !! p = None /\ t = p)
  \/ (is_Some (fs !! p)
      /\ exists k, (c <= k)%nat /\ t = numbered dir stem suffix k
                   /\ fs !! t = None
                   /\ forall j, (c <= j < k)%nat ->
                                is_Some (fs !! numbered dir stem suffix j)).
Proof.
  revert p c. induction fuel as [|fuel IH]; intros p c; cbn.
  - destruct (fs !! p) eqn:Hp; [done|]. intros [= <-]. by left.
  - destruct (fs !! p) eqn:Hp; [|intros [= <-]; by left].
    intros H. right. split; [done|].
    apply IH in H as [[H1 ->]|[H1 (k & Hk & -> & Hfree & Hbelow)]].
    + exists c. split; [lia|]. split; [done|]. split; [done|]. lia.
    + exists k. split; [lia|]. split; [done|]. split; [done|].
      intros j Hj. destruct (decide (j = c)) as [->|]; [done|].
      apply Hbelow. lia.
Qed.

(** The collision loop ends: with one more iteration than there are
    files, a free name is found. *)
Lemma resolve_target_total fs original p :
  is_Some (resolve_target fs original p).
Proof.
  unfold resolve_target.
  destruct (_ && _); [|done].
  destruct (free_name _ _ _ _ _ _ _) eqn:H; [done|].
  apply free_name_none in H as [_ H].
  apply all_taken_bound in H; [lia|apply numbered_inj].
Qed.

(** What the executor renames to: the proposed path when it is free or is
    the original itself, the first free numbered name otherwise. *)
Lemma resolve_target_spec fs original p t :
  resolve_target fs original p = Some t ->
  ((fs !! p = None \/ p = original) /\ t = p)
  \/ (is_Some (fs !! p) /\ p <> original
      /\ exists k, (1 <= k)%nat
           /\ t = numbered (parent original) (path_stem p) (path_suffix p) k
           /\ fs !! t = None
           /\ forall j, (1 <= j < k)%nat ->
                is_Some (fs !! numbered (parent original) (path_stem p)
                                        (path_suffix p) j)).
Proof.
  unfold resolve_target.
  case_bool_decide as Hs; cbn [andb].
  - case_bool_decide as Heq; cbn [negb].
    + intros [= <-]. left. eauto.
    + intros H. right. split; [done|]. split; [done|].
      apply free_name_some in H as [[H _]|[_ H]]; [|done].
      rewrite H in Hs. by destruct Hs.
  - intros [= <-]. left. split; [|done]. left.
    by apply eq_None_not_Some.
Qed.

Arguments zotero_update_attachment : simpl never.

Lemma zotero_update_attachment_returns key name s w st :
  exists b cs,
    zotero_update_attachment key name (Some s) w st = (Ok b, add_calls cs st).
Proof.
  unfold zotero_update_attachment, request. run_monad.
  assert (forall (b : bool), exists b' cs,
            (Ok b, st) = (Ok b' : outcome bool, add_calls cs st)) as Hnil.
  { intros b. exists b, []. by rewrite add_calls_nil. }
  cbn.
  all: match goal with
       | |- context [zotero_api_key ?s] =>
           destruct (zotero_api_key s); [apply Hnil|];
           destruct (zotero_library_id s); [apply Hnil|];
           destruct (zotero_item_children w s key) as [|status children];
           [eexists _, [_]; reflexivity|];
           destruct (negb (status =? 200)%Z); [eexists _, [_]; reflexivity|];
           destruct (List.find is_pdf_attachment children) as [child|];
           [|eexists _, [_]; reflexivity];
           destruct (zotero_patch_item w s _ _ _);
           eexists _, [_; _]; unfold add_call, add_calls; cbn;
           rewrite <- app_assoc; reflexivity
       end.
Qed.

(** The entry that [log_rename] appends. *)
Lemma log_rename_run original new_p source session md w st :
  log_rename original new_p source session md w st =
  (Ok tt,
   {| files := files st;
      log_file := Some (default [] (log_file st) ++
                    [{| original_path := original; new_path := new_p;
                        timestamp := isoformat w (clock st);
                        metadata_source := source; session_id := session;
                        entry_metadata := md; undone := false |}]);
      clock := S (clock st);
      calls := calls st |}).
Proof. reflexivity. Qed.

Lemma rename_one_missing settings session f w st :
  files st !! item_original_path f = None ->
  rename_one settings session f w st
  = (Ok (RenameError (item_original_path f) (py "File not found")), st).
Proof.
  intros H. unfold rename_one. run_monad.
  by rewrite H.
Qed.

(** One item whose original exists: a target is resolved, and either
    the move raises, which is the error of the item, nothing having
    changed, or the file moves to the target, one entry is appended to
    the log, and the item succeeds. *)
Lemma rename_one_run settings session f w st content :
  files st !! item_original_path f = Some content ->
  exists tgt,
    resolve_target (files st) (item_original_path f)
      (joinpath (parent (item_original_path f)) (item_target_name f)) = Some tgt
    /\ match move_fault w (item_original_path f) tgt with
       | Some e =>
           rename_one settings session f w st
           = (Ok (RenameError (item_original_path f) e), st)
       | None =>
           exists z st',
             rename_one settings session f w st
             = (Ok (RenameSuccess (item_original_path f) tgt z), st')
             /\ files st'
                = <[tgt := content]> (delete (item_original_path f) (files st))
             /\ log_file st'
                = Some (default [] (log_file st) ++
                     [{| original_path := item_original_path f; new_path := tgt;
                         timestamp := isoformat w (clock st);
                         metadata_source :=
                           default (py "unknown") (item_source f);
                         session_id := session;
                         entry_metadata := item_metadata f; undone := false |}])
       end.
Proof.
  intros H.
  destruct (resolve_target_total (files st) (item_original_path f)
              (joinpath (parent (item_original_path f)) (item_target_name f)))
    as [tgt Ht].
  exists tgt. split; [done|].
  unfold rename_one. run_monad. rewrite H. cbn [bool_decide negb].
  rewrite bool_decide_eq_true_2 by done. cbn [negb].
  rewrite Ht. cbn. rewrite H.
  destruct (move_fault w (item_original_path f) tgt) as [e|]; [done|].
  destruct (item_metadata f ≫= zotero_key) as [[|c key]|];
    [by eexists _, _ | | by eexists _, _].
  destruct (zotero_api_key settings); [by eexists _, _|].
  match goal with
  | |- context [zotero_update_attachment ?k ?n (Some ?s) ?w ?st] =>
      destruct (zotero_update_attachment_returns k n s w st) as (b & cs & ->)
  end.
  by eexists _, _.
Qed.

Lemma execute_renames_session items session w st :
  execute_renames items (Some session) w st =
  match settings_fault w with
  | Some e => (Raised e, st)
  | None =>
      match rename_loop (settings_file w) session items [] w st with
      | (Ok rs, st') => (Ok (rs, session), st')
      | (Raised e, st') => (Raised e, st')
      end
  end.
Proof.
  unfold execute_renames. run_monad.
  destruct (settings_fault w); [done|].
  by destruct (rename_loop _ _ _ _ _ _) as [[rs|e] st'].
Qed.

Lemma rfind_none_not_in c (s : pystr) : rfind c s = None -> c ∉ s.
Proof.
  induction s as [|x s IH]; cbn; [intros _; apply not_elem_of_nil|].
  destruct (rfind c s); [done|].
  destruct (x =? c) eqn:Hx; [done|]. intros _.
  apply N.eqb_neq in Hx. apply not_elem_of_cons. split; [done|by apply IH].
Qed.

Lemma rfind_app_last c (a b : pystr) :
  rfind c b = None -> rfind c (a ++ c :: b) = Some (length a).
Proof.
  intros Hb. induction a as [|x a IH]; cbn.
  - by rewrite Hb, N.eqb_refl.
  - by rewrite IH.
Qed.

(** The last component of [dir / name] is [name], when [name] is one
    component. *)
Lemma basename_joinpath dir name :
  rfind slash name = None -> basename (joinpath dir name) = name.
Proof.
  intros Hn. unfold joinpath.
  assert (startswith [slash] name = false) as ->.
  { destruct name as [|x name]; [done|]. cbn in *.
    destruct (rfind slash name); [done|].
    destruct (x =? slash) eqn:Hx; [done|].
    cbn. by rewrite N.eqb_sym, Hx. }
  unfold basename.
  repeat case_bool_decide.
  - by rewrite Hn.
  - pose proof (rfind_app_last slash [] name Hn) as E. cbn [app length] in E.
    by rewrite E.
  - rewrite (rfind_app_last slash dir name Hn).
    change (S (length dir)) with (1 + length dir)%nat.
    rewrite Nat.add_comm, drop_app_add. done.
Qed.

(** A name taken by a file other than the original gets the first free
    number, counting from 1. *)
Lemma rename_one_collision settings session f w st :
  let original := item_original_path f in
  let p := joinpath (parent original) (item_target_name f) in
  let cand := numbered (parent original) (path_stem p) (path_suffix p) in
  is_Some (files st !! original) ->
  is_Some (files st !! p) ->
  p <> original ->
  exists k z st',
    (1 <= k)%nat
    /\ rename_one settings session f w st
       = (Ok (match move_fault w original (cand k) with
              | None => RenameSuccess original (cand k) z
              | Some e => RenameError original e
              end), st')
    /\ files st !! cand k = None
    /\ (forall j, (1 <= j < k)%nat -> is_Some (files st !! cand j)).
Proof.
  intros original p cand [content Ho] Hp Hne.
  destruct (rename_one_run settings session f w st content Ho)
    as (tgt & Ht & Hrun).
  apply resolve_target_spec in Ht
    as [[[Hfree|Heq] ->]|(_ & _ & k & Hk & -> & Hfree & Hbelow)].
  - destruct Hp as [x Hx]. unfold p, original in Hx. congruence.
  - by destruct Hne.
  - fold original p in Hrun. fold cand in Hrun.
    destruct (move_fault w original (cand k)) as [e|] eqn:Hm.
    + exists k, None, st. by rewrite Hm.
    + destruct Hrun as (z & st' & Hrun & _). exists k, z, st'. by rewrite Hm.
Qed.

Lemma paper_numbered dir :
  numbered dir (py "Paper") (py ".pdf") 1 = joinpath dir (py "Paper (1).pdf").
Proof. reflexivity. Qed.

Lemma paper_stem_suffix dir :
  path_stem (joinpath dir (py "Paper.pdf")) = py "Paper"
  /\ path_suffix (joinpath dir (py "Paper.pdf")) = py ".pdf".
Proof.
  unfold path_stem, path_suffix.
  rewrite basename_joinpath by reflexivity. by vm_compute.
Qed.

(** One item never raises: the collision loop ends, and what the move
    or the log could raise is caught. *)
Lemma rename_one_returns settings session f w st :
  exists r st', rename_one settings session f w st = (Ok r, st').
Proof.
  destruct (files st !! item_original_path f) as [content|] eqn:Ho.
  - destruct (rename_one_run settings session f w st content Ho)
      as (tgt & _ & Hrun).
    destruct (move_fault w _ tgt); [eauto|].
    destruct Hrun as (z & st' & Hrun & _). eauto.
  - rewrite (rename_one_missing _ _ _ _ _ Ho). eauto.
Qed.

(** The batch loop runs the items one after the other, each in the state
    the previous one left, and keeps the results in order. *)
Lemma rename_loop_returns settings session items acc w st :
  exists rs st',
    rename_loop settings session items acc w st = (Ok (acc ++ rs), st')
    /\ length rs = length items.
Proof.
  revert acc st. induction items as [|f items IH]; intros acc st; cbn.
  - exists [], st. by rewrite app_nil_r.
  - unfold bind.
    destruct (rename_one_returns settings session f w st) as (r & st1 & ->).
    destruct (IH (acc ++ [r]) st1) as (rs & st' & -> & Hlen).
    exists (r :: rs), st'. rewrite <- app_assoc. cbn. by rewrite Hlen.
Qed.

Lemma rename_loop_item settings session before f after w st :
  exists rs1 st1 r st2 rs3 st3,
    rename_loop settings session before [] w st = (Ok rs1, st1)
    /\ length rs1 = length before
    /\ rename_one settings session f w st1 = (Ok r, st2)
    /\ rename_loop settings session (before ++ f :: after) [] w st
       = (Ok (rs1 ++ r :: rs3), st3).
Proof.
  assert (forall items acc st0,
            rename_loop settings session (items ++ f :: after) acc w st0 =
            match rename_loop settings session items acc w st0 with
            | (Ok rs, st') => rename_loop settings session (f :: after) rs w st'
            | (Raised e, st') => (Raised e, st')
            end) as Happ.
  { induction items as [|g items IH]; intros acc st0; [done|].
    cbn [app rename_loop]. unfold bind.
    destruct (rename_one settings session g w st0) as [[r|e] st']; [|done].
    apply IH. }
  destruct (rename_loop_returns settings session before [] w st)
    as (rs1 & st1 & H1 & Hlen1). cbn [app] in H1.
  destruct (rename_one_returns settings session f w st1) as (r & st2 & H2).
  destruct (rename_loop_returns settings session after (rs1 ++ [r]) w st2)
    as (rs3 & st3 & H3 & _).
  exists rs1, st1, r, st2, rs3, st3.
  split; [done|]. split; [done|]. split; [done|].
  rewrite Happ, H1. cbn [rename_loop]. unfold bind. rewrite H2, H3.
  by rewrite <- app_assoc.
Qed.

(** The session identifier: the one given, or the clock's reading.  The
    settings are loaded next, once for the batch. *)
Lemma execute_renames_unfold items session w st :
  exists sid st0,
    files st0 = files st /\ log_file st0 = log_file st
    /\ calls st0 = calls st
    /\ (forall s, session = Some s -> sid = s /\ st0 = st)
    /\ execute_renames items session w st =
       match settings_fault w with
       | Some e => (Raised e, st0)
       | None =>
           match rename_loop (settings_file w) sid items [] w st0 with
           | (Ok rs, st') => (Ok (rs, sid), st')
           | (Raised e, st') => (Raised e, st')
           end
       end.
Proof.
  destruct session as [s|].
  - exists s, st. split; [done|]. split; [done|]. split; [done|]. split.
    + by intros ? [= ->].
    + apply execute_renames_session.
  - exists (strftime_session w (clock st)), (set_clock (S (clock st)) st).
    split; [done|]. split; [done|]. split; [done|]. split; [done|].
    unfold execute_renames. run_monad.
    destruct (settings_fault w); [done|].
    by destruct (rename_loop _ _ _ _ _ _) as [[rs|e] st'].
Qed.

(** C3. In every batch, when the turn of an item comes and its target
    name is taken by a file other than its original, the executor
    appends a number in parentheses before the extension, counting up
    from 1 until the name is free: the item is renamed to the candidate
    with the least such number (all smaller ones are taken), and the loop
    always ends.  In particular a batch of two files of one directory
    that both propose ["Paper.pdf"], none of the two names being taken
    beforehand (unless the first file already has the name), yields
    ["Paper.pdf"] and ["Paper (1).pdf"], in batch order.  The settings
    file is one that loads; a move to the name chosen that raises is
    the error reported for the item. *)
Theorem execute_renames_collision :
  (forall w st session before f after,
     settings_fault w = None ->
     exists sid st0 rs1 st1 r rs3 st3,
       files st0 = files st
       /\ rename_loop (settings_file w) sid before [] w st0 = (Ok rs1, st1)
       /\ length rs1 = length before
       /\ execute_renames (before ++ f :: after) session w st
          = (Ok (rs1 ++ r :: rs3, sid), st3)
       /\ (let original := item_original_path f in
           let p := joinpath (parent original) (item_target_name f) in
           let cand :=
             numbered (parent original) (path_stem p) (path_suffix p) in
           is_Some (files st1 !! original) ->
           is_Some (files st1 !! p) ->
           p <> original ->
           exists k z,
             (1 <= k)%nat
             /\ r = match move_fault w original (cand k) with
                    | None => RenameSuccess original (cand k) z
                    | Some e => RenameError original e
                    end
             /\ files st1 !! cand k = None
             /\ (forall j, (1 <= j < k)%nat -> is_Some (files st1 !! cand j))))
  /\ (forall w st session f1 f2 dir,
        settings_fault w = None ->
        move_fault w (item_original_path f1) (joinpath dir (py "Paper.pdf"))
        = None ->
        move_fault w (item_original_path f2) (joinpath dir (py "Paper (1).pdf"))
        = None ->
        item_target_name f1 = py "Paper.pdf" ->
        item_target_name f2 = py "Paper.pdf" ->
        parent (item_original_path f1) = dir ->
        parent (item_original_path f2) = dir ->
        item_original_path f1 <> item_original_path f2 ->
        is_Some (files st !! item_original_path f1) ->
        is_Some (files st !! item_original_path f2) ->
        (files st !! joinpath dir (py "Paper.pdf") = None
         \/ joinpath dir (py "Paper.pdf") = item_original_path f1) ->
        files st !! joinpath dir (py "Paper (1).pdf") = None ->
        exists z1 z2 st',
          execute_renames [f1; f2] (Some session) w st
          = (Ok ([RenameSuccess (item_original_path f1)
                    (joinpath dir (py "Paper.pdf")) z1;
                  RenameSuccess (item_original_path f2)
                    (joinpath dir (py "Paper (1).pdf")) z2], session), st')).
Proof.
  split.
  { intros w st session before f after Hset.
    destruct (execute_renames_unfold (before ++ f :: after) session w st)
      as (sid & st0 & Hf0 & _ & _ & _ & Hrun).
    rewrite Hset in Hrun.
    destruct (rename_loop_item (settings_file w) sid before f after w st0)
      as (rs1 & st1 & r & st2 & rs3 & st3 & H1 & Hlen & H2 & H3).
    exists sid, st0, rs1, st1, r, rs3, st3.
    split; [done|]. split; [done|]. split; [done|]. split.
    { by rewrite Hrun, H3. }
    intros original p cand Ho Hp Hne.
    destruct (rename_one_collision (settings_file w) sid f w st1 Ho Hp Hne)
      as (k & z & st' & Hk & Hone & Hfree & Hbelow).
    exists k, z. split; [done|]. split; [|done].
    rewrite Hone in H2. by injection H2 as <- _. }
  intros w st session f1 f2 dir Hset Hm1 Hm2 Hn1 Hn2 Hd1 Hd2 Hne
    [c1 H1] [c2 H2] Hp Hq.
  set (o1 := item_original_path f1) in *.
  set (o2 := item_original_path f2) in *.
  set (p := joinpath dir (py "Paper.pdf")) in *.
  set (q := joinpath dir (py "Paper (1).pdf")) in *.
  assert (p <> q) as Hpq.
  { intros E. apply joinpath_inj_name in E; [done|reflexivity]. }
  assert (p <> o2) as Hpo2.
  { destruct Hp as [Hp|Hp]; congruence. }
  assert (q <> o1) as Hqo1 by congruence.
  rewrite execute_renames_session, Hset. cbn [rename_loop]. unfold bind at 1.
  (* first item: the proposed name is free, or its own *)
  destruct (rename_one_run (settings_file w) session f1 w st c1 H1)
    as (t1 & Ht1 & Hrun1).
  fold o1 in Ht1, Hrun1. rewrite Hd1, Hn1 in Ht1. fold p in Ht1.
  apply resolve_target_spec in Ht1 as [[_ ->]|(Hs & Hpo1 & _)];
    [|destruct Hp as [Hp|Hp]; [rewrite Hp in Hs; by destruct Hs|done]].
  rewrite Hm1 in Hrun1. destruct Hrun1 as (z1 & st1 & Hrun1 & Hf1 & _).
  rewrite Hrun1. unfold bind at 1.
  (* second item: the name is now taken by the first *)
  assert (files st1 !! o2 = Some c2) as H2'.
  { by rewrite Hf1, lookup_insert_ne, lookup_delete_ne. }
  destruct (rename_one_collision (settings_file w) session f2 w st1)
    as (k & z2 & st2 & Hk & Hrun2 & Hfree & Hbelow).
  { by fold o2; rewrite H2'. }
  { fold o2. rewrite Hd2, Hn2. fold p. rewrite Hf1, lookup_insert_eq. done. }
  { fold o2. by rewrite Hd2, Hn2. }
  fold o2 in Hrun2, Hfree, Hbelow. rewrite Hd2, Hn2 in Hrun2, Hfree, Hbelow.
  fold p in Hrun2, Hfree, Hbelow.
  destruct (paper_stem_suffix dir) as [Es Ex]. fold p in Es, Ex.
  rewrite Es, Ex in Hrun2, Hfree, Hbelow.
  assert (k = 1%nat) as ->.
  { destruct (decide (k = 1%nat)) as [|Hk1]; [done|].
    destruct (Hbelow 1%nat) as [x Hx]; [lia|].
    rewrite paper_numbered in Hx. fold q in Hx.
    rewrite Hf1, lookup_insert_ne, lookup_delete_ne in Hx by done.
    congruence. }
  rewrite paper_numbered in Hrun2. fold q in Hrun2.
  rewrite Hm2 in Hrun2.
  rewrite Hrun2. cbn. by eexists _, _, _.
Qed.

(** The two-file batch of the design document, run. *)
Lemma execute_renames_collision_witness :
  exists z1 z2 st',
    execute_renames [item_ex "/lib/a.pdf" "Paper.pdf";
                     item_ex "/lib/b.pdf" "Paper.pdf"] (Some (py "s1"))
      silent_world (state_with [("/lib/a.pdf", 1); ("/lib/b.pdf", 2)]%string)
    = (Ok ([RenameSuccess (py "/lib/a.pdf") (py "/lib/Paper.pdf") z1;
            RenameSuccess (py "/lib/b.pdf") (py "/lib/Paper (1).pdf") z2],
           py "s1"), st').
Proof.
  refine (proj2 execute_renames_collision silent_world
            (state_with [("/lib/a.pdf", 1); ("/lib/b.pdf", 2)]%string)
            (py "s1") (item_ex "/lib/a.pdf" "Paper.pdf")
            (item_ex "/lib/b.pdf" "Paper.pdf") (py "/lib")
            _ _ _ _ _ _ _ _ _ _ _ _);
    try reflexivity; try (by vm_compute); try (by eexists; vm_compute);
    try (left; by vm_compute).
Defined.

(* ===================================================================== *)
(** ** Undo after a rename *)
(* ===================================================================== *)

Lemma undo_single_cascade w st index :
  let entries := default [] (log_file st) in
  ((index < 0 \/ Z.of_nat (length entries) <= index)%Z ->
     undo_single index w st = (Ok (UndoError (py "Invalid index")), st))
  /\ (forall entry,
        (0 <= index)%Z ->
        entries !! Z.to_nat index = Some entry ->
        (undone entry = true ->
           undo_single index w st = (Ok (UndoError (py "Already undone")), st))
        /\ (undone entry = false ->
            files st !! new_path entry = None ->
            undo_single index w st
            = (Ok (UndoError (py "File not found: " ++ new_path entry)), st))
        /\ (undone entry = false ->
            is_Some (files st !! new_path entry) ->
            is_Some (files st !! original_path entry) ->
            undo_single index w st
            = (Ok (UndoError (py "Original path already occupied: "
                                ++ original_path entry)), st))
        /\ (forall content,
              undone entry = false ->
              files st !! new_path entry = Some content ->
              files st !! original_path entry = None ->
              move_fault w (new_path entry) (original_path entry) = None ->
              undo_single index w st
              = (Ok (UndoSuccess (original_path entry)),
                 {| files := <[original_path entry := content]>
                               (delete (new_path entry) (files st));
                    log_file := Some (<[Z.to_nat index := set_undone entry]>
                                        entries);
                    clock := clock st;
                    calls := calls st |}))).
Proof.
  intros entries. split.
  - intros Hout. rewrite undo_single_unfold. cbn zeta. fold entries.
    destruct ((index <? 0) || _)%Z eqn:Hb; [done|].
    apply orb_false_iff in Hb as [H1 H2]. lia.
  - intros entry Hpos Hentry.
    assert (undo_single index w st = _) as Hrun by apply undo_single_unfold.
    cbn zeta in Hrun. fold entries in Hrun.
    apply lookup_lt_Some in Hentry as Hlt.
    destruct ((index <? 0) || _)%Z eqn:Hb.
    { apply orb_true_iff in Hb as [Hb|Hb]; lia. }
    rewrite Hentry in Hrun.
    repeat split.
    + intros Hu. by rewrite Hu in Hrun.
    + intros Hu Hn. by rewrite Hu, Hn in Hrun.
    + intros Hu [c Hn] [c' Ho]. by rewrite Hu, Hn, Ho in Hrun.
    + intros content Hu Hn Ho Hm. by rewrite Hu, Hn, Ho, Hm in Hrun.
Qed.

(** C2 (amended). [undo_single] fails with "Invalid index" out of bounds,
    with "Already undone" when the entry is flagged, with "File not found"
    when the entry's new path does not exist, with "Original path already
    occupied" when its original path is taken, each condition being
    tested after the previous ones; otherwise it moves the file back,
    flags the entry and writes the whole journal (the move being one
    that the system carries out).  Hence after a successful rename to a
    path other than the original one, undoing by the entry's index puts
    every file back where it was, and a second undo of that index fails
    with "Already undone". *)
Theorem undo_single_cascade_and_round_trip :
  (forall w st index,
     let entries := default [] (log_file st) in
     ((index < 0 \/ Z.of_nat (length entries) <= index)%Z ->
        undo_single index w st = (Ok (UndoError (py "Invalid index")), st))
     /\ (forall entry,
           (0 <= index)%Z ->
           entries !! Z.to_nat index = Some entry ->
           (undone entry = true ->
              undo_single index w st
              = (Ok (UndoError (py "Already undone")), st))
           /\ (undone entry = false ->
               files st !! new_path entry = None ->
               undo_single index w st
               = (Ok (UndoError (py "File not found: " ++ new_path entry)), st))
           /\ (undone entry = false ->
               is_Some (files st !! new_path entry) ->
               is_Some (files st !! original_path entry) ->
               undo_single index w st
               = (Ok (UndoError (py "Original path already occupied: "
                                   ++ original_path entry)), st))
           /\ (forall content,
                 undone entry = false ->
                 files st !! new_path entry = Some content ->
                 files st !! original_path entry = None ->
                 move_fault w (new_path entry) (original_path entry) = None ->
                 undo_single index w st
                 = (Ok (UndoSuccess (original_path entry)),
                    {| files := <[original_path entry := content]>
                                  (delete (new_path entry) (files st));
                       log_file := Some (<[Z.to_nat index := set_undone entry]>
                                           entries);
                       clock := clock st;
                       calls := calls st |}))))
  /\ (forall w st f session tgt z st1,
        execute_renames [f] (Some session) w st
        = (Ok ([RenameSuccess (item_original_path f) tgt z], session), st1) ->
        tgt <> item_original_path f ->
        move_fault w tgt (item_original_path f) = None ->
        let index := Z.of_nat (length (default [] (log_file st))) in
        exists st2,
          undo_single index w st1
          = (Ok (UndoSuccess (item_original_path f)), st2)
          /\ files st2 = files st
          /\ undo_single index w st2
             = (Ok (UndoError (py "Already undone")), st2)).
Proof.
  split; [apply undo_single_cascade|].
  intros w st f session tgt z st1 Hrun Hne Hback index.
  set (o := item_original_path f) in *.
  rewrite execute_renames_session in Hrun.
  destruct (settings_fault w); [done|].
  cbn [rename_loop] in Hrun. unfold bind at 1 in Hrun.
  destruct (files st !! o) as [content|] eqn:Ho.
  2:{ unfold o in Ho. rewrite (rename_one_missing _ _ _ _ _ Ho) in Hrun.
      cbn in Hrun. congruence. }
  destruct (rename_one_run (settings_file w) session f w st content Ho)
    as (t & Ht & Hone).
  fold o in Ht, Hone.
  destruct (move_fault w o t) as [e|].
  { rewrite Hone in Hrun. cbn in Hrun. congruence. }
  destruct Hone as (z' & st1' & Hone & Hfiles & Hlog).
  rewrite Hone in Hrun. cbn in Hrun.
  injection Hrun as -> -> ->.
  (* the target was free before the rename *)
  assert (files st !! tgt = None) as Hfree.
  { apply resolve_target_spec in Ht
      as [[[Hfree|Heq] Et]|(_ & _ & k & _ & _ & Hfree & _)]; [|congruence|done].
    by rewrite Et. }
  set (entries := default [] (log_file st)) in *.
  set (e := {| original_path := o; new_path := tgt;
               timestamp := isoformat w (clock st);
               metadata_source := default (py "unknown") (item_source f);
               session_id := session; entry_metadata := item_metadata f;
               undone := false |}) in *.
  assert (default [] (log_file st1) = entries ++ [e]) as Hl by (by rewrite Hlog).
  assert ((entries ++ [e]) !! Z.to_nat index = Some e) as Hidx.
  { unfold index. rewrite Nat2Z.id. apply list_lookup_middle. done. }
  destruct (undo_single_cascade w st1 index) as [_ Hc].
  rewrite Hl in Hc.
  destruct (Hc e ltac:(lia) Hidx) as (_ & _ & _ & Hok).
  specialize (Hok content eq_refl).
  rewrite Hfiles in Hok. cbn [new_path original_path e] in Hok.
  rewrite lookup_insert_eq in Hok.
  rewrite lookup_insert_ne, lookup_delete_eq in Hok by done.
  specialize (Hok eq_refl eq_refl Hback).
  eexists. split; [exact Hok|]. split.
  - cbn [files]. rewrite delete_insert_eq.
    rewrite (delete_id (delete o (files st)))
      by (rewrite lookup_delete_ne by done; done).
    rewrite insert_delete_eq. by apply insert_id.
  - match goal with |- undo_single _ _ ?s = _ => set (st2 := s) end.
    destruct (undo_single_cascade w st2 index) as [_ Hc2].
    cbn [st2 log_file default] in Hc2.
    assert ((<[Z.to_nat index := set_undone e]> (entries ++ [e]))
              !! Z.to_nat index = Some (set_undone e)) as Hidx2.
    { apply list_lookup_insert_eq. by apply lookup_lt_Some in Hidx. }
    destruct (Hc2 (set_undone e) ltac:(lia) Hidx2) as (Hu & _).
    by apply Hu.
Qed.

(** A file renamed to a fresh name and restored by undo. *)
Lemma undo_round_trip_witness :
  exists st2,
    undo_single 0 silent_world
      (execute_renames [item_ex "/lib/a.pdf" "Paper.pdf"] (Some (py "s1"))
         silent_world (state_with [("/lib/a.pdf", 1)]%string)).2
    = (Ok (UndoSuccess (py "/lib/a.pdf")), st2)
    /\ files st2 = files (state_with [("/lib/a.pdf", 1)]%string)
    /\ undo_single 0 silent_world st2
       = (Ok (UndoError (py "Already undone")), st2).
Proof.
  refine (proj2 undo_single_cascade_and_round_trip silent_world
            (state_with [("/lib/a.pdf", 1)]%string)
            (item_ex "/lib/a.pdf" "Paper.pdf") (py "s1")
            (py "/lib/Paper.pdf") None _ _ _ _).
  - by vm_compute.
  - by vm_compute.
  - reflexivity.
Defined.

(** C2, the claim as stated fails for a rename that keeps the name: the
    executor reports success and logs an entry, and undoing that entry
    fails with "Original path already occupied" each time it is tried. *)
Lemma undo_after_same_name_rename :
  (execute_renames [item_ex "/lib/a.pdf" "a.pdf"] (Some (py "s1"))
     silent_world (state_with [("/lib/a.pdf", 1)]%string)).1
  = Ok ([RenameSuccess (py "/lib/a.pdf") (py "/lib/a.pdf") None], py "s1")
  /\ (undo_single 0 silent_world
        (execute_renames [item_ex "/lib/a.pdf" "a.pdf"] (Some (py "s1"))
           silent_world (state_with [("/lib/a.pdf", 1)]%string)).2).1
     = Ok (UndoError (py "Original path already occupied: /lib/a.pdf"))
  /\ (undo_single 0 silent_world
        (undo_single 0 silent_world
           (execute_renames [item_ex "/lib/a.pdf" "a.pdf"] (Some (py "s1"))
              silent_world (state_with [("/lib/a.pdf", 1)]%string)).2).2).1
     = Ok (UndoError (py "Original path already occupied: /lib/a.pdf")).
Proof. by vm_compute. Qed.

(* ===================================================================== *)
(** ** Undo of a session *)
(* ===================================================================== *)


(** The first undo that raises ends the run: the outcomes collected so
    far are not returned and the later indices are not tried. *)
Lemma undo_each_raises earlier i rest w st rs st1 e st2 :
  undo_each earlier w st = (Ok rs, st1) ->
  undo_single (Z.of_nat i) w st1 = (Raised e, st2) ->
  undo_each (earlier ++ i :: rest) w st = (Raised e, st2).
Proof.
  revert st rs. induction earlier as [|j earlier IH]; intros st rs;
    cbn [undo_each app]; unfold bind.
  - unfold ret. intros [= _ ->] Hi. by rewrite Hi.
  - destruct (undo_single (Z.of_nat j) w st) as [[r|e'] st0]; [|done].
    destruct (undo_each earlier w st0) as [[rs0|e'] st0'] eqn:Hrest; [|done].
    intros [= _ ->] Hi. by rewrite (IH _ _ Hrest Hi).
Qed.

Lemma undo_session_loop_spec session entries i acc w st :
  undo_session_loop session i entries acc w st =
  match undo_each (session_indices_from session i entries) w st with
  | (Ok rs, st') => (Ok (acc ++ rs), st')
  | (Raised e, st') => (Raised e, st')
  end.
Proof.
  revert i acc st. induction entries as [|entry rest IH]; intros i acc st.
  - cbn. unfold ret. by rewrite app_nil_r.
  - cbn [undo_session_loop session_indices_from].
    destruct (bool_decide _ && negb _); [|apply IH].
    cbn [undo_each]. unfold bind.
    destruct (undo_single (Z.of_nat i) w st) as [[r|e] st1]; [|done].
    unfold _load_log, get, ret, bind. cbn beta iota.
    rewrite IH.
    destruct (undo_each _ w st1) as [[rs|e] st']; [|done].
    by rewrite <- app_assoc.
Qed.

Lemma session_indices_from_spec session entries i j :
  j ∈ session_indices_from session i entries <->
  (i <= j)%nat /\ exists entry, entries !! (j - i)%nat = Some entry
                  /\ session_id entry = session /\ undone entry = false.
Proof.
  revert i. induction entries as [|entry rest IH]; intros i;
    cbn [session_indices_from].
  - split; [by intros ?%elem_of_nil|]. by intros (_ & e & ? & _).
  - assert (j ∈ session_indices_from session (S i) rest <->
            (i < j)%nat /\ exists e, (entry :: rest) !! (j - i)%nat = Some e
                           /\ session_id e = session /\ undone e = false) as Hrest.
    { rewrite IH. split.
      - intros (Hle & e & He & Hs). split; [lia|]. exists e. split; [|done].
        replace (j - i)%nat with (S (j - S i)) by lia. done.
      - intros (Hlt & e & He & Hs). split; [lia|]. exists e. split; [|done].
        replace (j - i)%nat with (S (j - S i)) in He by lia. done. }
    destruct (bool_decide _ && negb _) eqn:Hb.
    + apply andb_true_iff in Hb as [Hs Hu].
      apply bool_decide_eq_true in Hs. apply negb_true_iff in Hu.
      rewrite elem_of_cons, Hrest. split.
      * intros [->|(Hlt & He)]; [|split; [lia|done]].
        split; [lia|]. exists entry. by rewrite Nat.sub_diag.
      * intros (Hle & He). destruct (decide (j = i)); [by left|].
        right. split; [lia|done].
    + rewrite Hrest. split.
      * intros (Hlt & He). split; [lia|done].
      * intros (Hle & e & He & Hs & Hu).
        destruct (decide (j = i)) as [->|]; [|split; [lia|eauto]].
        rewrite Nat.sub_diag in He. injection He as <-.
        rewrite Hs, Hu, bool_decide_eq_true_2 in Hb by done. done.
Qed.


(** [undo_session] is [undo_single] applied to every entry of the
    session that is not undone, in journal order, each in the state the
    previous ones left. *)
Lemma undo_session_run session w st :
  undo_session session w st
  = undo_each (session_indices session (default [] (log_file st))) w st.
Proof.
  unfold undo_session. run_monad.
  rewrite undo_session_loop_spec.
  fold (session_indices session (default [] (log_file st))).
  by destruct (undo_each _ w st) as [[rs|e] st'].
Qed.


(** C9. The loop of [undo_session] does not go on after every failure:
    when the entries of the session before some entry have been dealt
    with, and the file of that entry is at its new path with the
    original path free, but the move raises, then [undo_session] raises
    what the move raised.  The outcomes collected so far are not
    returned, and the later entries of the session are not tried: the
    state is the one in which the move was attempted. *)
Theorem undo_session_halts_when_move_raises
    session w st earlier i rest rs st1 entry e :
  session_indices session (default [] (log_file st)) = earlier ++ i :: rest ->
  undo_each earlier w st = (Ok rs, st1) ->
  default [] (log_file st1) !! i = Some entry ->
  undone entry = false ->
  is_Some (files st1 !! new_path entry) ->
  files st1 !! original_path entry = None ->
  move_fault w (new_path entry) (original_path entry) = Some e ->
  undo_session session w st = (Raised e, st1).
Proof.
  intros Hidx Hearlier Hentry Hu [content Hn] Ho Hm.
  assert (undo_single (Z.of_nat i) w st1 = (Raised e, st1)) as Hi.
  { rewrite undo_single_unfold. cbn zeta.
    apply lookup_lt_Some in Hentry as Hlt.
    destruct ((_ <? 0) || _)%Z eqn:Hb.
    { apply orb_true_iff in Hb as [Hb|Hb]; lia. }
    by rewrite Nat2Z.id, Hentry, Hu, Hn, Ho, Hm. }
  rewrite undo_session_run, Hidx.
  exact (undo_each_raises _ _ _ _ _ _ _ _ _ Hearlier Hi).
Qed.

(** Two renames of one session, both files in place, and a library
    directory that has become read-only for the first: the undo of the
    session raises, and the second file is still under its new name. *)
Lemma undo_session_halts_when_move_raises_witness :
  let w := set_move_fault
             (fun src _ => if bool_decide (src = py "/ro/A.pdf")
                           then Some (py "Permission denied") else None)
             silent_world in
  let st := set_log_file
              (Some [entry_ex "/ro/a.pdf" "/ro/A.pdf" "s1" false;
                     entry_ex "/lib/b.pdf" "/lib/B.pdf" "s1" false])
              (state_with [("/ro/A.pdf", 1); ("/lib/B.pdf", 2)]%string) in
  undo_session (py "s1") w st = (Raised (py "Permission denied"), st).
Proof.
  intros w st.
  refine (undo_session_halts_when_move_raises (py "s1") w st [] 0%nat [1%nat]
            [] st (entry_ex "/ro/a.pdf" "/ro/A.pdf" "s1" false)
            (py "Permission denied") _ _ _ _ _ _ _).
  - by vm_compute.
  - reflexivity.
  - reflexivity.
  - reflexivity.
  - vm_compute. by eexists.
  - by vm_compute.
  - by vm_compute.
Defined.



(** Three entries of one session, the file of the second deleted behind
    the journal's back: the first and the third are still undone. *)
Example undo_session_partial_failure :
  (undo_session (py "s1") silent_world
     (set_log_file
        (Some [entry_ex "/lib/a.pdf" "/lib/A.pdf" "s1" false;
               entry_ex "/lib/b.pdf" "/lib/B.pdf" "s1" false;
               entry_ex "/lib/c.pdf" "/lib/C.pdf" "s1" false])
        (state_with [("/lib/A.pdf", 1); ("/lib/C.pdf", 3)]%string))).1
  = Ok [UndoSuccess (py "/lib/a.pdf");
        UndoError (py "File not found: /lib/B.pdf");
        UndoSuccess (py "/lib/c.pdf")].
Proof. by vm_compute. Qed.

(* ===================================================================== *)
(** ** Provider clients: every failure is a "no match" *)
(* ===================================================================== *)

Lemma crossref_lookup_doi_stateless w doi : stateless w (crossref_lookup_doi doi).
Proof.
  intros st. unfold answer, requests, crossref_lookup_doi, request.
  run_monad.
  destruct (crossref_works_doi w doi) as [|status body]; [done|].
  by destruct (negb (status =? 200)%Z).
Qed.

Lemma crossref_search_title_stateless w t : stateless w (crossref_search_title t).
Proof.
  intros st. unfold answer, requests, crossref_search_title, request.
  run_monad.
  destruct (crossref_works_query w t) as [|status body]; [done|].
  destruct (negb (status =? 200)%Z); [done|]. by destruct body.
Qed.

Lemma semantic_scholar_search_stateless w t : stateless w (semantic_scholar_search t).
Proof.
  intros st. unfold answer, requests, semantic_scholar_search, request.
  run_monad.
  destruct (semantic_scholar_paper_search w t) as [|status body]; [done|].
  destruct (negb (status =? 200)%Z); [done|]. by destruct body.
Qed.

Lemma _open_library_isbn_stateless w i : stateless w (_open_library_isbn i).
Proof.
  intros st. unfold answer, requests, _open_library_isbn, request.
  run_monad.
  destruct (open_library_books w i) as [|status body]; [done|].
  destruct (negb (status =? 200)%Z); [done|]. by destruct body.
Qed.

Lemma _google_books_isbn_stateless w i : stateless w (_google_books_isbn i).
Proof.
  intros st. unfold answer, requests, _google_books_isbn, request.
  run_monad.
  destruct (google_books_volumes w i) as [|status body]; [done|].
  destruct (negb (status =? 200)%Z); [done|]. by destruct body.
Qed.

Lemma isbn_lookup_stateless w i : stateless w (isbn_lookup i).
Proof.
  intros st. unfold answer, requests, isbn_lookup, bind.
  rewrite !(_open_library_isbn_stateless w i).
  destruct (answer (_open_library_isbn i) w); cbn.
  - done.
  - rewrite !(_google_books_isbn_stateless w i). cbn.
    by rewrite add_calls_app.
Qed.

Lemma zotero_search_stateless w t :
  settings_fault w = None -> stateless w (zotero_search t None).
Proof.
  intros Hset st. unfold answer, requests, zotero_search, request.
  run_monad. rewrite Hset.
  destruct (zotero_api_key (settings_file w)); [by rewrite add_calls_nil|].
  destruct (zotero_library_id (settings_file w)); [by rewrite add_calls_nil|].
  destruct (zotero_items w (settings_file w) t) as [|status body]; [done|].
  destruct (negb (status =? 200)%Z); [done|]. by destruct body.
Qed.

(** The records of the clients carry their provider's name, never
    [manual_review]. *)
Lemma crossref_search_title_requests t w :
  requests (crossref_search_title t) w = [GetCrossrefQuery t].
Proof.
  unfold requests, crossref_search_title, request. run_monad.
  destruct (crossref_works_query w t) as [|status body]; [done|].
  destruct (negb (status =? 200)%Z); [done|]. by destruct body.
Qed.

Lemma semantic_scholar_search_requests t w :
  requests (semantic_scholar_search t) w = [GetSemanticScholar t].
Proof.
  unfold requests, semantic_scholar_search, request. run_monad.
  destruct (semantic_scholar_paper_search w t) as [|status body]; [done|].
  destruct (negb (status =? 200)%Z); [done|]. by destruct body.
Qed.

(* ===================================================================== *)
(** ** The resolution waterfall *)
(* ===================================================================== *)

Create HintDb clients.
#[export] Hint Resolve crossref_lookup_doi_stateless crossref_search_title_stateless
  semantic_scholar_search_stateless isbn_lookup_stateless
  zotero_search_stateless : clients.

(** The extraction returns when the file does not open, and when the
    open document can be read; it raises what the reader raises on an
    open document. *)
Lemma extract_pdf_info_returns pdf_path w st :
  (forall doc, fitz_open w pdf_path = Some doc -> doc_raises doc = None) ->
  exists info, extract_pdf_info pdf_path w st = (Ok info, st).
Proof.
  intros Hread. unfold extract_pdf_info. run_monad.
  destruct (fitz_open w pdf_path) as [doc|]; [|eauto].
  rewrite (Hread doc eq_refl). eauto.
Qed.

Lemma extract_pdf_info_raises pdf_path w st doc e :
  fitz_open w pdf_path = Some doc ->
  doc_raises doc = Some e ->
  extract_pdf_info pdf_path w st = (Raised e, st).
Proof.
  intros Hopen Hraises. unfold extract_pdf_info. run_monad.
  by rewrite Hopen, Hraises.
Qed.

Lemma step_run guard lookup accept finish next w st :
  (guard = true -> stateless w lookup) ->
  step guard lookup accept finish next w st =
  if guard then
    match answer lookup w with
    | Some m =>
        if accept m
        then (Ok (finish m), add_calls (requests lookup w) st)
        else next w (add_calls (requests lookup w) st)
    | None => next w (add_calls (requests lookup w) st)
    end
  else next w st.
Proof.
  intros Hl. unfold step. destruct guard; [|done].
  unfold bind. rewrite (Hl eq_refl).
  destruct (answer lookup w) as [m|]; [|done]. by destruct (accept m).
Qed.

Lemma step_first (guard : bool) lookup (accept : Metadata -> bool)
    (finish : Metadata -> Metadata) (next : M Metadata) w st
    (d : Metadata) (rest this : list Metadata) :
  (guard = true -> stateless w lookup) ->
  this = (if guard
          then match answer lookup w with
               | Some m => if accept m then [finish m] else []
               | None => []
               end
          else []) ->
  (forall st', exists cs,
      next w st' = (Ok (default d (head rest)), add_calls cs st')) ->
  exists cs,
    step guard lookup accept finish next w st
    = (Ok (default d (head (this ++ rest))), add_calls cs st).
Proof.
  intros Hl -> Hnext. rewrite step_run by done.
  destruct guard; cbn [app].
  - destruct (answer lookup w) as [m|]; [destruct (accept m)|]; cbn [app].
    + eauto.
    + destruct (Hnext (add_calls (requests lookup w) st)) as [cs ->].
      rewrite add_calls_app. eauto.
    + destruct (Hnext (add_calls (requests lookup w) st)) as [cs ->].
      rewrite add_calls_app. eauto.
  - destruct (Hnext st) as [cs ->]. eauto.
Qed.

(** When the settings load, or no title guess brings the waterfall to
    the step that loads them, it returns the first usable record in
    priority order, and the manual-review record when there is none; it
    does not raise and touches nothing but the list of requests. *)
Lemma resolve_from_run info pdf_path w st :
  (truthy (info_title_guess info) = true -> settings_fault w = None) ->
  exists cs,
    resolve_from info pdf_path w st
    = (Ok (default (manual_review_record info pdf_path)
                   (head (usable_records w info))),
       add_calls cs st).
Proof.
  intros Hset.
  unfold resolve_from, usable_records. revert st.
  match goal with
  | |- context [?l1 ++ ?l2 ++ ?l3 ++ ?l4 ++ ?l5] =>
      rewrite <- (app_nil_r l5)
  end.
  intros st; apply step_first; [intros ?; auto with clients| |].
  { destruct (truthy (info_doi info)); [|done]. by destruct (answer _ w). }
  intros st1; apply step_first; [intros ?; auto with clients| |].
  { destruct (truthy (info_isbn info)); [|done]. by destruct (answer _ w). }
  intros st2; apply step_first; [intros ?; auto with clients| |].
  { destruct (truthy (info_title_guess info)); [|done].
    destruct (answer _ w) as [m|]; [|done].
    cbn. by destruct (ge_half (confidence m)). }
  intros st3; apply step_first; [intros ?; auto with clients| |].
  { destruct (truthy (info_title_guess info)); [|done].
    by destruct (answer _ w). }
  intros st4; apply step_first; [intros ?; auto with clients| |].
  { destruct (truthy (info_title_guess info)); [|done].
    by destruct (answer _ w). }
  intros st5. exists []. by rewrite add_calls_nil.
Qed.

(** The step that asks Zotero raises when the settings do not load. *)
Lemma zotero_search_raises t w st e :
  settings_fault w = Some e ->
  zotero_search t None w st = (Raised e, st).
Proof.
  intros Hset. unfold zotero_search. run_monad. by rewrite Hset.
Qed.

(** C1. [resolve_metadata] does not return a record for every document:
    it raises in two cases that no handler covers.  When the file opens
    and a call on the open document raises (the handler around
    [fitz.open] ends before these calls), [resolve_metadata] raises the
    same exception and has sent no request.  When the document gives a
    title guess and no identifier, the two title searches find nothing,
    and the settings file does not load ([zotero_search] loads it before
    its handler begins), [resolve_metadata] raises after the two
    searches. *)
Theorem resolve_metadata_raises :
  (forall pdf_path w st doc e,
     fitz_open w pdf_path = Some doc ->
     doc_raises doc = Some e ->
     resolve_metadata pdf_path w st = (Raised e, st))
  /\ (forall pdf_path w st info t e,
        extract_pdf_info pdf_path w st = (Ok info, st) ->
        truthy (info_doi info) = false ->
        truthy (info_isbn info) = false ->
        info_title_guess info = Some t ->
        truthy (Some t) = true ->
        answer (crossref_search_title t) w = None ->
        answer (semantic_scholar_search t) w = None ->
        settings_fault w = Some e ->
        resolve_metadata pdf_path w st
        = (Raised e,
           add_calls [GetCrossrefQuery t; GetSemanticScholar t] st)).
Proof.
  split.
  - intros pdf_path w st doc e Hopen Hraises.
    unfold resolve_metadata, bind.
    by rewrite (extract_pdf_info_raises _ _ _ _ _ Hopen Hraises).
  - intros pdf_path w st info t e Hinfo Hdoi Hisbn Ht Htruthy Hcr Hs2 Hset.
    unfold resolve_metadata, bind. rewrite Hinfo.
    unfold resolve_from. rewrite Hdoi, Hisbn, Ht, Htruthy.
    change (default [] (Some t)) with t.
    unfold step, bind.
    rewrite (crossref_search_title_stateless w t), Hcr.
    rewrite (semantic_scholar_search_stateless w t), Hs2.
    rewrite (zotero_search_raises _ _ _ _ Hset).
    rewrite crossref_search_title_requests, semantic_scholar_search_requests.
    by rewrite add_calls_app.
Qed.

(** A password-protected file opens, and loading its first page raises:
    so does [resolve_metadata]. *)
Lemma resolve_metadata_raises_witness :
  resolve_metadata (py "/lib/locked.pdf")
    (set_fitz_open
       (fun _ => Some {| doc_metadata := ∅; doc_pages := [];
                         doc_raises :=
                           Some (py "document closed or encrypted") |})
       silent_world)
    empty_state
  = (Raised (py "document closed or encrypted"), empty_state).
Proof.
  refine (proj1 resolve_metadata_raises (py "/lib/locked.pdf") _ empty_state
            {| doc_metadata := ∅; doc_pages := [];
               doc_raises := Some (py "document closed or encrypted") |}
            (py "document closed or encrypted") _ _);
    reflexivity.
Defined.

(** A scan with a title that no service knows, and a settings file that
    is not JSON. *)
Example resolve_metadata_raises_on_settings :
  resolve_metadata (py "/lib/x.pdf")
    (set_settings_fault (Some (py "Expecting value: line 1 column 1 (char 0)"))
       (world_with_pages ["A study of things"%string]))
    empty_state
  = (Raised (py "Expecting value: line 1 column 1 (char 0)"),
     add_calls [GetCrossrefQuery (py "A study of things");
                GetSemanticScholar (py "A study of things")] empty_state).
Proof. by vm_compute. Qed.

(** X2. When the file does not open, or the open document can be read,
    and the settings load, [resolve_metadata] returns exactly one
    record, whatever the services do (no match, an error status, an
    exception at any request): the first usable record in the order of
    the waterfall, and the manual-review record when the providers are
    exhausted.  It changes nothing but the list of requests. *)
Theorem resolve_metadata_returns_one_record pdf_path w st :
  (forall doc, fitz_open w pdf_path = Some doc -> doc_raises doc = None) ->
  settings_fault w = None ->
  exists info record cs,
    extract_pdf_info pdf_path w st = (Ok info, st)
    /\ resolve_metadata pdf_path w st = (Ok record, add_calls cs st)
    /\ record = default (manual_review_record info pdf_path)
                        (head (usable_records w info))
    /\ (usable_records w info = [] ->
        record = manual_review_record info pdf_path
        /\ source record = manual_review).
Proof.
  intros Hread Hset.
  destruct (extract_pdf_info_returns pdf_path w st Hread) as [info Hinfo].
  destruct (resolve_from_run info pdf_path w st (fun _ => Hset)) as [cs Hrun].
  eexists info, _, cs. split; [done|]. split.
  { unfold resolve_metadata, bind. rewrite Hinfo. exact Hrun. }
  split; [done|]. by intros ->.
Qed.

(** A file that does not open, in a world where no service answers. *)
Lemma resolve_metadata_returns_one_record_witness :
  exists info record cs,
    extract_pdf_info (py "/lib/x.pdf") silent_world empty_state
    = (Ok info, empty_state)
    /\ resolve_metadata (py "/lib/x.pdf") silent_world empty_state
       = (Ok record, add_calls cs empty_state)
    /\ record = default (manual_review_record info (py "/lib/x.pdf"))
                        (head (usable_records silent_world info))
    /\ (usable_records silent_world info = [] ->
        record = manual_review_record info (py "/lib/x.pdf")
        /\ source record = manual_review).
Proof.
  refine (resolve_metadata_returns_one_record (py "/lib/x.pdf") silent_world
            empty_state _ eq_refl).
  by intros doc [=].
Defined.

(** The requests of the first two steps of the waterfall. *)
Lemma ge_half_examples : ge_half 0.3%float = false /\ ge_half 0.5%float = true.
Proof. by vm_compute. Qed.

Lemma step_skip (guard : bool) lookup accept finish (next : M Metadata) w st :
  stateless w lookup ->
  (guard = true -> answer lookup w = None) ->
  step guard lookup accept finish next w st
  = next w (add_calls (if guard then requests lookup w else []) st).
Proof.
  intros Hl Hnone. rewrite step_run by done.
  destruct guard; [by rewrite Hnone|by rewrite add_calls_nil].
Qed.

(** C5. In the title step, the result of the primary free-text search is
    returned exactly when its confidence is at least 0.5: it is then the
    record of the document and the request to CrossRef is the last one
    sent; below 0.5 the waterfall goes on and sends the title to the next
    provider, Semantic Scholar (and it ends with a record when the
    settings file, which the step after that one reads, loads).  A
    confidence of 0.3 is below the threshold, a confidence of 0.5 is
    not. *)
Theorem title_step_threshold w st info pdf_path m :
  let t := default [] (info_title_guess info) in
  let pre :=
    (if truthy (info_doi info)
     then requests (crossref_lookup_doi (default [] (info_doi info))) w
     else [])
    ++ (if truthy (info_isbn info)
        then requests (isbn_lookup (default [] (info_isbn info))) w
        else []) in
  (truthy (info_doi info) = true ->
   answer (crossref_lookup_doi (default [] (info_doi info))) w = None) ->
  (truthy (info_isbn info) = true ->
   answer (isbn_lookup (default [] (info_isbn info))) w = None) ->
  truthy (info_title_guess info) = true ->
  answer (crossref_search_title t) w = Some m ->
  (ge_half (confidence m) = true ->
   resolve_from info pdf_path w st
   = (Ok m, add_calls (pre ++ [GetCrossrefQuery t]) st))
  /\ (ge_half (confidence m) = false ->
      exists out rest,
        resolve_from info pdf_path w st
        = (out,
           add_calls (pre ++ [GetCrossrefQuery t; GetSemanticScholar t] ++ rest)
                     st)
        /\ (settings_fault w = None -> exists record, out = Ok record))
  /\ ge_half 0.3%float = false /\ ge_half 0.5%float = true.
Proof.
  intros t pre Hdoi Hisbn Htitle Hm.
  assert (forall st0 : State,
    resolve_from info pdf_path w st0 =
    step (truthy (info_title_guess info)) (crossref_search_title t)
      (fun m => ge_half (confidence m)) id
      (step (truthy (info_title_guess info)) (semantic_scholar_search t)
         (fun _ => true) id
         (step (truthy (info_title_guess info)) (zotero_search t None)
            (fun _ => true) id
            (ret (manual_review_record info pdf_path))))
      w (add_calls pre st0)) as Hsteps.
  { intros st0. unfold resolve_from. fold t.
    rewrite (step_skip _ _ _ _ _ _ _ (crossref_lookup_doi_stateless _ _) Hdoi).
    rewrite (step_skip _ _ _ _ _ _ _ (isbn_lookup_stateless _ _) Hisbn).
    by rewrite add_calls_app. }
  rewrite Hsteps, step_run by (intros ?; auto with clients).
  rewrite Htitle, Hm, crossref_search_title_requests, add_calls_app.
  split; [|split; [|apply ge_half_examples]].
  - by intros ->.
  - intros ->. rewrite step_run by (intros ?; auto with clients).
    rewrite semantic_scholar_search_requests, add_calls_app.
    destruct (answer (semantic_scholar_search t) w) as [r|]; cbn [id].
    + exists (Ok r), []. rewrite app_nil_r, <- app_assoc. eauto.
    + destruct (settings_fault w) as [e|] eqn:Hset.
      * exists (Raised e), []. split; [|done].
        unfold step, bind. rewrite (zotero_search_raises _ _ _ _ Hset).
        by rewrite app_nil_r, <- app_assoc.
      * destruct (step_first true (zotero_search t None) (fun _ => true) id
                    (ret (manual_review_record info pdf_path)) w
                    (add_calls ((pre ++ [GetCrossrefQuery t])
                                ++ [GetSemanticScholar t]) st)
                    (manual_review_record info pdf_path) [] _
                    (fun _ => zotero_search_stateless w t Hset) eq_refl)
          as [cs Hcs].
        { intros st'. exists []. by rewrite add_calls_nil. }
        rewrite Hcs, add_calls_app. eexists _, cs.
        rewrite <- !app_assoc. eauto.
Qed.

(** A title found with half of its words: the record is accepted. *)
Lemma title_step_threshold_witness :
  resolve_from (info_with_title "alpha beta") (py "/lib/x.pdf")
    (world_crossref_finds "Alpha") empty_state
  = (Ok (score_title (py "alpha beta")
           (_parse_crossref_item (crossref_item_titled "Alpha"))),
     add_calls ([] ++ [GetCrossrefQuery (py "alpha beta")]) empty_state).
Proof.
  refine (proj1 (title_step_threshold (world_crossref_finds "Alpha")
            empty_state (info_with_title "alpha beta") (py "/lib/x.pdf")
            _ _ _ _ _) _); by vm_compute.
Defined.

(** A search result sharing three of the ten words of the title is below
    the threshold: the waterfall asks Semantic Scholar, then (no library
    being configured) ends in manual review. *)
Example title_step_low_confidence :
  let r := resolve_from (info_with_title "a b c d e f g h i j") (py "/lib/x.pdf")
             (world_crossref_finds "a b c") empty_state in
  confidence (score_title (py "a b c d e f g h i j")
                (_parse_crossref_item (crossref_item_titled "a b c")))
  = 0.3%float
  /\ calls r.2 = [GetCrossrefQuery (py "a b c d e f g h i j");
                  GetSemanticScholar (py "a b c d e f g h i j")]
  /\ (source <$> match r.1 with Ok m => Some m | Raised _ => None end)
     = Some manual_review.
Proof. by vm_compute. Qed.

(** C6 (amended). When every step of the waterfall is exhausted, the
    record has the title guess as its title, or the base name of the file
    without its extension when there is no title guess; no authors, an
    empty year, journal and publisher; the DOI that was extracted from
    the document ([None] when there was none); source [manual_review];
    confidence 0.0.  (With a title guess the last step reads the
    settings file: it is one that loads.) *)
Theorem manual_review_record_fields w st pdf_path info :
  extract_pdf_info pdf_path w st = (Ok info, st) ->
  usable_records w info = [] ->
  (truthy (info_title_guess info) = true -> settings_fault w = None) ->
  exists record cs,
    resolve_metadata pdf_path w st = (Ok record, add_calls cs st)
    /\ title record = match info_title_guess info with
                      | Some (c :: guess) => c :: guess
                      | _ => splitext_root (basename pdf_path)
                      end
    /\ authors record = []
    /\ year record = []
    /\ journal record = []
    /\ publisher record = []
    /\ doi record = info_doi info
    /\ source record = manual_review
    /\ confidence record = 0.0%float.
Proof.
  intros Hinfo Hnone Hset.
  destruct (resolve_from_run info pdf_path w st Hset) as [cs Hrun].
  rewrite Hnone in Hrun. cbn [head default] in Hrun.
  exists (manual_review_record info pdf_path), cs. split.
  { unfold resolve_metadata, bind. by rewrite Hinfo. }
  unfold manual_review_record. cbn.
  repeat split. by destruct (info_title_guess info) as [[|c guess]|].
Qed.

(** The scan without text of the design document: no identifier, no
    title guess, file name [raw_scan.pdf]. *)
Lemma manual_review_record_fields_witness :
  exists record cs,
    resolve_metadata (py "/scans/raw_scan.pdf") (world_with_pages [EmptyString])
      empty_state
    = (Ok record, add_calls cs empty_state)
    /\ title record = py "raw_scan"
    /\ authors record = []
    /\ year record = []
    /\ journal record = []
    /\ publisher record = []
    /\ doi record = None
    /\ source record = manual_review
    /\ confidence record = 0.0%float.
Proof.
  refine (manual_review_record_fields (world_with_pages [EmptyString])
            empty_state (py "/scans/raw_scan.pdf")
            {| info_doi := None; info_isbn := None; info_title_guess := None;
               info_text_snippet := []; info_pdf_metadata := ∅ |} _ _ _);
    by vm_compute.
Defined.

(** C6, the claim as stated fails on the DOI field: a document whose
    text carries a DOI that CrossRef does not resolve ends in manual
    review with that DOI in the record. *)
Lemma manual_review_keeps_extracted_doi :
  (resolve_metadata (py "/scans/raw_scan.pdf")
     (world_with_pages ["doi:10.1234/abc5"%string]) empty_state).1
  = Ok {| title := py "raw_scan"; authors := []; year := []; journal := [];
          publisher := []; doi := Some (py "10.1234/abc5"); isbn := None;
          source := manual_review; confidence := 0.0%float;
          zotero_key := None |}.
Proof. by vm_compute. Qed.

(* ===================================================================== *)
(** ** The confidence of a title search *)
(* ===================================================================== *)

(** Lowering keeps a string with a character non-empty. *)
Lemma str_lower_cons c s : exists d t, str_lower (c :: s) = d :: t.
Proof.
  unfold str_lower. cbn [lower_from].
  destruct (c =? 931); [by eexists _, _|].
  destruct (c =? 304); by eexists _, _.
Qed.

Lemma score_title_title query r : title (score_title query r) = title r.
Proof.
  unfold score_title.
  destruct (str_lower (title r)), (str_lower query); try done.
  by case_bool_decide.
Qed.

Lemma score_title_confidence query r :
  (title r <> [] -> word_set query <> ∅ ->
   confidence (score_title query r)
   = py_round2 (py_truediv (size (word_set query ∩ word_set (title r)))
                           (size (word_set query))))
  /\ (title r = [] \/ word_set query = ∅ ->
      confidence (score_title query r) = confidence r).
Proof.
  unfold score_title, word_set. split.
  - intros Ht Hq.
    destruct (title r) as [|c t] eqn:Et; [done|].
    destruct query as [|q query]; [done|].
    destruct (str_lower_cons c t) as (c' & t' & ->).
    destruct (str_lower_cons q query) as (q' & query' & Eq).
    rewrite Eq in Hq |- *.
    by rewrite bool_decide_eq_false_2.
  - intros [Ht|Hq].
    + by rewrite Ht.
    + destruct (str_lower (title r)); [done|].
      destruct (str_lower query) eqn:Eq; [done|].
      by rewrite bool_decide_eq_true_2.
Qed.

(** C4 (amended). For every query with at least one word and every
    top-ranked result of the title search that has a title, the
    confidence is the share of the query's words found in the result's
    title (both lowered with [str.lower], words compared as sets),
    rounded to two decimals. *)
Theorem crossref_search_title_confidence w st query best rest :
  crossref_works_query w query = HttpResponse 200 (best :: rest) ->
  exists m,
    crossref_search_title query w st
    = (Ok (Some m), add_call (GetCrossrefQuery query) st)
    /\ title m = default [] (head (cr_title best))
    /\ (title m <> [] -> word_set query <> ∅ ->
        confidence m
        = py_round2 (py_truediv (size (word_set query ∩ word_set (title m)))
                                (size (word_set query)))).
Proof.
  intros Hw.
  exists (score_title query (_parse_crossref_item best)). split.
  { unfold crossref_search_title, request. run_monad. by rewrite Hw. }
  rewrite score_title_title.
  destruct (score_title_confidence query (_parse_crossref_item best))
    as [Hscore _].
  by split.
Qed.

(** A query of two words, one of them in the title found. *)
Lemma crossref_search_title_confidence_witness :
  exists m,
    crossref_search_title (py "alpha beta") (world_crossref_finds "Alpha")
      empty_state
    = (Ok (Some m), add_call (GetCrossrefQuery (py "alpha beta")) empty_state)
    /\ title m = py "Alpha"
    /\ (title m <> [] -> word_set (py "alpha beta") <> ∅ ->
        confidence m
        = py_round2
            (py_truediv (size (word_set (py "alpha beta") ∩ word_set (title m)))
                        (size (word_set (py "alpha beta"))))).
Proof.
  refine (crossref_search_title_confidence (world_crossref_finds "Alpha")
            empty_state (py "alpha beta") (crossref_item_titled "Alpha") [] _).
  reflexivity.
Defined.

(** C4, the claim as stated fails: with one word of three in the title,
    the ratio is 1/3 and the confidence is 0.33, which is less. *)
Lemma crossref_search_title_rounds :
  (confidence <$> answer (crossref_search_title (py "a b c"))
                         (world_crossref_finds "a")) = Some 0.33%float
  /\ PrimFloat.ltb 0.33%float (py_truediv 1 3) = true
  /\ size (word_set (py "a b c") ∩ word_set (py "a")) = 1%nat
  /\ size (word_set (py "a b c")) = 3%nat.
Proof. by vm_compute. Qed.

(** The comparison is case-insensitive in every script: a Russian title
    in capitals, found for the same title in small letters, has
    confidence 1.0. *)
Example crossref_search_title_cyrillic :
  let small := [1074; 1086; 1081; 1085; 1072; 32; 1080; 32; 1084; 1080; 1088] in
  let capitals := [1042; 1054; 1049; 1053; 1040; 32; 1048; 32; 1052; 1048; 1056] in
  str_lower capitals = small
  /\ confidence
       (score_title small
          {| title := capitals; authors := []; year := []; journal := [];
             publisher := []; doi := None; isbn := None; source := crossref;
             confidence := 1.0%float; zotero_key := None |})
     = 1.0%float
  /\ size (word_set small ∩ word_set capitals) = 3%nat.
Proof. by vm_compute. Qed.

(** A final sigma, and the capital I with a dot above. *)
Example str_lower_special :
  str_lower [927; 916; 927; 931; 32; 931; 932; 927] (* two Greek words *)
  = [959; 948; 959; 962; 32; 963; 964; 959]
  /\ str_lower [304; 83] = [105; 775; 115].
Proof. by vm_compute. Qed.

(* ===================================================================== *)
(** ** ISBN extraction *)
(* ===================================================================== *)

(** A successful search matched the pattern at some position. *)
Lemma re_search_inv r s g :
  re_search r s = Some g ->
  exists before rest,
    s = before ++ rest
    /\ rmatch r rest None (fun _ cap => Some (default [] cap)) = Some g.
Proof.
  induction s as [|c s IH]; cbn [re_search].
  - destruct (rmatch r [] None _) eqn:Hm; [|done].
    intros [= <-]. by exists [], [].
  - destruct (rmatch r (c :: s) None _) eqn:Hm.
    + intros [= <-]. by exists [], (c :: s).
    + intros H. apply IH in H as (before & rest & -> & H).
      by exists (c :: before), rest.
Qed.



(* ===================================================================== *)
(** ** Filename sanitization *)
(* ===================================================================== *)

Section strip_lemmas.
Variable d : N -> bool.

Lemma lstrip_by_fix s : head_ok d s -> lstrip_by d s = s.
Proof. destruct s as [|c s]; cbn; [done|]. by intros ->. Qed.

Lemma rstrip_by_fix s : last_ok d s -> rstrip_by d s = s.
Proof.
  unfold last_ok. induction s as [|c s IH]; [done|].
  destruct s as [|c' s'].
  - cbn. by intros ->.
  - intros H.
    change (rstrip_by d (c :: c' :: s'))
      with (match rstrip_by d (c' :: s') with
            | [] => if d c then [] else [c]
            | r => c :: r
            end).
    by rewrite IH.
Qed.

Lemma lstrip_by_head_ok s : head_ok d (lstrip_by d s).
Proof.
  induction s as [|c s IH]; cbn; [done|].
  destruct (d c) eqn:Hc; [done|]. by cbn.
Qed.

Lemma rstrip_by_last_ok s : last_ok d (rstrip_by d s).
Proof.
  unfold last_ok. induction s as [|c s IH]; cbn; [done|].
  destruct (rstrip_by d s) as [|r rs] eqn:Hr.
  - destruct (d c) eqn:Hc; cbn; done.
  - done.
Qed.

Lemma rstrip_by_head_ok s : head_ok d s -> head_ok d (rstrip_by d s).
Proof.
  destruct s as [|c s]; cbn; [done|]. intros Hc.
  destruct (rstrip_by d s); [by rewrite Hc|done].
Qed.

(** What is stripped on the right is a tail, on the left a head. *)
Lemma rstrip_by_prefix s : exists t, s = rstrip_by d s ++ t.
Proof.
  induction s as [|c s [t IH]]; cbn; [by exists []|].
  destruct (rstrip_by d s) as [|r rs] eqn:Hr.
  - destruct (d c); [by exists (c :: s)|].
    exists t. cbn in IH. by rewrite IH at 1.
  - exists t. by rewrite IH at 1.
Qed.

Lemma lstrip_by_suffix s : exists t, s = t ++ lstrip_by d s.
Proof.
  induction s as [|c s [t IH]]; cbn; [by exists []|].
  destruct (d c); [|by exists []].
  exists (c :: t). by rewrite IH at 1.
Qed.
End strip_lemmas.

Lemma well_spaced_weaken b s : well_spaced true s = true -> well_spaced b s = true.
Proof.
  destruct b; [done|]. destruct s as [|c s]; cbn; [done|].
  destruct (is_space c); [|done]. by rewrite andb_false_r.
Qed.

Lemma well_spaced_app_l b s t : well_spaced b (s ++ t) = true -> well_spaced b s = true.
Proof.
  revert b. induction s as [|c s IH]; intros b; cbn; [done|].
  destruct (is_space c); [|apply IH].
  intros H. apply andb_true_iff in H as [H1 H2].
  rewrite H1. apply (IH true H2).
Qed.

Lemma well_spaced_app_r b s t : well_spaced b (s ++ t) = true -> well_spaced false t = true.
Proof.
  revert b. induction s as [|c s IH]; intros b; cbn.
  - destruct b; [|done]. intros H. by apply well_spaced_weaken.
  - destruct (is_space c); [|apply IH].
    intros H. apply andb_true_iff in H as [_ H2]. apply (IH true H2).
Qed.

Lemma well_spaced_collapse b s : well_spaced b (collapse_ws_aux b s) = true.
Proof.
  revert b. induction s as [|c s IH]; intros b; cbn; [done|].
  destruct (is_space c) eqn:Hc.
  - destruct b; [apply IH|]. cbn. by rewrite IH.
  - cbn. rewrite Hc. apply IH.
Qed.

Lemma collapse_well_spaced b s : well_spaced b s = true -> collapse_ws_aux b s = s.
Proof.
  revert b. induction s as [|c s IH]; intros b; cbn; [done|].
  destruct (is_space c).
  - intros H. apply andb_true_iff in H as [H1 H2].
    apply andb_true_iff in H1 as [Hc Hb]. apply N.eqb_eq in Hc as ->.
    apply negb_true_iff in Hb as ->. by rewrite IH.
  - intros H. by rewrite IH.
Qed.

Lemma well_spaced_space_is_32 b s c :
  well_spaced b s = true -> c ∈ s -> is_space c = true -> c = 32.
Proof.
  revert b. induction s as [|x s IH]; intros b Hw Hin Hc.
  - by apply elem_of_nil in Hin.
  - cbn in Hw. apply elem_of_cons in Hin as [->|Hin].
    + rewrite Hc in Hw. apply andb_true_iff in Hw as [H1 _].
      apply andb_true_iff in H1 as [H1 _]. by apply N.eqb_eq in H1.
    + destruct (is_space x).
      * apply andb_true_iff in Hw as [_ Hw]. by apply (IH true).
      * by apply (IH false).
Qed.

(** No white space stands before a space. *)
Lemma well_spaced_before_space b p c rest :
  well_spaced b (p ++ c :: rest) = true -> is_space c = true ->
  last_ok is_space p.
Proof.
  unfold last_ok. revert b. induction p as [|a p IH]; intros b Hw Hc; [done|].
  destruct p as [|a' p'].
  - cbn in *. destruct (is_space a); [|done].
    rewrite Hc in Hw. cbn in Hw. by rewrite !andb_false_r in Hw.
  - change (last (a :: a' :: p')) with (last (a' :: p')).
    cbn [app well_spaced] in Hw. cbn [app] in IH.
    destruct (is_space a).
    + apply andb_true_iff in Hw as [_ Hw]. by apply (IH true).
    + by apply (IH false).
Qed.

Lemma rfind_split c s i : rfind c s = Some i -> s = take i s ++ c :: drop (S i) s.
Proof.
  revert i. induction s as [|x s IH]; intros i; cbn; [done|].
  destruct (rfind c s) as [j|].
  - intros [= <-]. cbn. by rewrite <- (IH j eq_refl).
  - destruct (x =? c) eqn:Hx; [|done]. intros [= <-].
    apply N.eqb_eq in Hx as ->. by rewrite drop_0.
Qed.

Lemma last_ok_no_space s :
  Forall (fun c => is_space c = false) s -> last_ok is_space s.
Proof.
  unfold last_ok. intros H. destruct (last s) as [c|] eqn:Hl; [|done].
  apply last_Some_elem_of in Hl. by apply (proj1 (Forall_forall _ _) H).
Qed.

Lemma head_ok_take d n s : head_ok d s -> head_ok d (take n s).
Proof. destruct s, n; cbn; done. Qed.

(** The truncation keeps the invariants and enforces the length. *)
Lemma truncate_name_sanitized s :
  Forall (fun c => is_forbidden c = false) s ->
  well_spaced false s = true ->
  head_ok is_space s -> last_ok is_space s ->
  sanitized (truncate_name s).
Proof.
  intros Hf Hw Hh Hl. unfold truncate_name.
  destruct (200 <? length s)%nat eqn:Hlen.
  2:{ apply Nat.ltb_ge in Hlen. by repeat split. }
  pose proof (take_drop 200 s) as Hs.
  assert (well_spaced false (take 200 s) = true) as Hw200.
  { apply (well_spaced_app_l _ _ (drop 200 s)). by rewrite Hs. }
  assert (length (take 200 s) <= 200)%nat as Hl200
    by (rewrite length_take; lia).
  unfold rsplit1_head.
  destruct (rfind 32 (take 200 s)) as [i|] eqn:Hr.
  - pose proof (rfind_split _ _ _ Hr) as Hsplit.
    set (v := take 200 s) in *.
    repeat split.
    + apply Forall_take. by apply Forall_take.
    + apply (well_spaced_app_l _ _ (32 :: drop (S i) v)). by rewrite <- Hsplit.
    + apply head_ok_take. by apply head_ok_take.
    + apply (well_spaced_before_space false _ 32 (drop (S i) v));
        [by rewrite <- Hsplit|done].
    + rewrite length_take. lia.
  - repeat split; try done.
    + by apply Forall_take.
    + by apply head_ok_take.
    + apply last_ok_no_space. apply Forall_forall. intros c Hc.
      destruct (is_space c) eqn:Hsp; [|done].
      apply (well_spaced_space_is_32 _ _ _ Hw200 Hc) in Hsp as ->.
      by apply rfind_none_not_in in Hr.
Qed.

Lemma Forall_collapse (P : N -> Prop) b s :
  P 32 -> Forall P s -> Forall P (collapse_ws_aux b s).
Proof.
  intros H32 H. revert b. induction H as [|c s Hc Hs IH]; intros b; cbn;
    [done|].
  destruct (is_space c); [destruct b|]; auto.
Qed.

Lemma Forall_strip_by (P : N -> Prop) d s : Forall P s -> Forall P (strip_by d s).
Proof.
  intros H. unfold strip_by.
  destruct (lstrip_by_suffix d s) as [t1 H1].
  destruct (rstrip_by_prefix d (lstrip_by d s)) as [t2 H2].
  rewrite H1, H2 in H.
  apply Forall_app in H as [_ H]. by apply Forall_app in H as [H _].
Qed.

Lemma well_spaced_strip_by d s :
  well_spaced false s = true -> well_spaced false (strip_by d s) = true.
Proof.
  intros H. unfold strip_by.
  destruct (lstrip_by_suffix d s) as [t1 H1].
  destruct (rstrip_by_prefix d (lstrip_by d s)) as [t2 H2].
  rewrite H1 in H. apply well_spaced_app_r in H.
  rewrite H2 in H. by apply well_spaced_app_l in H.
Qed.

Section sanitize_lemmas.
Variable normalize : pystr -> pystr.

(** The output of the sanitizer is in sanitized form, whatever the
    normaliser. *)
Lemma sanitize_with_sanitized x : sanitized (sanitize_with normalize x).
Proof.
  unfold sanitize_with. apply truncate_name_sanitized.
  - apply Forall_strip_by, Forall_collapse; [done|].
    unfold remove_forbidden. apply Forall_forall. intros c Hc.
    apply list_elem_of_In, filter_In in Hc as [_ Hc].
    by apply negb_true_iff.
  - apply well_spaced_strip_by, well_spaced_collapse.
  - apply rstrip_by_head_ok, lstrip_by_head_ok.
  - apply rstrip_by_last_ok.
Qed.

(** On a name in sanitized form every step after the normalisation is
    the identity. *)
Lemma sanitize_with_fix y :
  sanitized y -> normalize y = y -> sanitize_with normalize y = y.
Proof.
  intros (Hf & Hw & Hh & Hl & Hlen) Hn. unfold sanitize_with.
  rewrite Hn.
  assert (remove_forbidden y = y) as ->.
  { unfold remove_forbidden. apply forallb_filter_id, forallb_forall.
    intros c Hc. apply negb_true_iff.
    apply (proj1 (Forall_forall _ _) Hf). by apply list_elem_of_In. }
  unfold collapse_ws. rewrite collapse_well_spaced by done.
  unfold strip, strip_by. rewrite lstrip_by_fix, rstrip_by_fix by done.
  unfold truncate_name.
  by destruct (200 <? length y)%nat eqn:E; [apply Nat.ltb_lt in E; lia|].
Qed.
End sanitize_lemmas.

(** On ASCII the normalisation has nothing to do. *)
Lemma ascii_tables c :
  is_ascii c -> decomposition c = [c] /\ combining_class c = 0.
Proof.
  intros Hc.
  assert (forallb (fun c => bool_decide (decomposition c = [c]
                                          /\ combining_class c = 0))
                  (N.of_nat <$> seq 0 128) = true) as Hall by (by vm_compute).
  rewrite forallb_forall in Hall.
  specialize (Hall c). apply bool_decide_eq_true in Hall; [done|].
  apply list_elem_of_In, list_elem_of_fmap. exists (N.to_nat c).
  split; [by rewrite N2Nat.id|]. apply elem_of_seq. unfold is_ascii in Hc. lia.
Qed.

Lemma normalize_NFKD_ascii s : Forall is_ascii s -> normalize_NFKD s = s.
Proof.
  unfold normalize_NFKD. induction 1 as [|c s Hc Hs IH]; [done|].
  destruct (ascii_tables c Hc) as [Hd Hcc].
  cbn [map concat]. rewrite Hd. cbn [app].
  unfold canonical_order in *. cbn [foldr]. rewrite IH.
  unfold put_in_order. by rewrite Hcc.
Qed.

Lemma sanitize_ascii x : Forall is_ascii x -> Forall is_ascii (_sanitize_filename x).
Proof.
  intros Hx. unfold _sanitize_filename, sanitize_with.
  rewrite normalize_NFKD_ascii by done.
  assert (Forall is_ascii (strip (collapse_ws (remove_forbidden x)))) as H.
  { apply Forall_strip_by, Forall_collapse; [by vm_compute|].
    unfold remove_forbidden. apply Forall_forall. intros c Hc.
    apply list_elem_of_In, filter_In in Hc as [Hc _].
    apply (proj1 (Forall_forall _ _) Hx). by apply list_elem_of_In. }
  unfold truncate_name. destruct (200 <? _)%nat; [|done].
  unfold rsplit1_head. destruct (rfind 32 _); repeat apply Forall_take; done.
Qed.

(** C7 (amended). Sanitizing a sanitized name changes nothing, as long
    as the name is still in NFKD form after the forbidden characters have
    been taken out of it; that is the case of every ASCII name. *)
Theorem sanitize_idempotent_on_normal_forms :
  (forall x,
     normalize_NFKD (_sanitize_filename x) = _sanitize_filename x ->
     _sanitize_filename (_sanitize_filename x) = _sanitize_filename x)
  /\ (forall x,
        Forall is_ascii x ->
        _sanitize_filename (_sanitize_filename x) = _sanitize_filename x).
Proof.
  assert (forall x,
            normalize_NFKD (_sanitize_filename x) = _sanitize_filename x ->
            _sanitize_filename (_sanitize_filename x) = _sanitize_filename x)
    as Hfix.
  { intros x Hn. unfold _sanitize_filename in *.
    apply sanitize_with_fix; [apply sanitize_with_sanitized|done]. }
  split; [done|].
  intros x Hx. apply Hfix, normalize_NFKD_ascii, sanitize_ascii, Hx.
Qed.

Lemma sanitize_idempotent_on_normal_forms_witness :
  _sanitize_filename
    (_sanitize_filename (py "  Smith:  A <study>  of   x/y?  "))
  = _sanitize_filename (py "  Smith:  A <study>  of   x/y?  ").
Proof.
  apply (proj1 sanitize_idempotent_on_normal_forms
           (py "  Smith:  A <study>  of   x/y?  ")).
  by vm_compute.
Defined.

(** C7, the claim as stated fails: with an acute accent before a deleted
    character and a dot below after it, the first pass leaves the two
    marks in an order that the normalisation of the second pass swaps. *)
Lemma sanitize_not_idempotent :
  _sanitize_filename [97; 769; 60; 803] = [97; 769; 803]
  /\ _sanitize_filename (_sanitize_filename [97; 769; 60; 803])
     = [97; 803; 769].
Proof. by vm_compute. Qed.

(* ===================================================================== *)
(** ** What a match of a pattern consumes *)
(* ===================================================================== *)

Lemma consumes_weaken r (P Q : pystr -> Prop) :
  (forall u, P u -> Q u) -> consumes r P -> consumes r Q.
Proof.
  intros HPQ Hr s cap k x H.
  apply Hr in H as (u & s' & -> & Hu & H). eauto 6.
Qed.

Lemma consumes_Chr p :
  consumes (Chr p) (fun u => exists c, u = [c] /\ p c = true).
Proof.
  intros s cap k x. cbn [rmatch]. destruct s as [|c s']; [done|].
  destruct (p c) eqn:Hp; [|done]. intros H. exists [c], s'. eauto.
Qed.

Lemma consumes_lit a : consumes (lit a) (fun u => u = [ch a]).
Proof.
  eapply consumes_weaken; [|apply consumes_Chr].
  intros u (c & -> & Hc). apply N.eqb_eq in Hc. by subst.
Qed.

Lemma star_match_inv p s (k : pystr -> option pystr) x :
  star_match p s k = Some x ->
  exists u s', s = u ++ s' /\ Forall (fun c => p c = true) u /\ k s' = Some x.
Proof.
  induction s as [|c s IH]; cbn [star_match].
  - intros H. by exists [], [].
  - destruct (p c) eqn:Hp.
    + destruct (star_match p s k) eqn:Hs.
      * intros [= ->]. destruct (IH eq_refl) as (u & s' & -> & Hu & Hk).
        exists (c :: u), s'. split; [done|]. split; [by constructor|done].
      * intros H. by exists [], (c :: s).
    + intros H. by exists [], (c :: s).
Qed.

Lemma consumes_Star p : consumes (Star p) (Forall (fun c => p c = true)).
Proof. intros s cap k x. cbn [rmatch]. apply star_match_inv. Qed.

Lemma consumes_Opt r P : consumes r P -> consumes (Opt r) (fun u => u = [] \/ P u).
Proof.
  intros Hr s cap k x. cbn [rmatch].
  destruct (rmatch r s cap k) eqn:Hm.
  - intros [= ->]. apply Hr in Hm as (u & s' & -> & Hu & Hk).
    exists u, s'. eauto.
  - intros Hk. exists [], s. eauto.
Qed.

Lemma consumes_Seq r1 r2 P1 P2 :
  consumes r1 P1 -> consumes r2 P2 ->
  consumes (Seq r1 r2) (fun u => exists u1 u2, u = u1 ++ u2 /\ P1 u1 /\ P2 u2).
Proof.
  intros H1 H2 s cap k x. cbn [rmatch]. intros H.
  apply H1 in H as (u1 & s1 & -> & Hu1 & H).
  apply H2 in H as (u2 & s2 & -> & Hu2 & H).
  exists (u1 ++ u2), s2. rewrite <- (assoc_L app). eauto 10.
Qed.

Lemma consumes_Rep lo extra r P :
  consumes r P ->
  consumes (Rep lo extra r)
    (fun u => exists us, u = concat us /\ Forall P us
                         /\ (lo <= length us <= lo + extra)%nat).
Proof.
  intros Hr s cap k x. cbn [rmatch].
  revert s cap. induction lo as [|lo IHlo]; intros s cap.
  - revert s cap. induction extra as [|e IHe]; intros s cap.
    + intros H. exists [], s. split; [done|]. split; [|done].
      exists []. repeat split; eauto; cbn [length]; lia.
    + destruct (rmatch r s cap _) eqn:Hm at 1.
      * intros [= ->].
        apply Hr in Hm as (u & s1 & -> & Hu & H).
        apply IHe in H as (? & s' & -> & (us & -> & Hus & Hlen) & Hk).
        exists (u ++ concat us), s'. rewrite <- (assoc_L app).
        split; [done|]. split; [|done].
        exists (u :: us). repeat split; eauto; cbn [length]; lia.
      * intros H. exists [], s. split; [done|]. split; [|done].
        exists []. repeat split; eauto; cbn [length]; lia.
  - intros H. apply Hr in H as (u & s1 & -> & Hu & H).
    apply IHlo in H as (? & s' & -> & (us & -> & Hus & Hlen) & Hk).
    exists (u ++ concat us), s'. rewrite <- (assoc_L app).
    split; [done|]. split; [|done].
    exists (u :: us). repeat split; eauto; cbn [length]; lia.
Qed.

(** What the group of a pattern holds after a match. *)
Lemma rmatch_Grp_inv r P s cap (k : pystr -> option pystr -> option pystr) x :
  consumes r P ->
  rmatch (Grp r) s cap k = Some x ->
  exists u s', s = u ++ s' /\ P u /\ k s' (Some u) = Some x.
Proof.
  intros Hr. cbn [rmatch]. intros H.
  apply Hr in H as (u & s' & -> & Hu & H).
  rewrite length_app, Nat.add_sub, take_app_length in H. eauto.
Qed.

Lemma re_search_group r P s g :
  consumes r P -> re_search (Grp r) s = Some g -> P g.
Proof.
  intros Hr H. apply re_search_inv in H as (before & rest & -> & H).
  eapply rmatch_Grp_inv in H as (u & s' & -> & Hu & H); [|done].
  cbn in H. by injection H as <-.
Qed.

Lemma re_search_seq_group r0 P0 r P s g :
  consumes r0 P0 -> consumes r P -> re_search (Seq r0 (Grp r)) s = Some g -> P g.
Proof.
  intros H0 Hr H. apply re_search_inv in H as (before & rest & -> & H).
  change (rmatch r0 rest None
            (fun s' cap' =>
               rmatch (Grp r) s' cap' (fun _ cap => Some (default [] cap)))
          = Some g) in H.
  apply H0 in H as (u0 & s0 & -> & _ & H).
  eapply rmatch_Grp_inv in H as (u & s' & -> & Hu & H); [|done].
  cbn in H. by injection H as <-.
Qed.

Lemma concat_singletons (p : N -> bool) (us : list pystr) :
  Forall (fun u => exists c, u = [c] /\ p c = true) us ->
  length (concat us) = length us /\ Forall (fun c => p c = true) (concat us).
Proof.
  induction 1 as [|u us (c & -> & Hc) _ [IH1 IH2]]; [done|].
  cbn. split; [by rewrite IH1|by constructor].
Qed.

Lemma DOI_PATTERN_group s g :
  re_search DOI_PATTERN s = Some g ->
  exists digits tail,
    g = py "10." ++ digits ++ ch "/" :: tail
    /\ (4 <= length digits <= 9)%nat
    /\ Forall (fun c => is_digit c = true) digits
    /\ tail <> []
    /\ Forall (fun c => doi_tail c = true) tail.
Proof.
  intros H. unfold DOI_PATTERN in H.
  eapply re_search_group in H;
    [|repeat first [apply consumes_Seq | apply consumes_lit | apply consumes_Rep
                   | apply consumes_Chr | apply consumes_Star]].
  cbn beta in H.
  destruct H as (? & ? & -> & -> & ? & ? & -> & -> & ? & ? & -> & -> & ? & ?
                 & -> & (us & -> & Hus & Hlen) & ? & ? & -> & -> & ? & tail & ->
                 & (c & -> & Hc) & Htail).
  apply concat_singletons in Hus as [Hl Hd].
  exists (concat us), (c :: tail). 
  split; [done|]. split; [by rewrite Hl|]. split; [done|]. split; [done|].
  by constructor.
Qed.

Lemma rstrip_by_app_keep d (a : pystr) c b :
  d c = false -> rstrip_by d (a ++ c :: b) = a ++ c :: rstrip_by d b.
Proof.
  intros Hc. induction a as [|x a IH].
  - cbn [app rstrip_by]. rewrite Hc. by destruct (rstrip_by d b).
  - change (rstrip_by d ((x :: a) ++ c :: b))
      with (match rstrip_by d (a ++ c :: b) with
            | [] => if d x then [] else [x]
            | r => x :: r
            end).
    rewrite IH. by destruct a.
Qed.

Lemma is_space_cases c :
  is_space c = true ->
  c = 9 \/ c = 10 \/ c = 11 \/ c = 12 \/ c = 13 \/ c = 28 \/ c = 29 \/ c = 30
  \/ c = 31 \/ c = 32 \/ c = 133 \/ c = 160 \/ c = 5760 \/ c = 8192 \/ c = 8193
  \/ c = 8194 \/ c = 8195 \/ c = 8196 \/ c = 8197 \/ c = 8198 \/ c = 8199
  \/ c = 8200 \/ c = 8201 \/ c = 8202 \/ c = 8232 \/ c = 8233 \/ c = 8239
  \/ c = 8287 \/ c = 12288.
Proof.
  unfold is_space.
  rewrite !orb_true_iff, !andb_true_iff, !N.leb_le, !N.eqb_eq. lia.
Qed.

Lemma digit_not_separator c : is_digit c = true -> dash_or_space c = false.
Proof.
  intros Hd. unfold dash_or_space.
  destruct (c =? ch "-") eqn:Hdash.
  { apply N.eqb_eq in Hdash. subst. by vm_compute in Hd. }
  destruct (is_space c) eqn:Hs; [|done].
  apply is_space_cases in Hs.
  repeat (destruct Hs as [->|Hs]; [by vm_compute in Hd|]).
  subst. by vm_compute in Hd.
Qed.

Lemma one_of_cases (s : string) c : one_of s c = true -> c ∈ py s.
Proof.
  unfold one_of. intros H. apply existsb_exists in H as (x & Hx & Heq).
  apply N.eqb_eq in Heq. subst. by apply list_elem_of_In.
Qed.

Lemma remove_dash_space_app a b :
  remove_dash_space (a ++ b) = remove_dash_space a ++ remove_dash_space b.
Proof. apply List.filter_app. Qed.

Lemma remove_dash_space_optional u :
  u = [] \/ (exists c, u = [c] /\ dash_or_space c = true) ->
  remove_dash_space u = [].
Proof.
  intros [->|(c & -> & Hc)]; [done|].
  unfold remove_dash_space. cbn. by rewrite Hc.
Qed.

Lemma remove_dash_space_keep c :
  dash_or_space c = false -> remove_dash_space [c] = [c].
Proof. intros Hc. unfold remove_dash_space. cbn. by rewrite Hc. Qed.

Lemma remove_dash_space_digits (us : list pystr) :
  Forall (fun u => exists u1 u2, u = u1 ++ u2
            /\ (exists c, u1 = [c] /\ is_digit c = true)
            /\ (u2 = [] \/ exists c, u2 = [c] /\ dash_or_space c = true)) us ->
  length (remove_dash_space (concat us)) = length us
  /\ Forall (fun c => is_digit c = true) (remove_dash_space (concat us)).
Proof.
  induction 1 as [|u us (u1 & u2 & -> & (c & -> & Hc) & Hsep) _ [IH1 IH2]];
    [done|].
  cbn [concat]. rewrite !remove_dash_space_app.
  rewrite (remove_dash_space_optional u2 Hsep).
  rewrite remove_dash_space_keep by by apply digit_not_separator.
  cbn. split; [by rewrite IH1|by constructor].
Qed.

Lemma ISBN_PATTERN_group s g :
  re_search ISBN_PATTERN s = Some g ->
  exists prefix nine last,
    remove_dash_space g = prefix ++ nine ++ [last]
    /\ (prefix = [] \/ prefix = py "978" \/ prefix = py "979")
    /\ length nine = 9%nat
    /\ Forall (fun c => is_digit c = true) nine
    /\ (is_digit last = true \/ last = ch "X" \/ last = ch "x").
Proof.
  intros H. unfold ISBN_PATTERN, ISBN_label, ISBN_number, lit_i in H.
  eapply re_search_seq_group in H;
    [|repeat first [apply consumes_Seq | apply consumes_lit | apply consumes_Rep
                   | apply consumes_Chr | apply consumes_Star | apply consumes_Opt]..].
  cbn beta in H.
  destruct H as (pre & ? & -> & Hpre & ? & ? & -> & (us & -> & Hus & Hlen)
                 & (last & -> & Hlast)).
  rewrite !remove_dash_space_app.
  apply remove_dash_space_digits in Hus as [Hl Hd].
  assert (dash_or_space last = false) as Hkeep.
  { apply orb_true_iff in Hlast as [Hl'|Hl']; [by apply digit_not_separator|].
    apply one_of_cases in Hl'.
    apply list_elem_of_In in Hl'. cbn in Hl'.
    destruct Hl' as [<-|[<-|[]]]; by vm_compute. }
  rewrite (remove_dash_space_keep last Hkeep).
  exists (remove_dash_space pre), (remove_dash_space (concat us)), last.
  split; [done|]. split; [|split; [lia|split; [done|]]].
  - destruct Hpre as [->|(? & ? & -> & -> & ? & ? & -> & -> & ? & sep & ->
                          & (c & -> & Hc) & Hsep)]; [by left|].
    right. rewrite !remove_dash_space_app.
    rewrite (remove_dash_space_optional sep Hsep).
    apply one_of_cases, list_elem_of_In in Hc. cbn in Hc.
    destruct Hc as [<-|[<-|[]]]; [left|right]; by vm_compute.
  - apply orb_true_iff in Hlast as [Hl'|Hl']; [by left|right].
    apply one_of_cases, list_elem_of_In in Hl'. cbn in Hl'.
    destruct Hl' as [<-|[<-|[]]]; [by left|by right].
Qed.

(* ===================================================================== *)
(** ** The label of an ISBN *)
(* ===================================================================== *)











(* ===================================================================== *)
(** ** Form of the extracted identifiers *)
(* ===================================================================== *)

(** What [_clean_doi] leaves of a match of the DOI pattern. *)
Lemma clean_doi_group s g :
  re_search DOI_PATTERN s = Some g ->
  exists digits tail,
    _clean_doi g = py "10." ++ digits ++ ch "/" :: tail
    /\ (4 <= length digits <= 9)%nat
    /\ Forall (fun c => is_digit c = true) digits
    /\ Forall (fun c => doi_tail c = true) tail
    /\ _clean_doi (_clean_doi g) = _clean_doi g.
Proof.
  intros H. apply DOI_PATTERN_group in H
    as (digits & tail & -> & Hlen & Hd & _ & Ht).
  unfold _clean_doi.
  set (punct := fun c => one_of ".,;:'>)}]" c || (c =? 34)).
  rewrite (assoc_L app).
  rewrite (rstrip_by_app_keep punct (py "10." ++ digits) (ch "/") tail)
    by reflexivity.
  rewrite rstrip_by_app_keep by reflexivity.
  rewrite <- (assoc_L app).
  exists digits, (rstrip_by punct tail).
  split; [done|]. split; [done|]. split; [done|]. split.
  - destruct (rstrip_by_prefix punct tail) as [t Heq].
    rewrite Heq in Ht. by apply Forall_app in Ht as [Ht _].
  - rewrite <- (assoc_L app). do 3 f_equal.
    apply rstrip_by_fix, rstrip_by_last_ok.
Qed.

Lemma doi_from_fields_found meta fields d :
  doi_from_fields meta fields = Some d ->
  exists val g, re_search DOI_PATTERN val = Some g /\ d = _clean_doi g.
Proof.
  induction fields as [|f fields IH]; cbn [doi_from_fields]; [done|].
  destruct (meta_get meta f) as [|c val] eqn:Hv; [done|].
  destruct (re_search DOI_PATTERN (c :: val)) as [g|] eqn:Hs; [|done].
  intros [= <-]. eauto.
Qed.

(** A cleaned match is never empty. *)
Lemma truthy_clean_doi s g :
  re_search DOI_PATTERN s = Some g -> truthy (Some (_clean_doi g)) = true.
Proof.
  intros H. by destruct (clean_doi_group _ _ H) as (digits & tail & -> & _).
Qed.

Lemma truthy_doi_from_fields meta fields :
  truthy (doi_from_fields meta fields) = bool_decide (is_Some (doi_from_fields meta fields)).
Proof.
  destruct (doi_from_fields meta fields) as [d|] eqn:H.
  - apply doi_from_fields_found in H as (val & g & Hs & ->).
    rewrite (truthy_clean_doi _ _ Hs). symmetry. by apply bool_decide_eq_true_2.
  - done.
Qed.

Lemma doi_from_fields_head meta fields :
  doi_from_fields meta fields
  = head (omap (fun s => _clean_doi <$> re_search DOI_PATTERN s)
               (map (meta_get meta) fields)).
Proof.
  induction fields as [|f fields IH]; [done|].
  cbn [doi_from_fields map omap list_omap].
  destruct (meta_get meta f) as [|c val] eqn:Hv.
  - change (re_search DOI_PATTERN []) with (@None pystr). exact IH.
  - destruct (re_search DOI_PATTERN (c :: val)); [done|exact IH].
Qed.

(** The fields of the result of [extract_pdf_info] for a document that
    opens and can be read: the DOI is the first one found, in the order
    of the sources. *)
Lemma extract_pdf_info_fields pdf_path w st doc :
  fitz_open w pdf_path = Some doc ->
  doc_raises doc = None ->
  let search := fun s => _clean_doi <$> re_search DOI_PATTERN s in
  let meta := doc_metadata doc in
  let text := join [10] (take 2 (doc_pages doc)) in
  exists info,
    extract_pdf_info pdf_path w st = (Ok info, st)
    /\ info_doi info
       = head (omap search [meta_get meta "subject"; meta_get meta "keywords";
                            meta_get meta "doi"; text; basename pdf_path])
    /\ info_isbn info = extract_isbn text
    /\ info_title_guess info = extract_title_guess text
    /\ info_text_snippet info = take 3000 text.
Proof.
  intros Hopen Hread search meta text.
  unfold extract_pdf_info, bind, ask, ret. cbv beta zeta.
  rewrite Hopen, Hread.
  eexists. split; [reflexivity|]. split; [|done].
  unfold info_doi. fold meta text.
  rewrite truthy_doi_from_fields.
  pose proof (doi_from_fields_head meta ["subject"; "keywords"; "doi"]%string)
    as Hhead.
  change [meta_get meta "subject"; meta_get meta "keywords"; meta_get meta "doi";
          text; basename pdf_path]
    with (map (meta_get meta) ["subject"; "keywords"; "doi"]%string
          ++ [text; basename pdf_path]).
  rewrite omap_app.
  destruct (doi_from_fields meta ["subject"; "keywords"; "doi"]%string)
    as [d1|] eqn:H1.
  - rewrite bool_decide_eq_true_2 by done.
    rewrite <- H1, truthy_doi_from_fields, bool_decide_eq_true_2 by (by rewrite H1).
    rewrite H1. unfold search.
    destruct (omap _ (map (meta_get meta) ["subject"; "keywords"; "doi"]%string));
      [done|].
    cbn in Hhead. by injection Hhead as ->.
  - rewrite bool_decide_eq_false_2 by (by intros [? ?]).
    unfold search.
    destruct (omap _ (map (meta_get meta) ["subject"; "keywords"; "doi"]%string));
      [|done].
    cbn [app omap list_omap].
    destruct (re_search DOI_PATTERN text) as [g|] eqn:H2.
    + by rewrite (truthy_clean_doi _ _ H2).
    + cbn [truthy fmap option_fmap option_map].
      by destruct (re_search DOI_PATTERN (basename pdf_path)).
Qed.

Lemma extract_pdf_info_unreadable pdf_path w st :
  fitz_open w pdf_path = None ->
  extract_pdf_info pdf_path w st
  = (Ok {| info_doi := None; info_isbn := None; info_title_guess := None;
           info_text_snippet := []; info_pdf_metadata := ∅ |}, st).
Proof.
  intros Hopen. unfold extract_pdf_info, bind, ask, ret. cbv beta zeta.
  by rewrite Hopen.
Qed.

(** A document from which [extract_pdf_info] returns was read without
    an exception. *)
Lemma extract_pdf_info_opened pdf_path w st info st' doc :
  fitz_open w pdf_path = Some doc ->
  extract_pdf_info pdf_path w st = (Ok info, st') ->
  doc_raises doc = None.
Proof.
  intros Hopen. unfold extract_pdf_info, bind, ask, raise. cbv beta zeta.
  rewrite Hopen. by destruct (doc_raises doc).
Qed.

(** The DOI that [extract_pdf_info] reports was found by the pattern
    somewhere and cleaned. *)
Lemma extract_pdf_info_doi_found pdf_path w st info st' d :
  extract_pdf_info pdf_path w st = (Ok info, st') ->
  info_doi info = Some d ->
  exists val g, re_search DOI_PATTERN val = Some g /\ d = _clean_doi g.
Proof.
  destruct (fitz_open w pdf_path) as [doc|] eqn:Hopen.
  - intros Hrun.
    pose proof (extract_pdf_info_opened _ _ _ _ _ _ Hopen Hrun) as Hread.
    revert Hrun.
    destruct (extract_pdf_info_fields pdf_path w st doc Hopen Hread)
      as (info' & -> & Hdoi & _).
    intros [= <- _]. rewrite Hdoi. intros Hh.
    apply head_Some_elem_of, list_elem_of_omap in Hh as (val & _ & Hh).
    destruct (re_search DOI_PATTERN val) as [g|] eqn:Hs; [|done].
    injection Hh as <-. eauto.
  - rewrite (extract_pdf_info_unreadable _ _ _ Hopen). by intros [= <- _].
Qed.

(** X3. Every DOI that [extract_pdf_info] reports has the form of the
    pattern: the characters [10.], four to nine digits, a slash, and a
    tail without white space, comma, semicolon, quote or closing bracket;
    it is already clean, so no trailing punctuation is left on it. *)
Theorem extract_pdf_info_doi_form pdf_path w st info st' d :
  extract_pdf_info pdf_path w st = (Ok info, st') ->
  info_doi info = Some d ->
  exists digits tail,
    d = py "10." ++ digits ++ ch "/" :: tail
    /\ (4 <= length digits <= 9)%nat
    /\ Forall (fun c => is_digit c = true) digits
    /\ Forall (fun c => doi_tail c = true) tail
    /\ _clean_doi d = d.
Proof.
  intros Hrun Hd.
  destruct (extract_pdf_info_doi_found _ _ _ _ _ _ Hrun Hd)
    as (val & g & Hs & ->).
  apply (clean_doi_group _ _ Hs).
Qed.

Lemma extract_pdf_info_doi_form_witness :
  exists digits tail,
    py "10.1234/abc5" = py "10." ++ digits ++ ch "/" :: tail
    /\ (4 <= length digits <= 9)%nat
    /\ Forall (fun c => is_digit c = true) digits
    /\ Forall (fun c => doi_tail c = true) tail
    /\ _clean_doi (py "10.1234/abc5") = py "10.1234/abc5".
Proof.
  refine (extract_pdf_info_doi_form (py "/lib/x.pdf")
            (world_with_pages ["see (doi:10.1234/abc5)."%string]) empty_state
            _ _ (py "10.1234/abc5") eq_refl _).
  reflexivity.
Defined.

(** X4. The sources of a DOI have a fixed priority: the metadata fields
    [subject], [keywords] and [doi], then the text of the first two
    pages, then the file name.  The first source in which the pattern
    finds a match gives the DOI, cleaned; a match is never emptied by the
    cleaning, so a later source is read only when the earlier ones have
    no match. *)
Theorem extract_pdf_info_doi_priority pdf_path w st doc :
  fitz_open w pdf_path = Some doc ->
  doc_raises doc = None ->
  let search := fun s => _clean_doi <$> re_search DOI_PATTERN s in
  let meta := doc_metadata doc in
  exists info,
    extract_pdf_info pdf_path w st = (Ok info, st)
    /\ info_doi info
       = head (omap search [meta_get meta "subject"; meta_get meta "keywords";
                            meta_get meta "doi";
                            join [10] (take 2 (doc_pages doc));
                            basename pdf_path]).
Proof.
  intros Hopen Hread search meta.
  destruct (extract_pdf_info_fields pdf_path w st doc Hopen Hread)
    as (info & Hrun & Hdoi & _).
  by exists info.
Qed.

Lemma extract_pdf_info_doi_priority_witness :
  exists info,
    extract_pdf_info (py "/lib/10.3000_c3.pdf")
      (world_with_document [("keywords", "doi:10.1000/a1")]%string
                           ["see 10.2000/b2."%string])
      empty_state
    = (Ok info, empty_state)
    /\ info_doi info = Some (py "10.1000/a1").
Proof.
  refine (extract_pdf_info_doi_priority (py "/lib/10.3000_c3.pdf")
            (world_with_document [("keywords", "doi:10.1000/a1")]%string
                                 ["see 10.2000/b2."%string])
            empty_state _ eq_refl eq_refl).
Defined.

(** X5. Every ISBN that [extract_pdf_info] reports has ten or thirteen
    characters: an optional prefix 978 or 979, nine digits, and a last
    character that is a digit or the letter X (in either case); hyphens
    and spaces are gone. *)
Theorem extract_pdf_info_isbn_form pdf_path w st info st' v :
  extract_pdf_info pdf_path w st = (Ok info, st') ->
  info_isbn info = Some v ->
  exists prefix nine last,
    v = prefix ++ nine ++ [last]
    /\ (prefix = [] \/ prefix = py "978" \/ prefix = py "979")
    /\ length nine = 9%nat
    /\ Forall (fun c => is_digit c = true) nine
    /\ (is_digit last = true \/ last = ch "X" \/ last = ch "x")
    /\ (length v = 10%nat \/ length v = 13%nat).
Proof.
  intros Hrun Hv.
  assert (exists text, extract_isbn text = Some v) as [text Ht].
  { destruct (fitz_open w pdf_path) as [doc|] eqn:Hopen.
    - pose proof (extract_pdf_info_opened _ _ _ _ _ _ Hopen Hrun) as Hread.
      destruct (extract_pdf_info_fields pdf_path w st doc Hopen Hread)
        as (info' & Hrun' & _ & Hisbn & _).
      rewrite Hrun' in Hrun. injection Hrun as Hi _. subst info'.
      rewrite Hisbn in Hv. eauto.
    - rewrite (extract_pdf_info_unreadable _ _ _ Hopen) in Hrun.
      injection Hrun as Hi _. by subst info. }
  unfold extract_isbn in Ht.
  destruct (re_search ISBN_PATTERN text) as [g|] eqn:Hs; [|done].
  injection Ht as <-.
  destruct (ISBN_PATTERN_group _ _ Hs)
    as (prefix & nine & last & -> & Hp & Hn & Hd & Hl).
  exists prefix, nine, last. repeat (split; [done|]).
  rewrite !length_app, Hn.
  destruct Hp as [-> | [-> | ->]]; cbn; [by left|by right|by right].
Qed.

Lemma extract_pdf_info_isbn_form_witness :
  exists prefix nine last,
    py "030640615X" = prefix ++ nine ++ [last]
    /\ (prefix = [] \/ prefix = py "978" \/ prefix = py "979")
    /\ length nine = 9%nat
    /\ Forall (fun c => is_digit c = true) nine
    /\ (is_digit last = true \/ last = ch "X" \/ last = ch "x")
    /\ (length (py "030640615X") = 10%nat \/ length (py "030640615X") = 13%nat).
Proof.
  refine (extract_pdf_info_isbn_form (py "/lib/book.pdf")
            (world_with_pages ["Print ISBN: 0-306-40615-X (hardcover)"%string])
            empty_state _ _ (py "030640615X") eq_refl _).
  reflexivity.
Defined.

Lemma split_on_no_sep sep s piece :
  piece ∈ split_on sep s -> Forall (fun c => c <> sep) piece.
Proof.
  revert piece. induction s as [|c s IH]; intros piece; cbn [split_on].
  - intros ->%list_elem_of_singleton. constructor.
  - destruct (c =? sep) eqn:Hc.
    + intros [->|H]%elem_of_cons; [constructor|by apply IH].
    + apply N.eqb_neq in Hc.
      destruct (split_on sep s) as [|w ws].
      * intros ->%list_elem_of_singleton. by repeat constructor.
      * intros [->|H]%elem_of_cons.
        -- constructor; [done|]. apply IH. by left.
        -- apply IH. by right.
Qed.

Lemma first_title_line_found lines g :
  first_title_line lines = Some g ->
  exists line, line ∈ lines /\ g = take 200 line
    /\ (10 < length line)%nat /\ startswith (py "http") line = false.
Proof.
  induction lines as [|line rest IH]; cbn [first_title_line]; [done|].
  destruct (10 <? length line)%nat eqn:Hlen; cbn [andb].
  - destruct (negb (bool_decide _)); cbn [andb].
    + destruct (startswith (py "http") line) eqn:Hh; cbn [negb].
      * intros H. apply IH in H as (l & Hl & H). exists l. split; [by right|done].
      * intros [= <-]. exists line. split; [by left|].
        apply Nat.ltb_lt in Hlen. done.
    + intros H. apply IH in H as (l & Hl & H). exists l. split; [by right|done].
  - intros H. apply IH in H as (l & Hl & H). exists l. split; [by right|done].
Qed.

Lemma startswith_take p n (s : pystr) :
  (length p <= n)%nat -> startswith p (take n s) = startswith p s.
Proof.
  revert n s. induction p as [|a p IH]; intros n s Hn; [by destruct (take n s)|].
  destruct n as [|n]; [cbn in Hn; lia|].
  destruct s as [|b s]; [done|]. cbn [take startswith].
  rewrite IH; [done|]. cbn in Hn. lia.
Qed.

Lemma extract_title_guess_found text g :
  extract_title_guess text = Some g ->
  exists line, line ∈ split_on 10 text /\ g = take 200 (strip line)
    /\ (10 < length (strip line))%nat
    /\ startswith (py "http") (strip line) = false.
Proof.
  unfold extract_title_guess. destruct (strip text) as [|? ?]; [done|].
  intros H. apply first_title_line_found in H as (ln & Hl & -> & Hlen & Hh).
  apply elem_of_take in Hl as (i & Hl & _).
  apply list_elem_of_lookup_2 in Hl.
  apply list_elem_of_In, filter_In in Hl as [Hl _].
  apply list_elem_of_In, list_elem_of_fmap in Hl as (line & -> & Hl).
  by exists line.
Qed.

(** X6. A title guess is never blank: it has more than ten and at most
    200 characters, does not begin with white space or with [http], and
    lies within one line. *)
Theorem extract_pdf_info_title_guess_form pdf_path w st info st' g :
  extract_pdf_info pdf_path w st = (Ok info, st') ->
  info_title_guess info = Some g ->
  (10 < length g <= 200)%nat
  /\ startswith (py "http") g = false
  /\ head_ok is_space g
  /\ Forall (fun c => c <> 10) g
  /\ truthy (info_title_guess info) = true.
Proof.
  intros Hrun Hg.
  assert (exists text, extract_title_guess text = Some g) as [text Ht].
  { destruct (fitz_open w pdf_path) as [doc|] eqn:Hopen.
    - pose proof (extract_pdf_info_opened _ _ _ _ _ _ Hopen Hrun) as Hread.
      destruct (extract_pdf_info_fields pdf_path w st doc Hopen Hread)
        as (info' & Hrun' & _ & _ & Htitle & _).
      rewrite Hrun' in Hrun. injection Hrun as Hi _. subst info'.
      rewrite Htitle in Hg. eauto.
    - rewrite (extract_pdf_info_unreadable _ _ _ Hopen) in Hrun.
      injection Hrun as Hi _. by subst info. }
  apply extract_title_guess_found in Ht as (line & Hl & -> & Hlen & Hh).
  assert (10 < length (take 200 (strip line)) <= 200)%nat as Hb.
  { rewrite length_take.
    destruct (Nat.min_spec 200 (length (strip line))) as [[? ->]|[? ->]]; lia. }
  split; [done|]. split; [|split; [|split]].
  - rewrite startswith_take; [done|].
    change (length (py "http")) with 4%nat. lia.
  - apply head_ok_take. unfold strip, strip_by.
    apply rstrip_by_head_ok, lstrip_by_head_ok.
  - apply Forall_take. unfold strip. apply Forall_strip_by.
    by apply split_on_no_sep with (s := text).
  - rewrite Hg. destruct (take 200 (strip line)); [cbn in Hb; lia|done].
Qed.

Lemma extract_pdf_info_title_guess_form_witness :
  (10 < length (py "A study of things") <= 200)%nat
  /\ startswith (py "http") (py "A study of things") = false
  /\ head_ok is_space (py "A study of things")
  /\ Forall (fun c => c <> 10) (py "A study of things")
  /\ truthy (Some (py "A study of things")) = true.
Proof.
  refine (extract_pdf_info_title_guess_form (py "/lib/x.pdf")
            (world_with_pages ["https://example.org/a/long/address";
                               "  A study of things  "]%string)
            empty_state _ _ (py "A study of things") eq_refl _).
  reflexivity.
Defined.

(* ===================================================================== *)
(** ** The waterfall: requests and confidence *)
(* ===================================================================== *)

Lemma crossref_lookup_doi_requests d w :
  requests (crossref_lookup_doi d) w = [GetCrossrefWork d].
Proof.
  unfold requests, crossref_lookup_doi, request. run_monad.
  destruct (crossref_works_doi w d) as [|status body]; [done|].
  by destruct (negb (status =? 200)%Z).
Qed.

Lemma _open_library_isbn_requests i w :
  requests (_open_library_isbn i) w = [GetOpenLibrary i].
Proof.
  unfold requests, _open_library_isbn, request. run_monad.
  destruct (open_library_books w i) as [|status body]; [done|].
  destruct (negb (status =? 200)%Z); [done|]. by destruct body.
Qed.

Lemma _google_books_isbn_requests i w :
  requests (_google_books_isbn i) w = [GetGoogleBooks i].
Proof.
  unfold requests, _google_books_isbn, request. run_monad.
  destruct (google_books_volumes w i) as [|status body]; [done|].
  destruct (negb (status =? 200)%Z); [done|]. by destruct body.
Qed.

(** [isbn_lookup] from any state: Open Library first, Google Books only
    when Open Library gives nothing. *)
Lemma isbn_lookup_run i w st :
  isbn_lookup i w st =
  match answer (_open_library_isbn i) w with
  | Some m => (Ok (Some m), add_calls [GetOpenLibrary i] st)
  | None => (Ok (answer (_google_books_isbn i) w),
             add_calls [GetOpenLibrary i; GetGoogleBooks i] st)
  end.
Proof.
  unfold isbn_lookup, bind.
  rewrite (_open_library_isbn_stateless w i), _open_library_isbn_requests.
  destruct (answer (_open_library_isbn i) w); [done|].
  rewrite (_google_books_isbn_stateless w i), _google_books_isbn_requests.
  by rewrite add_calls_app.
Qed.

Lemma isbn_lookup_requests i w :
  requests (isbn_lookup i) w =
  GetOpenLibrary i :: match answer (_open_library_isbn i) w with
                      | Some _ => []
                      | None => [GetGoogleBooks i]
                      end.
Proof.
  unfold requests. rewrite isbn_lookup_run.
  by destruct (answer (_open_library_isbn i) w).
Qed.

Lemma zotero_search_requests t w :
  settings_fault w = None ->
  requests (zotero_search t None) w =
  match zotero_api_key (settings_file w), zotero_library_id (settings_file w) with
  | _ :: _, _ :: _ => [GetZoteroItems t]
  | _, _ => []
  end.
Proof.
  intros Hset. unfold requests, zotero_search, request. run_monad.
  rewrite Hset.
  destruct (zotero_api_key (settings_file w)); [done|].
  destruct (zotero_library_id (settings_file w)); [done|].
  destruct (zotero_items w (settings_file w) t) as [|status body]; [done|].
  destruct (negb (status =? 200)%Z); [done|]. by destruct body.
Qed.

(** The provider and the confidence of the records of each client. *)
Lemma crossref_lookup_doi_answer d w m :
  answer (crossref_lookup_doi d) w = Some m ->
  source m = crossref /\ zotero_key m = None.
Proof.
  unfold answer, crossref_lookup_doi, request. run_monad.
  destruct (crossref_works_doi w d) as [|status body]; [done|].
  destruct (negb (status =? 200)%Z); [done|]. by intros [= <-].
Qed.

Lemma score_title_source q r :
  source (score_title q r) = source r
  /\ zotero_key (score_title q r) = zotero_key r.
Proof.
  unfold score_title.
  destruct (str_lower (title r)); [done|]. destruct (str_lower q); [done|].
  by case_bool_decide.
Qed.

Lemma crossref_search_title_answer t w m :
  answer (crossref_search_title t) w = Some m ->
  source m = crossref /\ zotero_key m = None.
Proof.
  unfold answer, crossref_search_title, request. run_monad.
  destruct (crossref_works_query w t) as [|status body]; [done|].
  destruct (negb (status =? 200)%Z); [done|].
  destruct body as [|best rest]; [done|]. intros [= <-].
  by destruct (score_title_source t (_parse_crossref_item best)) as [-> ->].
Qed.

Lemma semantic_scholar_search_answer t w m :
  answer (semantic_scholar_search t) w = Some m ->
  source m = semantic_scholar /\ confidence m = 0.7%float
  /\ zotero_key m = None.
Proof.
  unfold answer, semantic_scholar_search, request. run_monad.
  destruct (semantic_scholar_paper_search w t) as [|status body]; [done|].
  destruct (negb (status =? 200)%Z); [done|].
  destruct body as [|paper rest]; [done|]. by intros [= <-].
Qed.

Lemma _open_library_isbn_answer i w m :
  answer (_open_library_isbn i) w = Some m ->
  source m = open_library /\ confidence m = 0.9%float
  /\ zotero_key m = None /\ isbn m = Some i /\ doi m = Some [].
Proof.
  unfold answer, _open_library_isbn, request. run_monad.
  destruct (open_library_books w i) as [|status body]; [done|].
  destruct (negb (status =? 200)%Z); [done|].
  destruct body as [book|]; [|done]. by intros [= <-].
Qed.

Lemma _google_books_isbn_answer i w m :
  answer (_google_books_isbn i) w = Some m ->
  source m = google_books /\ confidence m = 0.85%float
  /\ zotero_key m = None /\ isbn m = Some i /\ doi m = Some [].
Proof.
  unfold answer, _google_books_isbn, request. run_monad.
  destruct (google_books_volumes w i) as [|status body]; [done|].
  destruct (negb (status =? 200)%Z); [done|].
  destruct body as [|info rest]; [done|]. by intros [= <-].
Qed.

Lemma isbn_lookup_answer i w :
  answer (isbn_lookup i) w =
  match answer (_open_library_isbn i) w with
  | Some m => Some m
  | None => answer (_google_books_isbn i) w
  end.
Proof.
  unfold answer at 1. rewrite isbn_lookup_run.
  by destruct (answer (_open_library_isbn i) w).
Qed.

Lemma zotero_search_answer t w m :
  answer (zotero_search t None) w = Some m ->
  source m = zotero /\ confidence m = 0.95%float
  /\ is_Some (zotero_key m).
Proof.
  unfold answer, zotero_search, request. run_monad.
  destruct (settings_fault w); [done|].
  destruct (zotero_api_key (settings_file w)); [done|].
  destruct (zotero_library_id (settings_file w)); [done|].
  destruct (zotero_items w (settings_file w) t) as [|status body]; [done|].
  destruct (negb (status =? 200)%Z); [done|].
  destruct body as [|item rest]; [done|]. intros [= <-]. cbn. eauto.
Qed.

(** Every usable record carries the confidence of its provider. *)
Lemma usable_records_confidence w info :
  Forall (fun m =>
            match source m with
            | crossref => ge_half (confidence m) = true /\ zotero_key m = None
            | semantic_scholar => confidence m = 0.7%float /\ zotero_key m = None
            | open_library => confidence m = 0.9%float /\ zotero_key m = None
            | google_books => confidence m = 0.85%float /\ zotero_key m = None
            | zotero => confidence m = 0.95%float /\ is_Some (zotero_key m)
            | manual_review => False
            end)
         (usable_records w info).
Proof.
  unfold usable_records. repeat apply Forall_app_2.
  - destruct (truthy (info_doi info)); [|constructor].
    destruct (answer _ w) as [m|] eqn:Hm; [|constructor].
    apply crossref_lookup_doi_answer in Hm as [Hs Hz].
    repeat constructor; cbn; by rewrite Hs.
  - destruct (truthy (info_isbn info)); [|constructor].
    rewrite isbn_lookup_answer.
    destruct (answer (_open_library_isbn _) w) as [m|] eqn:Hm.
    + apply _open_library_isbn_answer in Hm as (Hs & Hc & Hz & _).
      repeat constructor; by rewrite Hs.
    + destruct (answer (_google_books_isbn _) w) as [m|] eqn:Hg; [|constructor].
      apply _google_books_isbn_answer in Hg as (Hs & Hc & Hz & _).
      repeat constructor; by rewrite Hs.
  - destruct (truthy (info_title_guess info)); [|constructor].
    destruct (answer _ w) as [m|] eqn:Hm; [|constructor].
    apply crossref_search_title_answer in Hm as [Hs Hz].
    cbn -[ge_half].
    destruct (ge_half (confidence m)) eqn:Hc; [|constructor].
    repeat constructor; by rewrite Hs.
  - destruct (truthy (info_title_guess info)); [|constructor].
    destruct (answer _ w) as [m|] eqn:Hm; [|constructor].
    apply semantic_scholar_search_answer in Hm as (Hs & Hc & Hz).
    repeat constructor; by rewrite Hs.
  - destruct (truthy (info_title_guess info)); [|constructor].
    destruct (answer _ w) as [m|] eqn:Hm; [|constructor].
    apply zotero_search_answer in Hm as (Hs & Hc & Hz).
    repeat constructor; by rewrite Hs.
Qed.

(** X7. The confidence of the record that [resolve_metadata] returns is
    fixed by its provider: at least 0.5 for CrossRef, 0.7 for Semantic
    Scholar, 0.9 for Open Library, 0.85 for Google Books, 0.95 for
    Zotero and 0.0 for manual review.  Only a Zotero record carries a
    Zotero key.  (The settings file is one that loads.) *)
Theorem resolve_metadata_confidence pdf_path w st record st' :
  settings_fault w = None ->
  resolve_metadata pdf_path w st = (Ok record, st') ->
  match source record with
  | crossref => ge_half (confidence record) = true /\ zotero_key record = None
  | semantic_scholar =>
      confidence record = 0.7%float /\ zotero_key record = None
  | open_library => confidence record = 0.9%float /\ zotero_key record = None
  | google_books => confidence record = 0.85%float /\ zotero_key record = None
  | zotero => confidence record = 0.95%float /\ is_Some (zotero_key record)
  | manual_review => confidence record = 0.0%float /\ zotero_key record = None
  end.
Proof.
  intros Hset. unfold resolve_metadata, bind.
  destruct (extract_pdf_info pdf_path w st) as [[info|e] st0]; [|done].
  destruct (resolve_from_run info pdf_path w st0 (fun _ => Hset)) as [cs ->].
  intros [= <- _].
  pose proof (usable_records_confidence w info) as Hall.
  destruct (usable_records w info) as [|m rest]; [done|].
  apply Forall_cons in Hall as [Hm _]. cbn.
  by destruct (source m).
Qed.

Lemma resolve_metadata_confidence_witness :
  ge_half (confidence (score_title (py "A study of things")
             (_parse_crossref_item (crossref_item_titled "A Study of Things"))))
  = true
  /\ zotero_key (score_title (py "A study of things")
       (_parse_crossref_item (crossref_item_titled "A Study of Things"))) = None.
Proof.
  refine (resolve_metadata_confidence (py "/lib/x.pdf")
            (set_fitz_open
               (fun _ => Some {| doc_metadata := ∅;
                                 doc_pages := [py "A study of things"];
                                 doc_raises := None |})
               (world_crossref_finds "A Study of Things"))
            empty_state
            (score_title (py "A study of things")
               (_parse_crossref_item (crossref_item_titled "A Study of Things")))
            _ eq_refl _).
  reflexivity.
Defined.

(** X8. A file that the reader cannot open goes to manual review under
    its own name, without its extension, and no request is sent. *)
Theorem resolve_metadata_unreadable pdf_path w st :
  fitz_open w pdf_path = None ->
  resolve_metadata pdf_path w st
  = (Ok {| title := splitext_root (basename pdf_path); authors := [];
           year := []; journal := []; publisher := []; doi := None;
           isbn := None; source := manual_review; confidence := 0.0%float;
           zotero_key := None |}, st).
Proof.
  intros Hopen. unfold resolve_metadata, bind.
  by rewrite (extract_pdf_info_unreadable _ _ _ Hopen).
Qed.

Lemma resolve_metadata_unreadable_witness :
  resolve_metadata (py "/scans/raw_scan.2021.pdf") silent_world empty_state
  = (Ok {| title := py "raw_scan.2021"; authors := [];
           year := []; journal := []; publisher := []; doi := None;
           isbn := None; source := manual_review; confidence := 0.0%float;
           zotero_key := None |}, empty_state).
Proof.
  exact (resolve_metadata_unreadable (py "/scans/raw_scan.2021.pdf")
           silent_world empty_state eq_refl).
Defined.

(** X9. When a DOI is extracted and CrossRef answers it with status 200,
    the record is CrossRef's with confidence 1.0 and this request is the
    only one sent: neither the ISBN nor the title is looked up. *)
Theorem resolve_metadata_doi_hit pdf_path w st info d item :
  extract_pdf_info pdf_path w st = (Ok info, st) ->
  info_doi info = Some d ->
  crossref_works_doi w d = HttpResponse 200 item ->
  resolve_metadata pdf_path w st
  = (Ok (set_confidence 1.0%float (_parse_crossref_item item)),
     add_calls [GetCrossrefWork d] st).
Proof.
  intros Hrun Hd Hw.
  assert (truthy (Some d) = true) as Ht.
  { destruct (extract_pdf_info_doi_found _ _ _ _ _ _ Hrun Hd)
      as (val & g & Hs & ->).
    apply (truthy_clean_doi _ _ Hs). }
  assert (answer (crossref_lookup_doi d) w = Some (_parse_crossref_item item))
    as Ha.
  { unfold answer, crossref_lookup_doi, request. run_monad. by rewrite Hw. }
  unfold resolve_metadata, bind. rewrite Hrun.
  unfold resolve_from. rewrite step_run by (intros ?; auto with clients).
  rewrite Hd, Ht. change (default [] (Some d)) with d.
  by rewrite crossref_lookup_doi_requests, Ha.
Qed.

Lemma resolve_metadata_doi_hit_witness :
  resolve_metadata (py "/lib/x.pdf")
    (world_doi_known "ISBN 0306406152 doi:10.1234/abc5." "A Study")
    empty_state
  = (Ok (set_confidence 1.0%float
           (_parse_crossref_item (crossref_item_titled "A Study"))),
     add_calls [GetCrossrefWork (py "10.1234/abc5")] empty_state).
Proof.
  refine (resolve_metadata_doi_hit (py "/lib/x.pdf")
            (world_doi_known "ISBN 0306406152 doi:10.1234/abc5." "A Study")
            empty_state
            {| info_doi := Some (py "10.1234/abc5");
               info_isbn := Some (py "0306406152");
               info_title_guess := None;
               info_text_snippet := py "ISBN 0306406152 doi:10.1234/abc5.";
               info_pdf_metadata := ∅ |}
            (py "10.1234/abc5") (crossref_item_titled "A Study")
            _ eq_refl eq_refl).
  by vm_compute.
Defined.

(** One step of the waterfall sends the requests of its lookup, if its
    guard holds, before those of the steps that follow. *)
Lemma step_trace (guard : bool) lookup (accept : Metadata -> bool)
    (finish : Metadata -> Metadata) (next : M Metadata) w st
    (mine rest : list Call) :
  (guard = true -> stateless w lookup) ->
  sublist (if guard then requests lookup w else []) mine ->
  (forall st', exists r cs,
      next w st' = (Ok r, add_calls cs st') /\ sublist cs rest) ->
  exists r cs,
    step guard lookup accept finish next w st = (Ok r, add_calls cs st)
    /\ sublist cs (mine ++ rest).
Proof.
  intros Hl Hmine Hnext. rewrite step_run by done.
  destruct guard.
  - destruct (answer lookup w) as [m|]; [destruct (accept m)|].
    + eexists _, _. split; [done|]. by apply sublist_inserts_r.
    + destruct (Hnext (add_calls (requests lookup w) st)) as (r & cs & -> & Hcs).
      rewrite add_calls_app. eexists _, _. split; [done|].
      by apply sublist_app.
    + destruct (Hnext (add_calls (requests lookup w) st)) as (r & cs & -> & Hcs).
      rewrite add_calls_app. eexists _, _. split; [done|].
      by apply sublist_app.
  - destruct (Hnext st) as (r & cs & -> & Hcs).
    eexists _, _. split; [done|]. by apply sublist_inserts_l.
Qed.

(** X10. [resolve_metadata] sends at most six requests for a document,
    each at most once and in this order: the DOI lookup, Open Library,
    Google Books, the CrossRef title search, Semantic Scholar, Zotero.
    It changes nothing else: not the files, not the log, not the clock.
    (The document is one that can be read, the settings file one that
    loads.) *)
Theorem resolve_metadata_request_order pdf_path w st :
  (forall doc, fitz_open w pdf_path = Some doc -> doc_raises doc = None) ->
  settings_fault w = None ->
  exists info record cs,
    extract_pdf_info pdf_path w st = (Ok info, st)
    /\ resolve_metadata pdf_path w st = (Ok record, add_calls cs st)
    /\ sublist cs
         [GetCrossrefWork (default [] (info_doi info));
          GetOpenLibrary (default [] (info_isbn info));
          GetGoogleBooks (default [] (info_isbn info));
          GetCrossrefQuery (default [] (info_title_guess info));
          GetSemanticScholar (default [] (info_title_guess info));
          GetZoteroItems (default [] (info_title_guess info))]
    /\ files (add_calls cs st) = files st
    /\ log_file (add_calls cs st) = log_file st
    /\ clock (add_calls cs st) = clock st.
Proof.
  intros Hread Hset.
  destruct (extract_pdf_info_returns pdf_path w st Hread) as [info Hinfo].
  exists info.
  assert (exists record cs,
            resolve_from info pdf_path w st = (Ok record, add_calls cs st)
            /\ sublist cs
                 ([GetCrossrefWork (default [] (info_doi info))]
                  ++ [GetOpenLibrary (default [] (info_isbn info));
                      GetGoogleBooks (default [] (info_isbn info))]
                  ++ [GetCrossrefQuery (default [] (info_title_guess info))]
                  ++ [GetSemanticScholar (default [] (info_title_guess info))]
                  ++ [GetZoteroItems (default [] (info_title_guess info))]
                  ++ []))
    as (record & cs & Hrun & Hsub).
  { unfold resolve_from. revert st Hinfo. intros st _. revert st.
    intros st; apply step_trace; [intros ?; auto with clients| |].
    { destruct (truthy (info_doi info)); [|apply sublist_nil_l].
      by rewrite crossref_lookup_doi_requests. }
    intros st1; apply step_trace; [intros ?; auto with clients| |].
    { destruct (truthy (info_isbn info)); [|apply sublist_nil_l].
      rewrite isbn_lookup_requests.
      destruct (answer _ w); [|done]. by apply sublist_skip, sublist_nil_l. }
    intros st2; apply step_trace; [intros ?; auto with clients| |].
    { destruct (truthy (info_title_guess info)); [|apply sublist_nil_l].
      by rewrite crossref_search_title_requests. }
    intros st3; apply step_trace; [intros ?; auto with clients| |].
    { destruct (truthy (info_title_guess info)); [|apply sublist_nil_l].
      by rewrite semantic_scholar_search_requests. }
    intros st4; apply step_trace; [intros ?; auto with clients| |].
    { destruct (truthy (info_title_guess info)); [|apply sublist_nil_l].
      rewrite zotero_search_requests by done.
      destruct (zotero_api_key _); [apply sublist_nil_l|].
      destruct (zotero_library_id _); [apply sublist_nil_l|done]. }
    intros st5. exists (manual_review_record info pdf_path), [].
    by rewrite add_calls_nil. }
  exists record, cs. split; [done|]. split.
  { unfold resolve_metadata, bind. by rewrite Hinfo. }
  done.
Qed.

(** A title that CrossRef and Semantic Scholar do not know, and no
    library: two requests, and manual review. *)
Lemma resolve_metadata_request_order_witness :
  exists info record cs,
    extract_pdf_info (py "/lib/x.pdf")
      (world_with_pages ["A study of things"%string]) empty_state
    = (Ok info, empty_state)
    /\ resolve_metadata (py "/lib/x.pdf")
         (world_with_pages ["A study of things"%string]) empty_state
       = (Ok record, add_calls cs empty_state)
    /\ sublist cs
         [GetCrossrefWork (default [] (info_doi info));
          GetOpenLibrary (default [] (info_isbn info));
          GetGoogleBooks (default [] (info_isbn info));
          GetCrossrefQuery (default [] (info_title_guess info));
          GetSemanticScholar (default [] (info_title_guess info));
          GetZoteroItems (default [] (info_title_guess info))]
    /\ files (add_calls cs empty_state) = files empty_state
    /\ log_file (add_calls cs empty_state) = log_file empty_state
    /\ clock (add_calls cs empty_state) = clock empty_state.
Proof.
  refine (resolve_metadata_request_order (py "/lib/x.pdf")
            (world_with_pages ["A study of things"%string]) empty_state _ _).
  - by intros doc [= <-].
  - reflexivity.
Defined.


(* ===================================================================== *)
(** ** The batch: results, log and files *)
(* ===================================================================== *)

(** The requests of [zotero_update_attachment]: the children of the
    item, then at most one patch; none without an API key and a library
    identifier. *)
Lemma zotero_update_attachment_requests key name s w st :
  exists b cs,
    zotero_update_attachment key name (Some s) w st = (Ok b, add_calls cs st)
    /\ Forall (fun c => c = GetZoteroChildren key
                        \/ exists child, c = PatchZoteroItem child name) cs
    /\ (zotero_api_key s = [] \/ zotero_library_id s = [] -> cs = []).
Proof.
  unfold zotero_update_attachment, request. run_monad.
  destruct (zotero_api_key s) as [|k1 key1] eqn:Hk.
  { exists false, []. rewrite add_calls_nil. by repeat split. }
  destruct (zotero_library_id s) as [|l1 lib1] eqn:Hl.
  { exists false, []. rewrite add_calls_nil. by repeat split. }
  assert (forall cs : list Call, k1 :: key1 = [] \/ l1 :: lib1 = [] -> cs = [])
    as Hcred by (by intros cs [?|?]).
  destruct (zotero_item_children w s key) as [|status children].
  { exists false, [GetZoteroChildren key]. split; [done|].
    split; [|apply Hcred]. repeat constructor. }
  destruct (negb (status =? 200)%Z).
  { exists false, [GetZoteroChildren key]. split; [done|].
    split; [|apply Hcred]. repeat constructor. }
  destruct (List.find is_pdf_attachment children) as [child|].
  2:{ exists false, [GetZoteroChildren key]. split; [done|].
      split; [|apply Hcred]. repeat constructor. }
  destruct (zotero_patch_item w s _ _ _) as [|pstatus []].
  - exists false, [GetZoteroChildren key; PatchZoteroItem (zc_key child) name].
    split.
    { unfold add_call, add_calls; cbn. by rewrite <- app_assoc. }
    split; [|apply Hcred].
    apply Forall_cons; split; [by left|].
    apply Forall_cons; split; [right; eauto|constructor].
  - eexists _,
      [GetZoteroChildren key; PatchZoteroItem (zc_key child) name].
    split.
    { unfold add_call, add_calls; cbn. by rewrite <- app_assoc. }
    split; [|apply Hcred].
    apply Forall_cons; split; [by left|].
    apply Forall_cons; split; [right; eauto|constructor].
Qed.

(** The three outcomes of one item of a batch: the original is missing;
    the move raises, and nothing has changed; the file has moved and the
    log has one entry more. *)
Lemma rename_one_effect settings session f w st :
  let o := item_original_path f in
  (files st !! o = None
   /\ rename_one settings session f w st
      = (Ok (RenameError o (py "File not found")), st))
  \/ (exists content tgt e,
        files st !! o = Some content
        /\ (files st !! tgt = None \/ tgt = o)
        /\ move_fault w o tgt = Some e
        /\ rename_one settings session f w st = (Ok (RenameError o e), st))
  \/ (exists content tgt z cs,
        files st !! o = Some content
        /\ (files st !! tgt = None \/ tgt = o)
        /\ move_fault w o tgt = None
        /\ rename_one settings session f w st
           = (Ok (RenameSuccess o tgt z),
              {| files := <[tgt := content]> (delete o (files st));
                 log_file :=
                   Some (default [] (log_file st) ++
                     [{| original_path := o; new_path := tgt;
                         timestamp := isoformat w (clock st);
                         metadata_source := default (py "unknown") (item_source f);
                         session_id := session;
                         entry_metadata := item_metadata f; undone := false |}]);
                 clock := S (clock st);
                 calls := calls st ++ cs |})
        /\ Forall (fun c => exists key name,
                       c = GetZoteroChildren key \/ c = PatchZoteroItem key name)
                  cs
        /\ (zotero_api_key settings = [] \/ zotero_library_id settings = []
            \/ item_metadata f ≫= zotero_key = None
            \/ item_metadata f ≫= zotero_key = Some [] -> cs = [])).
Proof.
  intros o. subst o.
  destruct (files st !! item_original_path f) as [content|] eqn:Ho.
  2:{ left. split; [done|]. by apply rename_one_missing. }
  right.
  destruct (resolve_target_total (files st) (item_original_path f)
              (joinpath (parent (item_original_path f)) (item_target_name f)))
    as [tgt Ht].
  assert (files st !! tgt = None \/ tgt = item_original_path f) as Hfree.
  { apply resolve_target_spec in Ht
      as [[[Hfree|Heq] ->]|(_ & _ & k & Hk & -> & Hfree & Hbelow)]; eauto. }
  destruct (move_fault w (item_original_path f) tgt) as [e|] eqn:Hm.
  { left. exists content, tgt, e. repeat (split; [done|]).
    unfold rename_one. run_monad. rewrite Ho. cbn [bool_decide negb].
    rewrite bool_decide_eq_true_2 by done. cbn [negb].
    rewrite Ht. cbn. by rewrite Ho, Hm. }
  right. exists content, tgt.
  unfold rename_one. run_monad. rewrite Ho. cbn [bool_decide negb].
  rewrite bool_decide_eq_true_2 by done. cbn [negb].
  rewrite Ht. cbn. rewrite Ho, Hm.
  destruct (item_metadata f ≫= zotero_key) as [[|c key]|] eqn:Hkey.
  - exists None, []. rewrite app_nil_r. by repeat split.
  - destruct (zotero_api_key settings) as [|k1 key1] eqn:Hk.
    { exists None, []. rewrite app_nil_r. by repeat split. }
    match goal with
    | |- context [zotero_update_attachment ?k ?n (Some ?s) ?w ?st] =>
        destruct (zotero_update_attachment_requests k n s w st)
          as (b & cs & -> & Hcs & Hcred)
    end.
    exists (Some b), cs. do 4 (split; [done|]). split.
    + eapply Forall_impl; [exact Hcs|].
      intros x [->|[child ->]];
        [by exists (c :: key), []; left
        |by exists child, (item_target_name f); right].
    + intros [?|[Hl|[?|?]]]; try done. apply Hcred. rewrite Hk. by right.
  - exists None, []. rewrite app_nil_r. by repeat split.
Qed.

(** Moving a file to a free path, or onto itself, keeps the contents
    that are on disk. *)
Lemma move_keeps_contents (fs : gmap pystr N) src dst content :
  fs !! src = Some content ->
  fs !! dst = None \/ dst = src ->
  (map_to_list (<[dst := content]> (delete src fs))).*2
  ≡ₚ (map_to_list fs).*2.
Proof.
  intros Hs [Hd| ->].
  - rewrite map_to_list_insert.
    + rewrite <- (map_to_list_delete fs src content Hs). done.
    + rewrite lookup_delete_ne; [done|]. intros <-. congruence.
  - by rewrite insert_delete_id.
Qed.

Lemma move_keeps_others (fs : gmap pystr N) src dst content p c :
  fs !! src = Some content ->
  fs !! dst = None \/ dst = src ->
  p <> src ->
  fs !! p = Some c ->
  <[dst := content]> (delete src fs) !! p = Some c.
Proof.
  intros Hs Hd Hp Hc.
  rewrite lookup_insert_ne, lookup_delete_ne; [done..|].
  intros <-. destruct Hd as [Hd| ->]; congruence.
Qed.

(** An invariant of the batch loop is established item by item. *)
Lemma rename_loop_invariant settings session w
    (R : State -> list RenameItem -> list RenameResult -> State -> Prop) :
  (forall st, R st [] [] st) ->
  (forall st f r st1 items rs st2,
      rename_one settings session f w st = (Ok r, st1) ->
      R st1 items rs st2 -> R st (f :: items) (r :: rs) st2) ->
  forall items acc st,
    exists rs st',
      rename_loop settings session items acc w st = (Ok (acc ++ rs), st')
      /\ R st items rs st'.
Proof.
  intros Hnil Hcons items.
  induction items as [|f items IH]; intros acc st; cbn [rename_loop].
  - exists [], st. rewrite app_nil_r. split; [done|apply Hnil].
  - unfold bind.
    destruct (rename_one_returns settings session f w st) as (r & st1 & Hr).
    rewrite Hr.
    destruct (IH (acc ++ [r]) st1) as (rs & st' & -> & HR).
    exists (r :: rs), st'. rewrite <- app_assoc. split; [done|].
    by eapply Hcons.
Qed.

(** An invariant of the batch loop holds of [execute_renames], which
    returns when the settings load. *)
Lemma execute_renames_invariant items session w st
    (R : pystr -> State -> list RenameItem -> list RenameResult -> State
         -> Prop) :
  settings_fault w = None ->
  (forall sid st0, R sid st0 [] [] st0) ->
  (forall sid st0 f r st1 items rs st2,
      rename_one (settings_file w) sid f w st0 = (Ok r, st1) ->
      R sid st1 items rs st2 -> R sid st0 (f :: items) (r :: rs) st2) ->
  exists sid st0 rs st',
    files st0 = files st /\ log_file st0 = log_file st
    /\ calls st0 = calls st
    /\ (forall s, session = Some s -> sid = s)
    /\ execute_renames items session w st = (Ok (rs, sid), st')
    /\ R sid st0 items rs st'.
Proof.
  intros Hset Hnil Hcons.
  destruct (execute_renames_unfold items session w st)
    as (sid & st0 & Hf & Hl & Hc & Hs & Hrun).
  rewrite Hset in Hrun.
  destruct (rename_loop_invariant (settings_file w) sid w (R sid)
              (Hnil sid) (Hcons sid) items [] st0) as (rs & st' & Hr & HR).
  rewrite Hr in Hrun. exists sid, st0, rs, st'.
  repeat (split; [done|]). split; [|done].
  intros s Hsome. by destruct (Hs s Hsome).
Qed.



(** X13. The log only grows under [execute_renames]: the entries that were
    there stay as they were, and one entry is appended for every item
    that succeeded, in batch order, with the original and the new path
    of the result, the session identifier of the batch, and not undone.
    An item that fails leaves no entry.  (The settings file is one
    that loads.) *)
Theorem execute_renames_journal items session w st :
  settings_fault w = None ->
  exists rs sid st' new,
    execute_renames items session w st = (Ok (rs, sid), st')
    /\ default [] (log_file st') = default [] (log_file st) ++ new
    /\ map (fun e => (original_path e, new_path e)) new
       = omap (fun r => match r with
                        | RenameSuccess o t _ => Some (o, t)
                        | RenameError _ _ => None
                        end) rs
    /\ Forall (fun e => undone e = false /\ session_id e = sid) new.
Proof.
  intros Hset.
  destruct (execute_renames_invariant items session w st
              (fun sid st0 _ rs st' =>
                 exists new,
                   default [] (log_file st') = default [] (log_file st0) ++ new
                   /\ map (fun e => (original_path e, new_path e)) new
                      = omap (fun r => match r with
                                       | RenameSuccess o t _ => Some (o, t)
                                       | RenameError _ _ => None
                                       end) rs
                   /\ Forall (fun e => undone e = false /\ session_id e = sid)
                             new) Hset)
    as (sid & st0 & rs & st' & _ & Hlog & _ & _ & Hrun & new & Hnew & Hmap & Hall).
  - intros sid st0. exists []. by rewrite app_nil_r.
  - intros sid st0 f r st1 its rs st2 Hr (new & Hnew & Hmap & Hall).
    destruct (rename_one_effect (settings_file w) sid f w st0)
      as [[_ Hf]|[(content & tgt & e & _ & _ & _ & Hf)
                 |(content & tgt & z & cs & _ & _ & _ & Hf & _)]];
      rewrite Hf in Hr; injection Hr as <- <-.
    + by exists new.
    + by exists new.
    + eexists (_ :: new). cbn [log_file default from_option id] in Hnew.
      rewrite Hnew, <- app_assoc. split; [reflexivity|].
      split; [cbn; by rewrite Hmap|]. by constructor.
  - exists rs, sid, st', new. by rewrite <- Hlog.
Qed.

Lemma execute_renames_journal_witness :
  exists rs sid st' new,
    execute_renames [item_ex "/lib/a.pdf" "A.pdf"; item_ex "/lib/b.pdf" "B.pdf"]
      (Some (py "s1")) silent_world (state_with [("/lib/a.pdf", 1)]%string)
    = (Ok (rs, sid), st')
    /\ default [] (log_file st')
       = default [] (log_file (state_with [("/lib/a.pdf", 1)]%string)) ++ new
    /\ map (fun e => (original_path e, new_path e)) new
       = omap (fun r => match r with
                        | RenameSuccess o t _ => Some (o, t)
                        | RenameError _ _ => None
                        end) rs
    /\ Forall (fun e => undone e = false /\ session_id e = sid) new.
Proof.
  exact (execute_renames_journal
           [item_ex "/lib/a.pdf" "A.pdf"; item_ex "/lib/b.pdf" "B.pdf"]
           (Some (py "s1")) silent_world
           (state_with [("/lib/a.pdf", 1)]%string) eq_refl).
Defined.

(** X14. [execute_renames] loses no file: the contents on disk after the
    batch are those before it, only under other paths.  No file is
    overwritten and none is deleted.  (The settings file is one that
    loads.) *)
Theorem execute_renames_keeps_contents items session w st :
  settings_fault w = None ->
  exists rs sid st',
    execute_renames items session w st = (Ok (rs, sid), st')
    /\ (map_to_list (files st')).*2 ≡ₚ (map_to_list (files st)).*2.
Proof.
  intros Hset.
  destruct (execute_renames_invariant items session w st
              (fun _ st0 _ _ st' =>
                 (map_to_list (files st')).*2 ≡ₚ (map_to_list (files st0)).*2)
              Hset)
    as (sid & st0 & rs & st' & Hfiles & _ & _ & _ & Hrun & HR).
  - done.
  - intros sid st0 f r st1 its rs st2 Hr HR.
    destruct (rename_one_effect (settings_file w) sid f w st0)
      as [[_ Hf]|[(content & tgt & e & _ & _ & _ & Hf)
                 |(content & tgt & z & cs & Ho & Hfree & _ & Hf & _)]];
      rewrite Hf in Hr; injection Hr as <- <-; [done|done|].
    rewrite HR. cbn [files]. by apply move_keeps_contents.
  - exists rs, sid, st'. by rewrite <- Hfiles.
Qed.

Lemma execute_renames_keeps_contents_witness :
  exists rs sid st',
    execute_renames [item_ex "/lib/a.pdf" "b.pdf"] None silent_world
      (state_with [("/lib/a.pdf", 1); ("/lib/b.pdf", 2)]%string)
    = (Ok (rs, sid), st')
    /\ (map_to_list (files st')).*2
       ≡ₚ (map_to_list
             (files (state_with [("/lib/a.pdf", 1); ("/lib/b.pdf", 2)]%string))).*2.
Proof.
  exact (execute_renames_keeps_contents [item_ex "/lib/a.pdf" "b.pdf"] None
           silent_world
           (state_with [("/lib/a.pdf", 1); ("/lib/b.pdf", 2)]%string) eq_refl).
Defined.

(** X15. A file that is not the original of any item of the batch is
    still at its path, with its content, after [execute_renames]: a
    rename never takes the place of another file. *)
Theorem execute_renames_keeps_bystanders items session w st rs sid st' p c :
  execute_renames items session w st = (Ok (rs, sid), st') ->
  files st !! p = Some c ->
  p ∉ map item_original_path items ->
  files st' !! p = Some c.
Proof.
  destruct (settings_fault w) as [e|] eqn:Hset.
  { destruct (execute_renames_unfold items session w st)
      as (sid' & st0 & _ & _ & _ & _ & Hrun).
    rewrite Hset in Hrun. by rewrite Hrun. }
  destruct (execute_renames_invariant items session w st
              (fun _ st0 items _ st' =>
                 files st0 !! p = Some c ->
                 p ∉ map item_original_path items ->
                 files st' !! p = Some c) Hset)
    as (sid' & st0 & rs' & st1 & Hfiles & _ & _ & _ & Hrun & HR).
  - done.
  - intros sid0 st0 f r st1 its rs0 st2 Hr HR Hp Hnot.
    apply not_elem_of_cons in Hnot as [Hne Hnot].
    apply HR; [|done].
    destruct (rename_one_effect (settings_file w) sid0 f w st0)
      as [[_ Hf]|[(content & tgt & e & _ & _ & _ & Hf)
                 |(content & tgt & z & cs & Ho & Hfree & _ & Hf & _)]];
      rewrite Hf in Hr; injection Hr as <- <-; [done|done|].
    cbn [files]. by apply move_keeps_others.
  - rewrite Hrun. intros [= <- <- <-]. rewrite <- Hfiles. exact HR.
Qed.

Lemma execute_renames_keeps_bystanders_witness :
  files (execute_renames [item_ex "/lib/a.pdf" "b.pdf"] (Some (py "s1"))
           silent_world
           (state_with [("/lib/a.pdf", 1); ("/lib/b.pdf", 2)]%string)).2
    !! py "/lib/b.pdf"
  = Some 2.
Proof.
  refine (execute_renames_keeps_bystanders
            [item_ex "/lib/a.pdf" "b.pdf"] (Some (py "s1")) silent_world
            (state_with [("/lib/a.pdf", 1); ("/lib/b.pdf", 2)]%string)
            [RenameSuccess (py "/lib/a.pdf") (py "/lib/b (1).pdf") None]
            (py "s1") _ (py "/lib/b.pdf") 2 _ _ _).
  - by vm_compute.
  - by vm_compute.
  - apply not_elem_of_cons. split; [by vm_compute|apply not_elem_of_nil].
Defined.



(* ===================================================================== *)
(** ** Undo of a session: what it changes *)
(* ===================================================================== *)

(** The outcomes of [undo_single]: an error or an exception, and the
    state is as it was; or a success, with the file moved back and the
    entry flagged. *)
Lemma undo_single_effect w st (i : nat) :
  let log := default [] (log_file st) in
  (exists out, undo_single (Z.of_nat i) w st = (out, st)
               /\ forall p, out <> Ok (UndoSuccess p))
  \/ (exists entry content,
        log !! i = Some entry /\ undone entry = false
        /\ files st !! new_path entry = Some content
        /\ files st !! original_path entry = None
        /\ undo_single (Z.of_nat i) w st
           = (Ok (UndoSuccess (original_path entry)),
              {| files := <[original_path entry := content]>
                            (delete (new_path entry) (files st));
                 log_file := Some (<[i := set_undone entry]> log);
                 clock := clock st;
                 calls := calls st |})).
Proof.
  intros log. rewrite undo_single_unfold. cbn zeta. fold log.
  destruct ((Z.of_nat i <? 0) || _)%Z eqn:Hb; [left; by eexists|].
  destruct (undo_single_in_range _ _ Hb) as [entry He].
  rewrite He. rewrite Nat2Z.id in *.
  destruct (undone entry) eqn:Hu; [left; by eexists|].
  destruct (files st !! new_path entry) as [content|] eqn:Hn;
    [|left; by eexists].
  destruct (files st !! original_path entry) eqn:Ho; [left; by eexists|].
  destruct (move_fault w _ _); [left; by eexists|].
  right. by exists entry, content.
Qed.

(** What a sequence of undos does to the log and to the files, whether
    it returns or raises: entries are only flagged, never moved or
    rewritten; contents are kept. *)
Lemma undo_each_effect indices w st :
  exists out st',
    undo_each indices w st = (out, st')
    /\ length (default [] (log_file st')) = length (default [] (log_file st))
    /\ (forall i e,
          default [] (log_file st) !! i = Some e ->
          default [] (log_file st') !! i = Some e
          \/ (i ∈ indices /\ undone e = false
              /\ default [] (log_file st') !! i = Some (set_undone e)))
    /\ (map_to_list (files st')).*2 ≡ₚ (map_to_list (files st)).*2
    /\ clock st' = clock st /\ calls st' = calls st
    /\ (forall rs, out = Ok rs ->
        Forall (fun r => exists p, r = UndoSuccess p) rs ->
        forall i, i ∈ indices ->
          exists e, default [] (log_file st') !! i = Some e /\ undone e = true).
Proof.
  revert st. induction indices as [|i rest IH]; intros st; cbn [undo_each].
  - exists (Ok []), st. repeat split; eauto.
    intros rs _ _ i Hi. by apply elem_of_nil in Hi.
  - unfold bind.
    destruct (undo_single_effect w st i)
      as [(out & Hr & Hns)|(entry & content & He & Hu & Hn & Ho & Hr)];
      rewrite Hr.
    + destruct out as [r|e].
      * destruct (IH st)
          as (out' & st' & Hrest & Hlen & Hframe & Hperm & Hc & Hcs & _).
        rewrite Hrest.
        exists (match out' with
                | Ok rs => Ok (r :: rs)
                | Raised e => Raised e
                end), st'.
        split; [by destruct out'|]. split; [done|]. split.
        { intros j e Hj. destruct (Hframe j e Hj) as [?|(? & ? & ?)]; [by left|].
          right. split; [by right|done]. }
        split; [done|]. split; [done|]. split; [done|].
        intros rs Hout Hall. destruct out' as [rs0|]; [|done].
        injection Hout as <-.
        apply Forall_cons in Hall as [[p ->] _]. by destruct (Hns p).
      * exists (Raised e), st. split; [done|]. split; [done|].
        split; [by left|]. by repeat split.
    + match goal with
      | |- context [undo_each rest w ?s] => set (st1 := s)
      end.
      destruct (IH st1)
        as (out' & st' & Hrest & Hlen & Hframe & Hperm & Hc & Hcs & Hdone).
      rewrite Hrest.
      assert (default [] (log_file st1)
              = <[i := set_undone entry]> (default [] (log_file st))) as Hlog1
        by done.
      rewrite Hlog1 in Hlen, Hframe.
      assert (i < length (default [] (log_file st)))%nat as Hi
        by (by eapply lookup_lt_Some).
      assert (default [] (log_file st') !! i = Some (set_undone entry)) as Hflag.
      { destruct (Hframe i (set_undone entry)) as [?|(_ & ? & _)]; [|done|done].
        by apply list_lookup_insert_eq. }
      exists (match out' with
              | Ok rs => Ok (UndoSuccess (original_path entry) :: rs)
              | Raised e => Raised e
              end), st'.
      split; [by destruct out'|]. split.
      { by rewrite Hlen, length_insert. }
      split.
      { intros j e Hj. destruct (decide (j = i)) as [->|Hne].
        - rewrite He in Hj. injection Hj as <-. right.
          split; [by left|]. done.
        - destruct (Hframe j e) as [?|(? & ? & ?)].
          + by rewrite list_lookup_insert_ne.
          + by left.
          + right. split; [by right|done]. }
      split.
      { rewrite Hperm. subst st1. cbn [files].
        apply move_keeps_contents; eauto. }
      split; [done|]. split; [done|].
      intros rs Hout Hall j Hj. destruct out' as [rs0|]; [|done].
      injection Hout as <-. apply Forall_cons in Hall as [_ Hall].
      apply elem_of_cons in Hj as [->|Hj]; [|by apply (Hdone rs0)].
      by exists (set_undone entry).
Qed.

(** X17. [undo_session] only flags entries: the log keeps its length and
    its order, an entry of another session or one that is already undone
    stays as it is, and an entry of the session is either unchanged or
    differs in its [undone] flag alone, now set.  The contents on disk
    are kept, and no request is sent. *)
Theorem undo_session_frame session w st rs st' :
  undo_session session w st = (Ok rs, st') ->
  length (default [] (log_file st')) = length (default [] (log_file st))
  /\ (forall i e,
        default [] (log_file st) !! i = Some e ->
        default [] (log_file st') !! i = Some e
        \/ (session_id e = session /\ undone e = false
            /\ default [] (log_file st') !! i = Some (set_undone e)))
  /\ (map_to_list (files st')).*2 ≡ₚ (map_to_list (files st)).*2
  /\ clock st' = clock st /\ calls st' = calls st.
Proof.
  rewrite undo_session_run.
  destruct (undo_each_effect
              (session_indices session (default [] (log_file st))) w st)
    as (out & st0 & -> & Hlen & Hframe & Hperm & Hc & Hcs & _).
  intros [= -> <-]. split; [done|]. split; [|done].
  intros i e Hi. destruct (Hframe i e Hi) as [?|(Hin & Hu & Hf)]; [by left|].
  right. split; [|done].
  apply session_indices_from_spec in Hin as (_ & e' & He' & Hs & _).
  rewrite Nat.sub_0_r, Hi in He'. by injection He' as <-.
Qed.

Lemma undo_session_frame_witness :
  length (default [] (log_file
     (undo_session (py "s1") silent_world
        (set_log_file
           (Some [entry_ex "/lib/a.pdf" "/lib/A.pdf" "s1" false;
                  entry_ex "/lib/b.pdf" "/lib/B.pdf" "s2" false])
           (state_with [("/lib/A.pdf", 1); ("/lib/B.pdf", 2)]%string))).2))
  = 2%nat.
Proof.
  refine (proj1 (undo_session_frame (py "s1") silent_world
            (set_log_file
               (Some [entry_ex "/lib/a.pdf" "/lib/A.pdf" "s1" false;
                      entry_ex "/lib/b.pdf" "/lib/B.pdf" "s2" false])
               (state_with [("/lib/A.pdf", 1); ("/lib/B.pdf", 2)]%string))
            [UndoSuccess (py "/lib/a.pdf")] _ _)).
  by vm_compute.
Defined.

(** X18. When every undo of a session succeeded, nothing of the session
    is left to undo: a second [undo_session] returns no result and
    changes nothing. *)
Theorem undo_session_twice session w st rs st' :
  undo_session session w st = (Ok rs, st') ->
  Forall (fun r => exists p, r = UndoSuccess p) rs ->
  undo_session session w st' = (Ok [], st').
Proof.
  rewrite undo_session_run.
  destruct (undo_each_effect
              (session_indices session (default [] (log_file st))) w st)
    as (out & st0 & -> & Hlen & Hframe & _ & _ & _ & Hdone).
  intros [= -> <-] Hall. rewrite undo_session_run.
  assert (session_indices session (default [] (log_file st0)) = []) as ->;
    [|done].
  apply elem_of_nil_inv. intros j Hj.
  apply session_indices_from_spec in Hj as (_ & e' & He' & Hs & Hu).
  rewrite Nat.sub_0_r in He'.
  assert (j < length (default [] (log_file st)))%nat as Hlt.
  { rewrite <- Hlen. by eapply lookup_lt_Some. }
  apply lookup_lt_is_Some in Hlt as [e He].
  destruct (Hframe j e He) as [Hsame|(_ & _ & Hflag)].
  - rewrite He' in Hsame. injection Hsame as ->.
    destruct (Hdone rs eq_refl Hall j) as (e2 & He2 & Hu2).
    + apply session_indices_from_spec. split; [lia|].
      exists e. by rewrite Nat.sub_0_r.
    + rewrite He' in He2. injection He2 as <-. congruence.
  - rewrite He' in Hflag. injection Hflag as ->. done.
Qed.

Lemma undo_session_twice_witness :
  undo_session (py "s1") silent_world
    (undo_session (py "s1") silent_world
       (set_log_file
          (Some [entry_ex "/lib/a.pdf" "/lib/A.pdf" "s1" false;
                 entry_ex "/lib/b.pdf" "/lib/B.pdf" "s1" false])
          (state_with [("/lib/A.pdf", 1); ("/lib/B.pdf", 2)]%string))).2
  = (Ok [],
     (undo_session (py "s1") silent_world
       (set_log_file
          (Some [entry_ex "/lib/a.pdf" "/lib/A.pdf" "s1" false;
                 entry_ex "/lib/b.pdf" "/lib/B.pdf" "s1" false])
          (state_with [("/lib/A.pdf", 1); ("/lib/B.pdf", 2)]%string))).2).
Proof.
  refine (undo_session_twice (py "s1") silent_world
            (set_log_file
               (Some [entry_ex "/lib/a.pdf" "/lib/A.pdf" "s1" false;
                      entry_ex "/lib/b.pdf" "/lib/B.pdf" "s1" false])
               (state_with [("/lib/A.pdf", 1); ("/lib/B.pdf", 2)]%string))
            [UndoSuccess (py "/lib/a.pdf"); UndoSuccess (py "/lib/b.pdf")]
            _ _ _).
  - by vm_compute.
  - repeat constructor; eauto.
Defined.

(* ===================================================================== *)
(** ** A batch and its undo *)
(* ===================================================================== *)







(* ===================================================================== *)
(** ** File names: the sanitized form and the author part *)
(* ===================================================================== *)

Lemma rfind_not_in c (s : pystr) : c ∉ s -> rfind c s = None.
Proof.
  induction s as [|x s IH]; [done|].
  intros [Hx Hs]%not_elem_of_cons. cbn [rfind]. rewrite IH by done.
  destruct (x =? c) eqn:E; [|done]. apply N.eqb_eq in E. congruence.
Qed.

(** X. Whatever its input, [_sanitize_filename] returns a name without
    any of the characters < > : / \ | ? * and the double quote, in which
    white space occurs only as single spaces between other characters,
    and of at most 200 characters.  In particular the name holds no path
    separator. *)
Theorem sanitize_filename_form name :
  Forall (fun c => is_forbidden c = false) (_sanitize_filename name)
  /\ well_spaced false (_sanitize_filename name) = true
  /\ head_ok is_space (_sanitize_filename name)
  /\ last_ok is_space (_sanitize_filename name)
  /\ (length (_sanitize_filename name) <= 200)%nat
  /\ rfind slash (_sanitize_filename name) = None.
Proof.
  destruct (sanitize_with_sanitized normalize_NFKD name)
    as (Hf & Hw & Hh & Hl & Hlen).
  fold (_sanitize_filename name) in *.
  repeat (split; [done|]).
  apply rfind_not_in. intros Hin.
  by apply (proj1 (Forall_forall _ _) Hf) in Hin.
Qed.

Lemma split_on_head_no_sep sep s :
  Forall (fun c => c <> sep) (default [] (head (split_on sep s))).
Proof.
  destruct (split_on sep s) as [|w ws] eqn:E; [constructor|].
  apply split_on_no_sep with (s := s). rewrite E. by left.
Qed.

Lemma last_name_no_comma a : Forall (fun c => c <> ch ",") (last_name a).
Proof.
  unfold last_name, strip. apply Forall_strip_by, split_on_head_no_sep.
Qed.

(** X. The author part of a file name never holds a comma: it is
    [Unknown] for no author, the part of the name before its first comma
    for one author, two such parts joined by an ampersand for two, and
    the first followed by [et al.] for more. *)
Theorem format_author_no_comma authors :
  Forall (fun c => c <> ch ",") (_format_author authors)
  /\ (authors = [] -> _format_author authors = py "Unknown")
  /\ (forall a, authors = [a] -> _format_author authors = last_name a)
  /\ (forall a b, authors = [a; b] ->
        _format_author authors = last_name a ++ py " & " ++ last_name b)
  /\ (forall a b c rest, authors = a :: b :: c :: rest ->
        _format_author authors = last_name a ++ py " et al.").
Proof.
  split.
  - destruct authors as [|a [|b [|c rest]]]; cbn [_format_author map].
    + by apply Forall_forall; intros c Hc%list_elem_of_In; cbn in Hc;
        repeat destruct Hc as [<-|Hc].
    + apply last_name_no_comma.
    + repeat apply Forall_app_2; try apply last_name_no_comma.
      by repeat constructor.
    + apply Forall_app_2; [apply last_name_no_comma|].
      by repeat constructor.
  - split; [by intros ->|]. split; [by intros a ->|].
    split; [by intros a b ->|]. by intros a b c rest ->.
Qed.

Lemma split_on_no_sep_id sep (s : pystr) :
  Forall (fun c => c <> sep) s -> split_on sep s = [s].
Proof.
  induction 1 as [|c s Hc _ IH]; [done|].
  cbn [split_on]. rewrite IH.
  by destruct (c =? sep) eqn:E; [apply N.eqb_eq in E|].
Qed.

Lemma split_on_app_sep sep (a t : pystr) :
  Forall (fun c => c <> sep) a ->
  split_on sep (a ++ sep :: t) = a :: split_on sep t.
Proof.
  induction 1 as [|c a Hc _ IH]; cbn [app split_on].
  - by rewrite N.eqb_refl.
  - rewrite IH. by destruct (c =? sep) eqn:E; [apply N.eqb_eq in E|].
Qed.

(** The family name of a CrossRef author comes back as the last name,
    when it holds no comma and neither starts nor ends with white
    space. *)
Lemma last_name_crossref_author family given :
  family <> [] ->
  Forall (fun c => c <> ch ",") family ->
  head_ok is_space family -> last_ok is_space family ->
  map last_name (crossref_author (family, given)) = [family].
Proof.
  intros Hne Hcomma Hhead Hlast.
  unfold crossref_author. cbn [fst snd].
  destruct family as [|c0 f0] eqn:Hfam; [done|]. rewrite <- Hfam in *.
  cbn [map]. f_equal.
  set (d := one_of ", ").
  assert (forall c, c ∈ family -> c <> ch ",") as Hc
    by (by apply Forall_forall).
  assert (forall c, d c = true -> c = ch "," \/ c = 32) as Hd.
  { intros c H. apply one_of_cases, list_elem_of_In in H. cbn in H.
    destruct H as [<-|[<-|[]]]; [by left|by right]. }
  assert (head_ok d family) as Hhead'.
  { rewrite Hfam in *. cbn in *. destruct (d c0) eqn:E; [|done].
    destruct (Hd _ E) as [->| ->]; [|done].
    exfalso. apply (Hc (ch ",")); [by left|done]. }
  assert (exists a c, family = a ++ [c] /\ d c = false) as (a & c & Ha & Hdc).
  { destruct (last family) as [c|] eqn:El.
    - apply last_Some in El as [a ->]. exists a, c. split; [done|].
      unfold last_ok in Hlast. rewrite last_snoc in Hlast.
      destruct (d c) eqn:E; [|done].
      destruct (Hd _ E) as [->| ->]; [|done].
      exfalso. apply (Hc (ch ",")); [|done]. apply elem_of_app. right. by left.
    - apply last_None in El. congruence. }
  unfold strip_by.
  rewrite (lstrip_by_fix d) by (by rewrite Hfam in *).
  assert (exists t, rstrip_by d (family ++ py ", " ++ given) = family ++ t
                    /\ (t = [] \/ exists t', t = ch "," :: t')) as (t & -> & Ht).
  { rewrite Ha, <- (assoc_L app). cbn [app].
    rewrite rstrip_by_app_keep by done.
    exists (rstrip_by d (py ", " ++ given)).
    split; [by rewrite <- (assoc_L app)|].
    destruct (rstrip_by_prefix d (py ", " ++ given)) as [u Hu].
    destruct (rstrip_by d (py ", " ++ given)) as [|x r]; [by left|].
    right. exists r. cbn in Hu. by injection Hu as <- _. }
  unfold last_name.
  assert (head (split_on (ch ",") (family ++ t)) = Some family) as ->.
  { destruct Ht as [->|[t' ->]].
    - by rewrite app_nil_r, split_on_no_sep_id.
    - by rewrite split_on_app_sep. }
  cbn [default from_option id]. unfold strip, strip_by.
  by rewrite lstrip_by_fix, rstrip_by_fix.
Qed.

(** X. For a CrossRef work whose authors have family names without
    comma and without white space at either end, the last names that
    [_format_author] reads from the parsed record are the family names,
    whatever the given names are. *)
Theorem format_author_crossref item :
  Forall (fun a => a.1 <> []
                   /\ Forall (fun c => c <> ch ",") a.1
                   /\ head_ok is_space a.1 /\ last_ok is_space a.1)
         (cr_author item) ->
  map last_name (authors (_parse_crossref_item item)) = (cr_author item).*1
  /\ _format_author (authors (_parse_crossref_item item))
     = match (cr_author item).*1 with
       | [] => py "Unknown"
       | [a] => a
       | [a; b] => a ++ py " & " ++ b
       | a :: _ => a ++ py " et al."
       end.
Proof.
  intros Hall. cbn [_parse_crossref_item authors].
  assert (map last_name (concat (map crossref_author (cr_author item)))
          = (cr_author item).*1) as Hmap.
  { induction Hall as [|[family given] l (H1 & H2 & H3 & H4) _ IH]; [done|].
    cbn [map concat fmap list_fmap fst]. rewrite map_app.
    rewrite last_name_crossref_author by done. by rewrite IH. }
  split; [done|].
  unfold _format_author. rewrite Hmap.
  destruct (concat (map crossref_author (cr_author item))) eqn:E.
  - cbn in Hmap. by rewrite <- Hmap.
  - by destruct ((cr_author item).*1) as [|a [|b [|c rest]]].
Qed.

Lemma format_author_crossref_witness :
  map last_name
    (authors (_parse_crossref_item
       {| cr_author := [(py "van Dyke", py "Mary, Jr."); (py "Li", [])];
          cr_title := []; cr_published_print := []; cr_published_online := [];
          cr_created := []; cr_short_container_title := [];
          cr_container_title := []; cr_publisher := []; cr_DOI := [] |}))
  = [py "van Dyke"; py "Li"]
  /\ _format_author
       (authors (_parse_crossref_item
          {| cr_author := [(py "van Dyke", py "Mary, Jr."); (py "Li", [])];
             cr_title := []; cr_published_print := []; cr_published_online := [];
             cr_created := []; cr_short_container_title := [];
             cr_container_title := []; cr_publisher := []; cr_DOI := [] |}))
     = py "van Dyke" ++ py " & " ++ py "Li".
Proof.
  refine (format_author_crossref
            {| cr_author := [(py "van Dyke", py "Mary, Jr."); (py "Li", [])];
               cr_title := []; cr_published_print := [];
               cr_published_online := []; cr_created := [];
               cr_short_container_title := []; cr_container_title := [];
               cr_publisher := []; cr_DOI := [] |} _).
  cbn [cr_author].
  repeat (apply Forall_cons_2;
          [split; [by vm_compute|]; split;
           [vm_compute; repeat (apply Forall_cons_2; [done|]); apply Forall_nil_2
           |split; by vm_compute]|]).
  apply Forall_nil_2.
Defined.
